(** * Scoring ledger: a shallow embedding of the auditor-facing core

    The development follows the Python sources module by module:
    - [models.py]            records of the ledger data model, [derive_means],
                             [MinerMetrics.from_accumulator];
    - [redaction.py]         allow-lists, the Tier-3 deny-list, [redact];
    - [signer.py], [verifier.py]
                             manifest signing payload, signature check and the
                             manifest verifier;
    - [compute_weights.py]   the shared weight computation, as a function of
                             its arguments and call by call in an explicit
                             ambient state;
    - [store/filesystem.py]  the directory-backed ledger store;
    - [auditor/sync.py], [auditor/runtime.py]
                             the auditor's sync cycle and epoch-change policy;
    - [exporter.py]          building and signing checkpoints and deltas,
                             [bump_epoch];
    - [auditor/plugin_registry.py], [auditor/attestation.py],
      [auditor/plugins/weight_verification.py]
                             the plugin registry, attestations and the
                             weight plugin.

    Python [float] is IEEE-754 binary64 and is embedded as Rocq's primitive
    [float]; numpy [float32] values are binary64 values rounded to binary32.
    Python [int] is [Z], [str] is [string] (a byte string, compared
    lexicographically as Python compares code points), [dict] is a finite
    map, and an object mutated in place is threaded explicitly. *)

From Stdlib Require Import ZArith List String Ascii Floats Lia Bool.
From stdpp Require Import gmap strings list sorting pretty.

Local Open Scope string_scope.
Local Open Scope Z_scope.

#[local] Set Warnings "-inexact-float".

(** ** Python built-ins used by the sources *)

Module Py.

(** Truth value of a [float]: only [0.0] and [-0.0] are falsy; NaN is truthy. *)
Definition truthy (x : float) : bool := negb (PrimFloat.eqb x 0%float).

Definition is_nan (x : float) : bool := negb (PrimFloat.eqb x x).

(** Exceptions that the modelled code can raise. *)
Inductive exn : Type :=
| TypeError | ValueError | OverflowError | AttributeError.

(** A computation that returns a value or raises. *)
Inductive result (A : Type) : Type :=
| Ok (a : A)
| Raise (e : exn).
Arguments Ok {A} a.
Arguments Raise {A} e.

Definition bind {A B} (m : result A) (k : A -> result B) : result B :=
  match m with
  | Ok a => k a
  | Raise e => Raise e
  end.

Definition is_ok {A} (m : result A) : bool :=
  match m with Ok _ => true | Raise _ => false end.

(** [s1 < s2] and [s1 > s2] on [str]. *)
Definition str_lt (s1 s2 : string) : bool := String.ltb s1 s2.
Definition str_gt (s1 s2 : string) : bool := String.ltb s2 s1.

(** [str(n)] for an [int]. *)
Definition str_of_int (n : Z) : string := pretty n.

(** [s[:n]] *)
Definition str_take (n : nat) (s : string) : string := String.substring 0 n s.

End Py.

#[global] Instance result_ret : MRet Py.result := @Py.Ok.
#[global] Instance result_bind : MBind Py.result := fun A B k m => Py.bind m k.

(** JSON values, the target of pydantic's [model_dump(mode="json")] and the
    type of the opaque scoring parameters. *)
#[warnings="-register-all"]
Inductive json : Type :=
| JNull
| JBool (b : bool)
| JInt (n : Z)
| JFloat (x : float)
| JStr (s : string)
| JArr (items : list json)
| JObj (fields : list (string * json)).

(** [d.get(key)] on a JSON object held as a [dict]. *)
Fixpoint dict_get (key : string) (d : list (string * json)) : option json :=
  match d with
  | [] => None
  | (k, v) :: rest => if String.eqb k key then Some v else dict_get key rest
  end.

(** [d.pop(key, None)]: the dictionary without [key]. *)
Definition dict_pop (key : string) (d : list (string * json)) : list (string * json) :=
  List.filter (fun kv => negb (String.eqb (fst kv) key)) d.

(** ** [datetime] *)

Module datetime.

Record t : Type := mk {
  year : Z; month : Z; day : Z;
  hour : Z; minute : Z; second : Z;
  microsecond : Z;
  utcoffset : option Z  (* tzinfo, minutes east of UTC; [None] when naive *)
}.

Definition digit (n : Z) : ascii := ascii_of_N (Z.to_N (48 + n mod 10)).

Definition pad2 (n : Z) : string :=
  String (digit (n / 10)) (String (digit n) EmptyString).

Definition pad4 (n : Z) : string :=
  String (digit (n / 1000)) (String (digit (n / 100)) (pad2 n)).

(** [dt.strftime("%Y%m%dT%H%M%S")]; the time zone and the microseconds are
    not printed.  ([%Y] is printed on four digits, as for years from 1000.) *)
Definition strftime (dt : t) : string :=
  pad4 (year dt) ++ pad2 (month dt) ++ pad2 (day dt) ++ "T"
  ++ pad2 (hour dt) ++ pad2 (minute dt) ++ pad2 (second dt).

(** Ranges that Python's [datetime] enforces (years from 1000, see [strftime]). *)
Definition in_range (dt : t) : Prop :=
  1000 <= year dt <= 9999 /\ 1 <= month dt <= 12 /\ 1 <= day dt <= 31
  /\ 0 <= hour dt < 24 /\ 0 <= minute dt < 60 /\ 0 <= second dt < 60.

(** The instant printed by [strftime], as a count in a mixed-radix calendar
    code: it orders two datetimes as their printed fields do. *)
Definition seconds_key (dt : t) : Z :=
  ((((year dt * 100 + month dt) * 100 + day dt) * 100 + hour dt) * 100
   + minute dt) * 100 + second dt.

End datetime.

(** ** [models.py] *)

Definition LEDGER_SCHEMA_VERSION : Z := 1.

Module RecomputeRecord.
Record t : Type := mk {
  epoch : Z;
  previous_epoch : Z;
  reason_code : string;
  reason_detail : string;
  affected_event_ids : list Z;
  severity : string;
  timestamp : datetime.t;
  code_version : string
}.

(** What pydantic validation enforces on construction:
    [reason_detail] and [code_version] have [min_length=1]. *)
Definition validated (r : t) : Prop :=
  reason_detail r <> "" /\ code_version r <> "".
End RecomputeRecord.

Module LedgerManifest.
Record t : Type := mk {
  schema_version : Z;
  window_type : string;
  window_start : datetime.t;
  window_end : datetime.t;
  checkpoint_epoch : Z;
  content_hashes : gmap string string;
  primary_hotkey : string;
  signature : string;
  created_at : datetime.t;
  recompute_record : option RecomputeRecord.t
}.

Definition set_signature (sig : string) (m : t) : t :=
  mk (schema_version m) (window_type m) (window_start m) (window_end m)
     (checkpoint_epoch m) (content_hashes m) (primary_hotkey m) sig
     (created_at m) (recompute_record m).
End LedgerManifest.

Module MetricAccumulator.
Record t : Type := mk { ws : float; wt : float }.
End MetricAccumulator.

Module AccumulatorEntry.
Import MetricAccumulator.

Record t : Type := mk {
  miner_id : Z;
  hotkey : string;
  uid : Z;
  n_submissions : Z;
  n_outcomes : Z;
  brier : MetricAccumulator.t;
  fq : MetricAccumulator.t;
  pss : MetricAccumulator.t;
  es : MetricAccumulator.t;
  mes : MetricAccumulator.t;
  sos : MetricAccumulator.t;
  lead : MetricAccumulator.t;
  brier_mean : float;
  fq_raw : float;
  pss_mean : float;
  es_adj : float;
  mes_mean : float;
  sos_score : float;
  lead_score : float;
  cal_score : float;
  sharp_score : float
}.

(** [derive_means] assigns seven attributes of [self]; the entry after the
    call is returned.  The division is guarded by the truth value of [wt],
    so Python's [ZeroDivisionError] cannot occur. *)
Definition derive_means (self : t) : t :=
  let brier_mean' :=
    if Py.truthy (wt (brier self)) then (ws (brier self) / wt (brier self))%float else 0%float in
  let fq_raw' :=
    if Py.truthy (wt (fq self)) then (ws (fq self) / wt (fq self))%float else 0%float in
  let pss_mean' :=
    if Py.truthy (wt (pss self)) then (ws (pss self) / wt (pss self))%float else 0%float in
  let es_adj' :=
    if Py.truthy (wt (es self)) then (ws (es self) / wt (es self))%float else 0%float in
  let mes_mean' :=
    if Py.truthy (wt (mes self)) then (ws (mes self) / wt (mes self))%float else 0.5%float in
  let sos_score' :=
    if Py.truthy (wt (sos self)) then (ws (sos self) / wt (sos self))%float else 0.5%float in
  let lead_score' :=
    if Py.truthy (wt (lead self)) then (ws (lead self) / wt (lead self))%float else 0.5%float in
  mk (miner_id self) (hotkey self) (uid self) (n_submissions self) (n_outcomes self)
     (brier self) (fq self) (pss self) (es self) (mes self) (sos self) (lead self)
     brier_mean' fq_raw' pss_mean' es_adj' mes_mean' sos_score' lead_score'
     (cal_score self) (sharp_score self).

(** The entry with its seven published derived means replaced. *)
Definition with_published_means (a : t) (b f p e m s l : float) : t :=
  mk (miner_id a) (hotkey a) (uid a) (n_submissions a) (n_outcomes a)
     (brier a) (fq a) (pss a) (es a) (mes a) (sos a) (lead a)
     b f p e m s l (cal_score a) (sharp_score a).
End AccumulatorEntry.

Module MinerRosterEntry.
Record t : Type := mk { miner_id : Z; uid : Z; hotkey : string; active : bool }.
End MinerRosterEntry.

Module ScoringConfigSnapshot.
(** [params: dict[str, Any]] *)
Record t : Type := mk { params : list (string * json) }.
End ScoringConfigSnapshot.

Module ChainParamsSnapshot.
Record t : Type := mk {
  burn_rate : float;
  burn_uid : option Z;
  max_weight_limit : float;
  min_allowed_weights : Z;
  n_neurons : Z
}.
End ChainParamsSnapshot.

Module CheckpointWindow.
Record t : Type := mk {
  manifest : LedgerManifest.t;
  roster : list MinerRosterEntry.t;
  accumulators : list AccumulatorEntry.t;
  scoring_config : ScoringConfigSnapshot.t;
  chain_params : option ChainParamsSnapshot.t
}.
End CheckpointWindow.

Module SettledSubmissionEntry.
Record t : Type := mk {
  miner_id : Z;
  market_id : Z;
  side : string;
  imp_prob : float;
  brier : option float;
  pss : option float;
  settled_at : datetime.t
}.
End SettledSubmissionEntry.

Module OutcomeEntry.
Record t : Type := mk {
  market_id : Z;
  event_id : Z;
  result : option string;
  score_home : option float;
  score_away : option float;
  settled_at : datetime.t
}.
End OutcomeEntry.

Module DeltaWindow.
Record t : Type := mk {
  manifest : LedgerManifest.t;
  settled_submissions : list SettledSubmissionEntry.t;
  settled_outcomes : list OutcomeEntry.t
}.
End DeltaWindow.

Module MinerMetrics.
Record t : Type := mk {
  uid : Z;
  hotkey : string;
  fq_raw : float;
  pss_mean : float;
  es_adj : float;
  mes_mean : float;
  cal_score : float;
  sharp_score : float;
  sos_score : float;
  lead_score : float;
  brier_mean : float
}.

(** [from_accumulator(acc)] first calls [acc.derive_means()], which mutates
    the caller's object, then reads the attributes.  The pair is the entry
    as the caller sees it afterwards and the returned metrics. *)
Definition from_accumulator (acc : AccumulatorEntry.t) : AccumulatorEntry.t * t :=
  let acc := AccumulatorEntry.derive_means acc in
  (acc,
   mk (AccumulatorEntry.uid acc) (AccumulatorEntry.hotkey acc)
      (AccumulatorEntry.fq_raw acc) (AccumulatorEntry.pss_mean acc)
      (AccumulatorEntry.es_adj acc) (AccumulatorEntry.mes_mean acc)
      (AccumulatorEntry.cal_score acc) (AccumulatorEntry.sharp_score acc)
      (AccumulatorEntry.sos_score acc) (AccumulatorEntry.lead_score acc)
      (AccumulatorEntry.brier_mean acc)).
End MinerMetrics.


(** ** [redaction.py] *)

Module Redaction.

Inductive DataTier : Type := PUBLIC | VALIDATOR_GATED | PRIMARY_ONLY.

Definition SAFE_ACCUMULATOR_FIELDS : gset string :=
  list_to_set
    [ "miner_id"; "hotkey"; "uid"; "n_submissions"; "n_outcomes";
      "brier"; "fq"; "pss"; "es"; "mes"; "sos"; "lead";
      "brier_mean"; "fq_raw"; "pss_mean"; "es_adj"; "mes_mean";
      "sos_score"; "lead_score"; "cal_score"; "sharp_score" ].

Definition SAFE_ROLLING_SCORE_FIELDS : gset string :=
  list_to_set
    [ "miner_id"; "miner_hotkey"; "uid"; "n_submissions"; "n_eff";
      "es_mean"; "es_std"; "es_adj"; "mes_mean"; "sos_mean"; "pss_mean";
      "fq_raw"; "brier_mean"; "lead_ratio"; "fq_score"; "cal_score";
      "sharp_score"; "edge_score"; "mes_score"; "sos_score"; "lead_score";
      "forecast_dim"; "econ_dim"; "info_dim"; "skill_score"; "score_version";
      "as_of"; "window_days";
      "brier_ws"; "brier_wt"; "fq_ws"; "fq_wt"; "pss_ws"; "pss_wt";
      "es_ws"; "es_wt"; "mes_ws"; "mes_wt"; "sos_ws"; "sos_wt";
      "lead_ws"; "lead_wt" ].

Definition SAFE_OUTCOME_FIELDS : gset string :=
  list_to_set
    [ "market_id"; "event_id"; "result"; "score_home"; "score_away"; "settled_at" ].

Definition SAFE_MINER_FIELDS : gset string :=
  list_to_set [ "miner_id"; "uid"; "hotkey"; "active" ].

Definition SAFE_SETTLED_SUBMISSION_FIELDS : gset string :=
  list_to_set
    [ "miner_id"; "market_id"; "side"; "imp_prob"; "brier"; "pss"; "settled_at" ].

Definition TIER3_FIELD_PATTERNS : gset string :=
  list_to_set
    [ "provider_quote"; "odds_eu_close"; "imp_prob_close"; "imp_prob_norm_close";
      "ts_close"; "raw";
      "ground_truth_snapshot"; "ground_truth_closing"; "sportsbook_bias";
      "close_odds_eu"; "close_imp_prob"; "close_imp_prob_norm";
      "clv_odds"; "clv_prob"; "cle"; "minutes_to_close"; "snapshot_prob";
      "snapshot_odds";
      "ext_ref";
      "odds_eu"; "priced_at"; "payload"; "submitted_at" ].

(** A row is a [dict[str, Any]]; a value is [None] or some value of [V].
    The insertion order of a [dict] plays no role in this module. *)
Definition redact {V : Type} (row : gmap string (option V)) (allowlist : gset string)
  : gmap string (option V) :=
  filter (fun kv => kv.1 ∈ allowlist /\ is_Some kv.2) row.

Definition contains_tier3 {V : Type} (row : gmap string (option V)) : bool :=
  bool_decide (dom row ∩ TIER3_FIELD_PATTERNS ≠ ∅).

Definition classify_field (field_name : string) : DataTier :=
  if bool_decide (field_name ∈ TIER3_FIELD_PATTERNS) then PRIMARY_ONLY
  else
    let tier2_fields :=
      SAFE_ROLLING_SCORE_FIELDS ∪ SAFE_OUTCOME_FIELDS ∪ SAFE_MINER_FIELDS
      ∪ SAFE_SETTLED_SUBMISSION_FIELDS ∪ SAFE_ACCUMULATOR_FIELDS in
    if bool_decide (field_name ∈ tier2_fields) then VALIDATOR_GATED else PUBLIC.

(** The per-shape Tier-2 allow-lists. *)
Definition tier2_allowlists : list (gset string) :=
  [ SAFE_ACCUMULATOR_FIELDS; SAFE_ROLLING_SCORE_FIELDS; SAFE_OUTCOME_FIELDS;
    SAFE_MINER_FIELDS; SAFE_SETTLED_SUBMISSION_FIELDS ].

End Redaction.


(** ** Collaborators outside the sources

    Library routines and repository modules that the sources import but
    that are not part of them are interfaces here. *)

(** [bytes] values are byte strings. *)
Abbreviation bytes := string (only parsing).

(** pydantic's JSON form of a [datetime] (an ISO 8601 string). *)
Class Pydantic : Type := {
  dump_datetime : datetime.t -> string
}.

(** [sparket.validator.scoring.determinism.compute_hash]: the hex digest of
    the canonical JSON form of a value.  The module is imported by
    [signer.py] and lies outside the ledger package. *)
Class Determinism : Type := {
  compute_hash : json -> string
}.

(** The bittensor wallet and keypair.  [hotkey_sign w msg] is
    [w.hotkey.sign(msg)] (for a randomised scheme the wallet value carries
    the randomness used); [keypair_verify a msg sig] is
    [bt.Keypair(ss58_address=a).verify(msg, sig)], which may raise. *)
Class Bittensor : Type := {
  Wallet : Type;
  ss58_address : Wallet -> string;
  hotkey_sign : Wallet -> bytes -> bytes;
  keypair_verify : string -> bytes -> bytes -> Py.result bool
}.

(** ** [bytes.hex] and [bytes.fromhex] *)

Module Hex.

Definition hex_digit (n : N) : ascii :=
  if (n <? 10)%N then ascii_of_N (48 + n) else ascii_of_N (87 + n).

(** [b.hex()]: two lowercase digits per byte. *)
Fixpoint hex (b : bytes) : string :=
  match b with
  | EmptyString => EmptyString
  | String c rest =>
      let n := N_of_ascii c in
      String (hex_digit (n / 16)) (String (hex_digit (n mod 16)) (hex rest))
  end.

Definition digit_value (c : ascii) : option N :=
  let n := N_of_ascii c in
  if ((48 <=? n) && (n <=? 57))%N then Some (n - 48)%N
  else if ((97 <=? n) && (n <=? 102))%N then Some (n - 87)%N
  else if ((65 <=? n) && (n <=? 70))%N then Some (n - 55)%N
  else None.

(** ASCII whitespace, which [fromhex] skips between bytes. *)
Definition is_space (c : ascii) : bool :=
  let n := N_of_ascii c in
  ((n =? 32) || ((9 <=? n) && (n <=? 13)))%N.

(** [bytes.fromhex(s)]; [None] stands for [ValueError].  [pending] is the
    high digit of a byte whose low digit is still to be read. *)
Fixpoint fromhex_from (pending : option N) (s : string) : option bytes :=
  match s, pending with
  | EmptyString, None => Some EmptyString
  | EmptyString, Some _ => None
  | String c rest, None =>
      if is_space c then fromhex_from None rest
      else match digit_value c with
           | Some h => fromhex_from (Some h) rest
           | None => None
           end
  | String c rest, Some h =>
      match digit_value c with
      | Some l =>
          match fromhex_from None rest with
          | Some b => Some (String (ascii_of_N (16 * h + l)) b)
          | None => None
          end
      | None => None
      end
  end.

Definition fromhex (s : string) : option bytes := fromhex_from None s.

End Hex.

(** ** pydantic [model_dump(mode="json")] of the ledger records *)

Section ModelDump.
Context `{Pydantic}.

Definition dump_option {A} (f : A -> json) (o : option A) : json :=
  match o with Some a => f a | None => JNull end.

Definition dump_RecomputeRecord (r : RecomputeRecord.t) : json :=
  JObj [ ("epoch", JInt (RecomputeRecord.epoch r));
         ("previous_epoch", JInt (RecomputeRecord.previous_epoch r));
         ("reason_code", JStr (RecomputeRecord.reason_code r));
         ("reason_detail", JStr (RecomputeRecord.reason_detail r));
         ("affected_event_ids", JArr (map JInt (RecomputeRecord.affected_event_ids r)));
         ("severity", JStr (RecomputeRecord.severity r));
         ("timestamp", JStr (dump_datetime (RecomputeRecord.timestamp r)));
         ("code_version", JStr (RecomputeRecord.code_version r)) ].

(** The fields of the manifest in declaration order. *)
Definition dump_LedgerManifest_fields (m : LedgerManifest.t) : list (string * json) :=
  [ ("schema_version", JInt (LedgerManifest.schema_version m));
    ("window_type", JStr (LedgerManifest.window_type m));
    ("window_start", JStr (dump_datetime (LedgerManifest.window_start m)));
    ("window_end", JStr (dump_datetime (LedgerManifest.window_end m)));
    ("checkpoint_epoch", JInt (LedgerManifest.checkpoint_epoch m));
    ("content_hashes",
       JObj (map_to_list (JStr <$> LedgerManifest.content_hashes m)));
    ("primary_hotkey", JStr (LedgerManifest.primary_hotkey m));
    ("signature", JStr (LedgerManifest.signature m));
    ("created_at", JStr (dump_datetime (LedgerManifest.created_at m)));
    ("recompute_record",
       dump_option dump_RecomputeRecord (LedgerManifest.recompute_record m)) ].

Definition dump_MetricAccumulator (a : MetricAccumulator.t) : json :=
  JObj [ ("ws", JFloat (MetricAccumulator.ws a)); ("wt", JFloat (MetricAccumulator.wt a)) ].

Definition dump_AccumulatorEntry (a : AccumulatorEntry.t) : json :=
  JObj [ ("miner_id", JInt (AccumulatorEntry.miner_id a));
         ("hotkey", JStr (AccumulatorEntry.hotkey a));
         ("uid", JInt (AccumulatorEntry.uid a));
         ("n_submissions", JInt (AccumulatorEntry.n_submissions a));
         ("n_outcomes", JInt (AccumulatorEntry.n_outcomes a));
         ("brier", dump_MetricAccumulator (AccumulatorEntry.brier a));
         ("fq", dump_MetricAccumulator (AccumulatorEntry.fq a));
         ("pss", dump_MetricAccumulator (AccumulatorEntry.pss a));
         ("es", dump_MetricAccumulator (AccumulatorEntry.es a));
         ("mes", dump_MetricAccumulator (AccumulatorEntry.mes a));
         ("sos", dump_MetricAccumulator (AccumulatorEntry.sos a));
         ("lead", dump_MetricAccumulator (AccumulatorEntry.lead a));
         ("brier_mean", JFloat (AccumulatorEntry.brier_mean a));
         ("fq_raw", JFloat (AccumulatorEntry.fq_raw a));
         ("pss_mean", JFloat (AccumulatorEntry.pss_mean a));
         ("es_adj", JFloat (AccumulatorEntry.es_adj a));
         ("mes_mean", JFloat (AccumulatorEntry.mes_mean a));
         ("sos_score", JFloat (AccumulatorEntry.sos_score a));
         ("lead_score", JFloat (AccumulatorEntry.lead_score a));
         ("cal_score", JFloat (AccumulatorEntry.cal_score a));
         ("sharp_score", JFloat (AccumulatorEntry.sharp_score a)) ].

Definition dump_MinerRosterEntry (r : MinerRosterEntry.t) : json :=
  JObj [ ("miner_id", JInt (MinerRosterEntry.miner_id r));
         ("uid", JInt (MinerRosterEntry.uid r));
         ("hotkey", JStr (MinerRosterEntry.hotkey r));
         ("active", JBool (MinerRosterEntry.active r)) ].

Definition dump_ScoringConfigSnapshot (c : ScoringConfigSnapshot.t) : json :=
  JObj [ ("params", JObj (ScoringConfigSnapshot.params c)) ].

Definition dump_SettledSubmissionEntry (e : SettledSubmissionEntry.t) : json :=
  JObj [ ("miner_id", JInt (SettledSubmissionEntry.miner_id e));
         ("market_id", JInt (SettledSubmissionEntry.market_id e));
         ("side", JStr (SettledSubmissionEntry.side e));
         ("imp_prob", JFloat (SettledSubmissionEntry.imp_prob e));
         ("brier", dump_option JFloat (SettledSubmissionEntry.brier e));
         ("pss", dump_option JFloat (SettledSubmissionEntry.pss e));
         ("settled_at", JStr (dump_datetime (SettledSubmissionEntry.settled_at e))) ].

Definition dump_OutcomeEntry (o : OutcomeEntry.t) : json :=
  JObj [ ("market_id", JInt (OutcomeEntry.market_id o));
         ("event_id", JInt (OutcomeEntry.event_id o));
         ("result", dump_option JStr (OutcomeEntry.result o));
         ("score_home", dump_option JFloat (OutcomeEntry.score_home o));
         ("score_away", dump_option JFloat (OutcomeEntry.score_away o));
         ("settled_at", JStr (dump_datetime (OutcomeEntry.settled_at o))) ].

End ModelDump.

(** A value as [compute_section_hash] inspects it: a pydantic model (it has
    [model_dump], held here by its dump), a [list], a [dict], or anything
    else; a list item is a model or a plain value. *)
Inductive pyitem : Type :=
| IModel (dump : json)
| IPlain (v : json).

Inductive pyany : Type :=
| AModel (dump : json)
| AList (items : list pyitem)
| ADict (d : list (string * json))
| AOther (v : json).

(** ** [signer.py] *)

Module Signer.
Section Signer.
Context `{Pydantic} `{Determinism} `{Bittensor}.

Definition _manifest_signing_payload (manifest : LedgerManifest.t) : string :=
  let data := dump_LedgerManifest_fields manifest in
  let data := dict_pop "signature" data in
  compute_hash (JObj data).

(** [wallet.hotkey.sign] returns [bytes], so the result is [signature.hex()]. *)
Definition sign_manifest (manifest : LedgerManifest.t) (wallet : Wallet) : string :=
  let payload_hash := _manifest_signing_payload manifest in
  let signature := hotkey_sign wallet payload_hash in
  Hex.hex signature.

Definition verify_manifest (manifest : LedgerManifest.t) (hotkey_ss58 : string) : bool :=
  if String.eqb (LedgerManifest.signature manifest) "" then false
  else
    let payload_hash := _manifest_signing_payload manifest in
    match Hex.fromhex (LedgerManifest.signature manifest) with
    | None => false
    | Some sig_bytes =>
        match keypair_verify hotkey_ss58 payload_hash sig_bytes with
        | Py.Ok b => b
        | Py.Raise _ => false
        end
    end.

Definition compute_section_hash (data : pyany) : string :=
  let as_dict :=
    match data with
    | AModel dump => dump
    | AList items =>
        JObj [ ("items",
                JArr (map (fun item =>
                             match item with IModel d => d | IPlain v => v end)
                          items)) ]
    | ADict d => JObj d
    | AOther v => JObj [ ("value", v) ]
    end in
  compute_hash as_dict.

End Signer.
End Signer.

(** ** [auditor/verifier.py] *)

Module Verifier.

Record VerificationResult : Type := mkResult {
  valid : bool;
  errors : list string
}.

(** [CheckpointWindow | DeltaWindow] *)
Inductive Window : Type :=
| WCheckpoint (cp : CheckpointWindow.t)
| WDelta (delta : DeltaWindow.t).

Definition window_manifest (w : Window) : LedgerManifest.t :=
  match w with
  | WCheckpoint cp => CheckpointWindow.manifest cp
  | WDelta d => DeltaWindow.manifest d
  end.

Record ManifestVerifier : Type := mkVerifier { primary_hotkey : string }.

Section Verifier.
Context `{Pydantic} `{Determinism} `{Bittensor}.

(** The body of the loop over [sections.items()]: the errors one section adds. *)
Definition section_errors (manifest : LedgerManifest.t) (section : string * pyany)
  : list string :=
  let '(section_name, section_data) := section in
  match LedgerManifest.content_hashes manifest !! section_name with
  | None => [ "missing content hash for section: " ++ section_name ]
  | Some expected =>
      let actual := Signer.compute_section_hash section_data in
      if negb (String.eqb actual expected) then
        [ "content hash mismatch for " ++ section_name ++ ": expected "
          ++ Py.str_take 16 expected ++ "..., got " ++ Py.str_take 16 actual ++ "..." ]
      else []
  end.

Definition _verify (self : ManifestVerifier) (window : Window)
    (sections : list (string * pyany)) : VerificationResult :=
  let manifest := window_manifest window in
  let errors : list string := [] in
  (* Schema version *)
  let errors :=
    if negb (Z.eqb (LedgerManifest.schema_version manifest) LEDGER_SCHEMA_VERSION) then
      app errors [ "schema_version mismatch: got "
                  ++ Py.str_of_int (LedgerManifest.schema_version manifest)
                  ++ ", expected " ++ Py.str_of_int LEDGER_SCHEMA_VERSION ]
    else errors in
  (* Primary hotkey *)
  let errors :=
    if negb (String.eqb (LedgerManifest.primary_hotkey manifest) (primary_hotkey self)) then
      app errors [ "primary_hotkey mismatch: got " ++ LedgerManifest.primary_hotkey manifest
                  ++ ", expected " ++ primary_hotkey self ]
    else errors in
  (* Signature *)
  let errors :=
    if negb (Signer.verify_manifest manifest (primary_hotkey self)) then
      app errors [ "signature verification failed" ]
    else errors in
  (* Content hashes *)
  let errors :=
    fold_left (fun errors section => app errors (section_errors manifest section))
              sections errors in
  (* Window type *)
  let expected_type :=
    match window with WCheckpoint _ => "checkpoint" | WDelta _ => "delta" end in
  let errors :=
    if negb (String.eqb (LedgerManifest.window_type manifest) expected_type) then
      app errors [ "window_type mismatch: got " ++ LedgerManifest.window_type manifest
                  ++ ", expected " ++ expected_type ]
    else errors in
  mkResult (Nat.eqb (length errors) 0) errors.

Definition checkpoint_sections (cp : CheckpointWindow.t) : list (string * pyany) :=
  [ ("roster", AList (map (fun r => IModel (dump_MinerRosterEntry r))
                          (CheckpointWindow.roster cp)));
    ("accumulators", AList (map (fun a => IModel (dump_AccumulatorEntry a))
                                (CheckpointWindow.accumulators cp)));
    ("scoring_config",
       AModel (dump_ScoringConfigSnapshot (CheckpointWindow.scoring_config cp))) ].

Definition delta_sections (delta : DeltaWindow.t) : list (string * pyany) :=
  [ ("settled_submissions",
       AList (map (fun s => IModel (dump_SettledSubmissionEntry s))
                  (DeltaWindow.settled_submissions delta)));
    ("settled_outcomes",
       AList (map (fun o => IModel (dump_OutcomeEntry o))
                  (DeltaWindow.settled_outcomes delta))) ].

Definition verify_checkpoint (self : ManifestVerifier) (cp : CheckpointWindow.t)
  : VerificationResult :=
  _verify self (WCheckpoint cp) (checkpoint_sections cp).

Definition verify_delta (self : ManifestVerifier) (delta : DeltaWindow.t)
  : VerificationResult :=
  _verify self (WDelta delta) (delta_sections delta).

End Verifier.
End Verifier.

(** ** IEEE-754 helpers: binary32 rounding, conversions with [int] *)

Module F32.

(** The binary64 value nearest to [x] among binary32 values (ties to even,
    overflow to infinity): the value stored when [x] is written into a
    [float32] array. *)
Definition round32 (x : float) : float :=
  match Prim2SF x with
  | S754_finite s m e => SF2Prim (binary_round 24 128 s m e)
  | _ => x
  end.

(** Arithmetic of [float32] operands.  A binary64 operation followed by
    [round32] is the correctly rounded binary32 operation. *)
Definition add (x y : float) : float := round32 (x + y)%float.
Definition sub (x y : float) : float := round32 (x - y)%float.
Definition mul (x y : float) : float := round32 (x * y)%float.
Definition div (x y : float) : float := round32 (x / y)%float.

(** [np.finfo(np.float32).max] *)
Definition FLT_MAX : float := 0x1.fffffep+127%float.

End F32.

Module PyNum.

(** [float(n)] for an [int]: the nearest binary64 value. *)
Definition float_of_int (n : Z) : float :=
  SF2Prim (binary_normalize 53 1024 n 0 false).

(** [int(x)]: truncation towards zero. *)
Definition int_of_float (x : float) : Py.result Z :=
  match Prim2SF x with
  | S754_zero _ => Py.Ok 0
  | S754_infinity _ => Py.Raise Py.OverflowError
  | S754_nan => Py.Raise Py.ValueError
  | S754_finite s m e =>
      let mag := if 0 <=? e then Z.pos m * 2 ^ e else Z.pos m / 2 ^ (- e) in
      Py.Ok (if s then - mag else mag)
  end.

(** [round(x)]: the nearest integer, ties to even. *)
Definition round (x : float) : Py.result Z :=
  match Prim2SF x with
  | S754_zero _ => Py.Ok 0
  | S754_infinity _ => Py.Raise Py.OverflowError
  | S754_nan => Py.Raise Py.ValueError
  | S754_finite s m e =>
      let mag :=
        if 0 <=? e then Z.pos m * 2 ^ e
        else
          let d := 2 ^ (- e) in
          let q := Z.pos m / d in
          let r := Z.pos m mod d in
          match 2 * r ?= d with
          | Lt => q
          | Gt => q + 1
          | Eq => if Z.even q then q else q + 1
          end in
      Py.Ok (if s then - mag else mag)
  end.

End PyNum.

(** ** Collaborators of [compute_weights.py] *)

(** [sparket.validator.scoring.aggregation.normalization]: imported by
    [compute_weights.py]; it lies outside the ledger package. *)
Class Normalization : Type := {
  normalize_zscore_logistic : list float -> list float;
  normalize_percentile : list float -> list float
}.

(** numpy reductions and sorting over a [float32] array (the summation
    order of [ndarray.sum] / [add.reduce] and the placement of equal keys by
    [np.sort] are numpy's), and Python's parsing of numbers held in strings. *)
Class Numpy : Type := {
  np_sum32 : list float -> float;
  np_sort : list float -> list float;
  float_of_str : string -> Py.result float;
  int_of_str : string -> Py.result Z
}.

(** ** [compute_weights.py]

    Scalars mix with arrays under numpy's promotion rules (NEP 50): a Python
    scalar takes the array's [float32] type, a numpy [float64] scalar keeps
    its own. *)

Module ComputeWeights.

Record WeightResult : Type := mkWeightResult {
  uids : list Z;
  uint16_weights : list Z;
  skill_scores : gmap Z float;
  raw_weights : gmap Z float;
  dimension_scores : gmap Z (gmap string float)
}.

(** [WeightResult()] *)
Definition empty_result : WeightResult := mkWeightResult [] [] ∅ ∅ ∅.

Definition set_outputs (r : WeightResult) (u w : list Z) : WeightResult :=
  mkWeightResult u w (skill_scores r) (raw_weights r) (dimension_scores r).

Definition set_raw_weights (r : WeightResult) (rw : gmap Z float) : WeightResult :=
  mkWeightResult (uids r) (uint16_weights r) (skill_scores r) rw (dimension_scores r).

Definition U16_MAX : Z := 65535.

(** [np.max]: NaN propagates. *)
Definition fmax (a b : float) : float :=
  if Py.is_nan a then a else if Py.is_nan b then b
  else if (a <? b)%float then b else a.

Definition np_max (x : list float) : float :=
  match x with
  | [] => 0%float   (* not reached: the callers pass non-empty arrays *)
  | a :: rest => fold_left fmax rest a
  end.

(** [np.clip(x, lo, hi)] is [minimum(maximum(x, lo), hi)]; NaN propagates. *)
Definition clip (lo hi x : float) : float :=
  let m := if (lo <=? x)%float || Py.is_nan x then x else lo in
  if (m <=? hi)%float || Py.is_nan m then m else hi.

(** [np.cumsum] of a [float32] array: sequential accumulation. *)
Fixpoint cumsum_from (acc : float) (x : list float) : list float :=
  match x with
  | [] => []
  | a :: rest => let acc := F32.add acc a in acc :: cumsum_from acc rest
  end.

Definition np_cumsum (x : list float) : list float :=
  match x with
  | [] => []
  | a :: rest => a :: cumsum_from a rest
  end.

(** [a[i]] with Python's negative indices; the callers stay in range. *)
Definition index (x : list float) (i : Z) : float :=
  let i := if i <? 0 then i + Z.of_nat (length x) else i in
  nth (Z.to_nat i) x 0%float.

(** [a[mask]] *)
Definition select {A} (mask : list bool) (x : list A) : list A :=
  map snd (List.filter fst (combine mask x)).

Section ComputeWeights.
Context `{Normalization} `{Numpy}.

Definition _normalize_max_weight (x : list float) (limit : float) : list float :=
  let epsilon := 1e-7%float in
  let weights := x in
  let values := np_sort weights in
  let size := Z.of_nat (length x) in
  if (np_sum32 x =? 0)%float || (PyNum.float_of_int size * limit <=? 1)%float then
    map (fun _ => F32.div 1 (F32.round32 (PyNum.float_of_int size))) x
  else
    let values_sum := np_sum32 values in
    let estimation := map (fun v => F32.div v values_sum) values in
    if (np_max estimation <=? F32.round32 limit)%float then
      let weights_sum := np_sum32 weights in
      map (fun w => F32.div w weights_sum) weights
    else
      let cumsum := np_cumsum estimation in
      let estimation_sum :=
        imap (fun i e =>
                F32.mul (F32.round32 (PyNum.float_of_int (size - Z.of_nat i - 1))) e)
             estimation in
      let n_values :=
        Z.of_nat (length (List.filter (fun b : bool => b)
          (zip_with
             (fun e d =>
                (F32.div e (F32.add d (F32.round32 epsilon)) <? F32.round32 limit)%float)
             estimation
             (zip_with F32.add estimation_sum cumsum)))) in
      let cutoff_scale :=
        (F32.sub (F32.mul (F32.round32 limit) (index cumsum (n_values - 1)))
                 (F32.round32 epsilon)
         / (1 - limit * PyNum.float_of_int (size - n_values)))%float in
      let cutoff := (cutoff_scale * values_sum)%float in
      let weights :=
        map (fun w => if (cutoff <? w)%float then F32.round32 cutoff else w) weights in
      let weights_sum := np_sum32 weights in
      map (fun w => F32.div w weights_sum) weights.

(** The loop of [_convert_to_uint16] over [zip(nz_uids, scaled)]. *)
Fixpoint emit_uint16 (pairs : list (Z * float)) : Py.result (list Z * list Z) :=
  match pairs with
  | [] => Py.Ok ([], [])
  | (uid_i, w_i) :: rest =>
      uint16_val ← PyNum.round (w_i * PyNum.float_of_int U16_MAX)%float;
      out ← emit_uint16 rest;
      let '(uid_list, weight_list) := out in
      if negb (uint16_val =? 0) then Py.Ok (uid_i :: uid_list, uint16_val :: weight_list)
      else Py.Ok (uid_list, weight_list)
  end.

Definition _convert_to_uint16 (uids : list Z) (weights : list float)
  : Py.result (list Z * list Z) :=
  let non_zero_mask := map (fun w => (0 <? w)%float) weights in
  let nz_weights := select non_zero_mask weights in
  let nz_uids := select non_zero_mask uids in
  if Nat.eqb (length nz_weights) 0 then Py.Ok ([], [])
  else
    let max_weight := np_max nz_weights in
    if (max_weight =? 0)%float then Py.Ok ([], [])
    else
      let scaled := map (fun w => (w / max_weight)%float) nz_weights in
      emit_uint16 (combine nz_uids scaled).

(** [float(v)] and [int(v)] on a configuration value; [float] raises on an
    [int] that rounds beyond the largest [float]. *)
Definition py_float (v : json) : Py.result float :=
  match v with
  | JFloat x => Py.Ok x
  | JInt n =>
      let x := PyNum.float_of_int n in
      if is_infinity x then Py.Raise Py.OverflowError else Py.Ok x
  | JBool b => Py.Ok (if b then 1%float else 0%float)
  | JStr s => float_of_str s
  | JNull | JArr _ | JObj _ => Py.Raise Py.TypeError
  end.

Definition py_int (v : json) : Py.result Z :=
  match v with
  | JInt n => Py.Ok n
  | JFloat x => PyNum.int_of_float x
  | JBool b => Py.Ok (if b then 1 else 0)
  | JStr s => int_of_str s
  | JNull | JArr _ | JObj _ => Py.Raise Py.TypeError
  end.

(** [params.get(key, {})] *)
Definition get_section (params : list (string * json)) (key : string) : json :=
  match dict_get key params with Some v => v | None => JObj [] end.

(** [float(d.get(key, default))]; [d.get] raises when [d] is not a [dict]. *)
Definition get_float (d : json) (key : string) (default : float) : Py.result float :=
  match d with
  | JObj fields =>
      match dict_get key fields with
      | Some v => py_float v
      | None => Py.Ok default
      end
  | _ => Py.Raise Py.AttributeError
  end.

Definition get_int (d : json) (key : string) (default : Z) : Py.result Z :=
  match d with
  | JObj fields =>
      match dict_get key fields with
      | Some v => py_int v
      | None => Py.Ok default
      end
  | _ => Py.Raise Py.AttributeError
  end.

(** [sorted(miner_metrics, key=lambda m: m.uid)]: a stable sort. *)
Fixpoint insert_by_uid (m : MinerMetrics.t) (l : list MinerMetrics.t)
  : list MinerMetrics.t :=
  match l with
  | [] => [m]
  | x :: rest =>
      if MinerMetrics.uid m <=? MinerMetrics.uid x then m :: l
      else x :: insert_by_uid m rest
  end.

Definition sorted_by_uid (l : list MinerMetrics.t) : list MinerMetrics.t :=
  foldr insert_by_uid [] l.

(** Element-wise [a * x + b * y] of two [float64] arrays. *)
Definition lin2 (a : float) (x : list float) (b : float) (y : list float) : list float :=
  zip_with (fun xi yi => (a * xi + b * yi)%float) x y.

(** The values extracted from [scoring_config.params]. *)
Record Config : Type := mkConfig {
  w_fq : float; w_cal : float; w_edge : float; w_mes : float;
  w_sos : float; w_lead : float;
  w_outcome_accuracy : float; w_outcome_relative : float;
  w_odds_edge : float; w_info_adv : float;
  min_count : Z; burn_rate : float
}.

Definition read_config (scoring_config : ScoringConfigSnapshot.t) : Py.result Config :=
  let params := ScoringConfigSnapshot.params scoring_config in
  let dim_weights := get_section params "dimension_weights" in
  let skill_weights := get_section params "skill_score_weights" in
  let norm_params := get_section params "normalization" in
  let weight_emission := get_section params "weight_emission" in
  w_fq ← get_float dim_weights "w_fq" 0.6;
  w_cal ← get_float dim_weights "w_cal" 0.4;
  w_edge ← get_float dim_weights "w_edge" 0.7;
  w_mes ← get_float dim_weights "w_mes" 0.3;
  w_sos ← get_float dim_weights "w_sos" 0.6;
  w_lead ← get_float dim_weights "w_lead" 0.4;
  w_outcome_accuracy ← get_float skill_weights "w_outcome_accuracy" 0.10;
  w_outcome_relative ← get_float skill_weights "w_outcome_relative" 0.10;
  w_odds_edge ← get_float skill_weights "w_odds_edge" 0.50;
  w_info_adv ← get_float skill_weights "w_info_adv" 0.30;
  min_count ← get_int norm_params "min_count_for_zscore" 10;
  burn_rate ← get_float weight_emission "burn_rate" 0.9;
  Py.Ok (mkConfig w_fq w_cal w_edge w_mes w_sos w_lead
           w_outcome_accuracy w_outcome_relative w_odds_edge w_info_adv
           min_count burn_rate).

(** The four dimension arrays and the skill score of the sorted miners
    (steps 1 to 3). *)
Record Scores : Type := mkScores {
  forecast_dim : list float;
  skill_dim : list float;
  econ_dim : list float;
  info_dim : list float;
  skill_score : list float
}.

Definition score_miners (cfg : Config) (sorted_metrics : list MinerMetrics.t)
  : Py.result Scores :=
  let fq_raw := map MinerMetrics.fq_raw sorted_metrics in
  let pss := map MinerMetrics.pss_mean sorted_metrics in
  let cal := map MinerMetrics.cal_score sorted_metrics in
  let es_adj := map MinerMetrics.es_adj sorted_metrics in
  let mes := map MinerMetrics.mes_mean sorted_metrics in
  let sos := map MinerMetrics.sos_score sorted_metrics in
  let lead := map MinerMetrics.lead_score sorted_metrics in
  let n_miners := Z.of_nat (length sorted_metrics) in
  (* Step 1: Normalize *)
  let fq_norm := map (fun x => clip 0 1 ((x + 1) / 2)%float) fq_raw in
  let use_zscore := min_count cfg <=? n_miners in
  let pss_norm :=
    if use_zscore then normalize_zscore_logistic pss else normalize_percentile pss in
  let es_norm :=
    if use_zscore then normalize_zscore_logistic es_adj else normalize_percentile es_adj in
  let cal_norm := map (clip 0 1) cal in
  let mes_norm := map (clip 0 1) mes in
  let sos_norm := map (clip 0 1) sos in
  let lead_norm := map (clip 0 1) lead in
  (* arrays of different shapes do not combine *)
  if negb (Nat.eqb (length pss_norm) (length sorted_metrics)
           && Nat.eqb (length es_norm) (length sorted_metrics))
  then Py.Raise Py.ValueError
  else
    (* Step 2: Combine into dimensions *)
    let forecast_dim := lin2 (w_fq cfg) fq_norm (w_cal cfg) cal_norm in
    let skill_dim := pss_norm in
    let econ_dim := lin2 (w_edge cfg) es_norm (w_mes cfg) mes_norm in
    let info_dim := lin2 (w_sos cfg) sos_norm (w_lead cfg) lead_norm in
    (* Step 3: Final skill score *)
    let skill_score :=
      zip_with (fun (fs : float * float) (ei : float * float) =>
                  (w_outcome_accuracy cfg * fs.1 + w_outcome_relative cfg * fs.2
                   + w_odds_edge cfg * ei.1 + w_info_adv cfg * ei.2)%float)
               (combine forecast_dim skill_dim) (combine econ_dim info_dim) in
    Py.Ok (mkScores forecast_dim skill_dim econ_dim info_dim skill_score).

(** "Record intermediates for audit trail": the loop over [enumerate(uids)]. *)
Definition record_intermediates (result : WeightResult) (uids : list Z) (sc : Scores)
  : WeightResult :=
  fold_left
    (fun (result : WeightResult) (row : Z * (float * (float * float * float * float))) =>
       let '(uid, (s, (f, k, e, i))) := row in
       mkWeightResult (ComputeWeights.uids result) (uint16_weights result)
         (<[uid := s]> (skill_scores result))
         (raw_weights result)
         (<[uid := {[ "forecast_dim" := f; "skill_dim" := k;
                      "econ_dim" := e; "info_dim" := i ]}]>
            (dimension_scores result)))
    (combine uids
       (combine (skill_score sc)
          (combine (combine (combine (forecast_dim sc) (skill_dim sc)) (econ_dim sc))
                   (info_dim sc))))
    result.

Definition in_range (uid n_neurons : Z) : bool := (0 <=? uid) && (uid <? n_neurons).

(** Step 4: the dense [float32] vector indexed by uid, NaN replaced. *)
Definition scatter (n_neurons : Z) (uids : list Z) (skill_score : list float) : list float :=
  fold_left
    (fun (scores : list float) (row : Z * float) =>
       let '(uid, s) := row in
       if in_range uid n_neurons then <[Z.to_nat uid := F32.round32 s]> scores
       else scores)
    (combine uids skill_score)
    (replicate (Z.to_nat n_neurons) 0%float).

Definition nan_to_num (x : float) : float :=
  if Py.is_nan x then 0%float
  else if (x =? infinity)%float then F32.FLT_MAX
  else if (x =? neg_infinity)%float then (- F32.FLT_MAX)%float
  else x.

Definition dense_scores (n_neurons : Z) (uids : list Z) (skill_score : list float)
  : list float :=
  map nan_to_num (scatter n_neurons uids skill_score).

(** [np.linalg.norm(scores, ord=1)] *)
Definition l1_norm (scores : list float) : float := np_sum32 (map abs scores).

Definition all_zero (norm : float) : bool := (norm =? 0)%float || Py.is_nan norm.

(** [np.zeros(n_neurons)] with [raw_weights[burn_uid] = 1.0] *)
Definition one_hot (n_neurons burn_uid : Z) : list float :=
  <[Z.to_nat burn_uid := 1%float]> (replicate (Z.to_nat n_neurons) 0%float).

(** "Record raw weights": the loop over [range(n_neurons)]. *)
Definition record_raw_weights (raw_weights : list float) : gmap Z float :=
  fold_left
    (fun (acc : gmap Z float) (row : Z * float) =>
       let '(uid_val, w) := row in
       if (0 <? w)%float then <[uid_val := w]> acc else acc)
    (imap (fun i w => (Z.of_nat i, w)) raw_weights)
    ∅.

(** From "Record raw weights" to the end: steps 6 and 7 on the raw vector. *)
Definition process_for_chain (result : WeightResult) (raw_weights : list float)
    (chain_params : ChainParamsSnapshot.t) : Py.result WeightResult :=
  let n_neurons := ChainParamsSnapshot.n_neurons chain_params in
  let result := set_raw_weights result (record_raw_weights raw_weights) in
  let max_weight_limit := ChainParamsSnapshot.max_weight_limit chain_params in
  let min_allowed := ChainParamsSnapshot.min_allowed_weights chain_params in
  let all_uids := map Z.of_nat (seq 0 (Z.to_nat n_neurons)) in
  let non_zero_mask := map (fun w => (0 <? w)%float) raw_weights in
  let nz_weights := select non_zero_mask raw_weights in
  let nz_uids := select non_zero_mask all_uids in
  if Nat.eqb (length nz_weights) 0 then Py.Ok result
  else
    let '(processed, processed_uids) :=
      if Z.of_nat (length nz_weights) <? min_allowed then
        let base := F32.mul 1 (F32.round32 1e-5) in
        let padded :=
          zip_with (fun (nz : bool) w => if nz then F32.add base w else base)
                   non_zero_mask raw_weights in
        (_normalize_max_weight padded max_weight_limit, all_uids)
      else (_normalize_max_weight nz_weights max_weight_limit, nz_uids) in
    out ← _convert_to_uint16 processed_uids processed;
    Py.Ok (set_outputs result out.1 out.2).

Definition compute_weights (miner_metrics : list MinerMetrics.t)
    (scoring_config : ScoringConfigSnapshot.t)
    (chain_params : ChainParamsSnapshot.t) : Py.result WeightResult :=
  let result := empty_result in
  let n_neurons := ChainParamsSnapshot.n_neurons chain_params in
  match miner_metrics with
  | [] =>
      (* No miners - allocate to burn if available *)
      match ChainParamsSnapshot.burn_uid chain_params with
      | Some burn_uid => Py.Ok (set_outputs result [burn_uid] [U16_MAX])
      | None => Py.Ok result
      end
  | _ :: _ =>
      cfg ← read_config scoring_config;
      let sorted_metrics := sorted_by_uid miner_metrics in
      let uids := map MinerMetrics.uid sorted_metrics in
      sc ← score_miners cfg sorted_metrics;
      let result := record_intermediates result uids sc in
      (* Step 4 *)
      if n_neurons <? 0 then Py.Raise Py.ValueError
      else
        let scores := dense_scores n_neurons uids (skill_score sc) in
        let norm := l1_norm scores in
        if all_zero norm then
          match ChainParamsSnapshot.burn_uid chain_params with
          | Some burn_uid =>
              if in_range burn_uid n_neurons then
                process_for_chain result (one_hot n_neurons burn_uid) chain_params
              else Py.Ok result
          | None => Py.Ok result
          end
        else
          let raw_weights := map (fun s => F32.div s norm) scores in
          (* Step 5: Apply burn rate *)
          let raw_weights :=
            match ChainParamsSnapshot.burn_uid chain_params with
            | Some burn_uid =>
                if (0 <? burn_rate cfg)%float && in_range burn_uid n_neurons then
                  <[Z.to_nat burn_uid := F32.round32 (burn_rate cfg)]>
                    (map (fun w => F32.mul w (F32.round32 (1 - burn_rate cfg)%float))
                         raw_weights)
                else raw_weights
            | None => raw_weights
            end in
          process_for_chain result raw_weights chain_params
  end.

End ComputeWeights.
End ComputeWeights.

(** ** [compute_weights.py], call by call

    [ComputeWeights] takes the routines of other modules that
    [compute_weights] calls (the two normalisations, numpy's sum and sort,
    the parsing of numbers) as functions.  Python does not: a call may read
    and change whatever the process can reach besides the arguments, the
    wall clock, a random generator, module-level variables, files.  Here
    that ambient state is explicit: every call of such a routine takes the
    state and leaves one, and [compute_weights] threads it through its
    calls in the order in which the source makes them. *)

Module Ambient.

Section Ambient.
Variable World : Type.

(** A computation in the ambient state: the value returned or the exception
    raised, and the state left. *)
Definition run (A : Type) : Type := World -> Py.result A * World.

Definition ret {A} (a : A) : run A := fun w => (Py.Ok a, w).

Definition lift {A} (r : Py.result A) : run A := fun w => (r, w).

Definition bind {A B} (m : run A) (k : A -> run B) : run B :=
  fun w =>
    match m w with
    | (Py.Ok a, w) => k a w
    | (Py.Raise e, w) => (Py.Raise e, w)
    end.

#[local] Instance run_bind : MBind run := fun A B k m => bind m k.

(** The routines that [compute_weights.py] calls in other modules. *)
Record Routines : Type := mkRoutines {
  call_normalize_zscore_logistic : list float -> run (list float);
  call_normalize_percentile : list float -> run (list float);
  call_sum32 : list float -> run float;
  call_sort : list float -> run (list float);
  call_float_of_str : string -> run float;
  call_int_of_str : string -> run Z
}.

Variable routines : Routines.

Definition _normalize_max_weight (x : list float) (limit : float) : run (list float) :=
  let epsilon := 1e-7%float in
  let weights := x in
  values ← call_sort routines weights;
  let size := Z.of_nat (length x) in
  x_sum ← call_sum32 routines x;
  if (x_sum =? 0)%float || (PyNum.float_of_int size * limit <=? 1)%float then
    ret (map (fun _ => F32.div 1 (F32.round32 (PyNum.float_of_int size))) x)
  else
    values_sum ← call_sum32 routines values;
    let estimation := map (fun v => F32.div v values_sum) values in
    if (ComputeWeights.np_max estimation <=? F32.round32 limit)%float then
      weights_sum ← call_sum32 routines weights;
      ret (map (fun w => F32.div w weights_sum) weights)
    else
      let cumsum := ComputeWeights.np_cumsum estimation in
      let estimation_sum :=
        imap (fun i e =>
                F32.mul (F32.round32 (PyNum.float_of_int (size - Z.of_nat i - 1))) e)
             estimation in
      let n_values :=
        Z.of_nat (length (List.filter (fun b : bool => b)
          (zip_with
             (fun e d =>
                (F32.div e (F32.add d (F32.round32 epsilon)) <? F32.round32 limit)%float)
             estimation
             (zip_with F32.add estimation_sum cumsum)))) in
      let cutoff_scale :=
        (F32.sub (F32.mul (F32.round32 limit) (ComputeWeights.index cumsum (n_values - 1)))
                 (F32.round32 epsilon)
         / (1 - limit * PyNum.float_of_int (size - n_values)))%float in
      values_sum ← call_sum32 routines values;
      let cutoff := (cutoff_scale * values_sum)%float in
      let weights :=
        map (fun w => if (cutoff <? w)%float then F32.round32 cutoff else w) weights in
      weights_sum ← call_sum32 routines weights;
      ret (map (fun w => F32.div w weights_sum) weights).

Definition py_float (v : json) : run float :=
  match v with
  | JFloat x => ret x
  | JInt n =>
      let x := PyNum.float_of_int n in
      if is_infinity x then lift (Py.Raise Py.OverflowError) else ret x
  | JBool b => ret (if b then 1%float else 0%float)
  | JStr s => call_float_of_str routines s
  | JNull | JArr _ | JObj _ => lift (Py.Raise Py.TypeError)
  end.

Definition py_int (v : json) : run Z :=
  match v with
  | JInt n => ret n
  | JFloat x => lift (PyNum.int_of_float x)
  | JBool b => ret (if b then 1 else 0)
  | JStr s => call_int_of_str routines s
  | JNull | JArr _ | JObj _ => lift (Py.Raise Py.TypeError)
  end.

Definition get_float (d : json) (key : string) (default : float) : run float :=
  match d with
  | JObj fields =>
      match dict_get key fields with
      | Some v => py_float v
      | None => ret default
      end
  | _ => lift (Py.Raise Py.AttributeError)
  end.

Definition get_int (d : json) (key : string) (default : Z) : run Z :=
  match d with
  | JObj fields =>
      match dict_get key fields with
      | Some v => py_int v
      | None => ret default
      end
  | _ => lift (Py.Raise Py.AttributeError)
  end.

Definition read_config (scoring_config : ScoringConfigSnapshot.t)
  : run ComputeWeights.Config :=
  let params := ScoringConfigSnapshot.params scoring_config in
  let dim_weights := ComputeWeights.get_section params "dimension_weights" in
  let skill_weights := ComputeWeights.get_section params "skill_score_weights" in
  let norm_params := ComputeWeights.get_section params "normalization" in
  let weight_emission := ComputeWeights.get_section params "weight_emission" in
  w_fq ← get_float dim_weights "w_fq" 0.6;
  w_cal ← get_float dim_weights "w_cal" 0.4;
  w_edge ← get_float dim_weights "w_edge" 0.7;
  w_mes ← get_float dim_weights "w_mes" 0.3;
  w_sos ← get_float dim_weights "w_sos" 0.6;
  w_lead ← get_float dim_weights "w_lead" 0.4;
  w_outcome_accuracy ← get_float skill_weights "w_outcome_accuracy" 0.10;
  w_outcome_relative ← get_float skill_weights "w_outcome_relative" 0.10;
  w_odds_edge ← get_float skill_weights "w_odds_edge" 0.50;
  w_info_adv ← get_float skill_weights "w_info_adv" 0.30;
  min_count ← get_int norm_params "min_count_for_zscore" 10;
  burn_rate ← get_float weight_emission "burn_rate" 0.9;
  ret (ComputeWeights.mkConfig w_fq w_cal w_edge w_mes w_sos w_lead
         w_outcome_accuracy w_outcome_relative w_odds_edge w_info_adv
         min_count burn_rate).

Definition score_miners (cfg : ComputeWeights.Config)
    (sorted_metrics : list MinerMetrics.t) : run ComputeWeights.Scores :=
  let fq_raw := map MinerMetrics.fq_raw sorted_metrics in
  let pss := map MinerMetrics.pss_mean sorted_metrics in
  let cal := map MinerMetrics.cal_score sorted_metrics in
  let es_adj := map MinerMetrics.es_adj sorted_metrics in
  let mes := map MinerMetrics.mes_mean sorted_metrics in
  let sos := map MinerMetrics.sos_score sorted_metrics in
  let lead := map MinerMetrics.lead_score sorted_metrics in
  let n_miners := Z.of_nat (length sorted_metrics) in
  (* Step 1: Normalize *)
  let fq_norm := map (fun x => ComputeWeights.clip 0 1 ((x + 1) / 2)%float) fq_raw in
  let use_zscore := ComputeWeights.min_count cfg <=? n_miners in
  pss_norm ←
    (if use_zscore then call_normalize_zscore_logistic routines pss
     else call_normalize_percentile routines pss);
  es_norm ←
    (if use_zscore then call_normalize_zscore_logistic routines es_adj
     else call_normalize_percentile routines es_adj);
  let cal_norm := map (ComputeWeights.clip 0 1) cal in
  let mes_norm := map (ComputeWeights.clip 0 1) mes in
  let sos_norm := map (ComputeWeights.clip 0 1) sos in
  let lead_norm := map (ComputeWeights.clip 0 1) lead in
  (* arrays of different shapes do not combine *)
  if negb (Nat.eqb (length pss_norm) (length sorted_metrics)
           && Nat.eqb (length es_norm) (length sorted_metrics))
  then lift (Py.Raise Py.ValueError)
  else
    (* Step 2: Combine into dimensions *)
    let forecast_dim :=
      ComputeWeights.lin2 (ComputeWeights.w_fq cfg) fq_norm
        (ComputeWeights.w_cal cfg) cal_norm in
    let skill_dim := pss_norm in
    let econ_dim :=
      ComputeWeights.lin2 (ComputeWeights.w_edge cfg) es_norm
        (ComputeWeights.w_mes cfg) mes_norm in
    let info_dim :=
      ComputeWeights.lin2 (ComputeWeights.w_sos cfg) sos_norm
        (ComputeWeights.w_lead cfg) lead_norm in
    (* Step 3: Final skill score *)
    let skill_score :=
      zip_with (fun (fs : float * float) (ei : float * float) =>
                  (ComputeWeights.w_outcome_accuracy cfg * fs.1
                   + ComputeWeights.w_outcome_relative cfg * fs.2
                   + ComputeWeights.w_odds_edge cfg * ei.1
                   + ComputeWeights.w_info_adv cfg * ei.2)%float)
               (combine forecast_dim skill_dim) (combine econ_dim info_dim) in
    ret (ComputeWeights.mkScores forecast_dim skill_dim econ_dim info_dim skill_score).

Definition process_for_chain (result : ComputeWeights.WeightResult)
    (raw_weights : list float) (chain_params : ChainParamsSnapshot.t)
  : run ComputeWeights.WeightResult :=
  let n_neurons := ChainParamsSnapshot.n_neurons chain_params in
  let result :=
    ComputeWeights.set_raw_weights result (ComputeWeights.record_raw_weights raw_weights) in
  let max_weight_limit := ChainParamsSnapshot.max_weight_limit chain_params in
  let min_allowed := ChainParamsSnapshot.min_allowed_weights chain_params in
  let all_uids := map Z.of_nat (seq 0 (Z.to_nat n_neurons)) in
  let non_zero_mask := map (fun w => (0 <? w)%float) raw_weights in
  let nz_weights := ComputeWeights.select non_zero_mask raw_weights in
  let nz_uids := ComputeWeights.select non_zero_mask all_uids in
  if Nat.eqb (length nz_weights) 0 then ret result
  else
    processed ←
      (if Z.of_nat (length nz_weights) <? min_allowed then
         let base := F32.mul 1 (F32.round32 1e-5) in
         let padded :=
           zip_with (fun (nz : bool) w => if nz then F32.add base w else base)
                    non_zero_mask raw_weights in
         _normalize_max_weight padded max_weight_limit
       else _normalize_max_weight nz_weights max_weight_limit);
    let processed_uids :=
      if Z.of_nat (length nz_weights) <? min_allowed then all_uids else nz_uids in
    out ← lift (ComputeWeights._convert_to_uint16 processed_uids processed);
    ret (ComputeWeights.set_outputs result out.1 out.2).

Definition compute_weights (miner_metrics : list MinerMetrics.t)
    (scoring_config : ScoringConfigSnapshot.t)
    (chain_params : ChainParamsSnapshot.t) : run ComputeWeights.WeightResult :=
  let result := ComputeWeights.empty_result in
  let n_neurons := ChainParamsSnapshot.n_neurons chain_params in
  match miner_metrics with
  | [] =>
      (* No miners - allocate to burn if available *)
      match ChainParamsSnapshot.burn_uid chain_params with
      | Some burn_uid =>
          ret (ComputeWeights.set_outputs result [burn_uid] [ComputeWeights.U16_MAX])
      | None => ret result
      end
  | _ :: _ =>
      cfg ← read_config scoring_config;
      let sorted_metrics := ComputeWeights.sorted_by_uid miner_metrics in
      let uids := map MinerMetrics.uid sorted_metrics in
      sc ← score_miners cfg sorted_metrics;
      let result := ComputeWeights.record_intermediates result uids sc in
      (* Step 4 *)
      if n_neurons <? 0 then lift (Py.Raise Py.ValueError)
      else
        let scores :=
          ComputeWeights.dense_scores n_neurons uids (ComputeWeights.skill_score sc) in
        norm ← call_sum32 routines (map abs scores);
        if ComputeWeights.all_zero norm then
          match ChainParamsSnapshot.burn_uid chain_params with
          | Some burn_uid =>
              if ComputeWeights.in_range burn_uid n_neurons then
                process_for_chain result (ComputeWeights.one_hot n_neurons burn_uid)
                  chain_params
              else ret result
          | None => ret result
          end
        else
          let raw_weights := map (fun s => F32.div s norm) scores in
          (* Step 5: Apply burn rate *)
          let raw_weights :=
            match ChainParamsSnapshot.burn_uid chain_params with
            | Some burn_uid =>
                if (0 <? ComputeWeights.burn_rate cfg)%float
                   && ComputeWeights.in_range burn_uid n_neurons then
                  <[Z.to_nat burn_uid := F32.round32 (ComputeWeights.burn_rate cfg)]>
                    (map (fun w =>
                            F32.mul w
                              (F32.round32 (1 - ComputeWeights.burn_rate cfg)%float))
                         raw_weights)
                else raw_weights
            | None => raw_weights
            end in
          process_for_chain result raw_weights chain_params
  end.

(** A computation that neither reads nor changes the ambient state. *)
Definition stateless {A} (m : run A) : Prop :=
  exists r : Py.result A, forall w : World, m w = (r, w).

End Ambient.

Arguments ret {World A} a.
Arguments lift {World A} r.
Arguments bind {World A B} m k.
Arguments stateless {World A} m.
Arguments compute_weights {World} routines miner_metrics scoring_config chain_params.
Arguments _normalize_max_weight {World} routines x limit.
Arguments py_float {World} routines v.
Arguments py_int {World} routines v.
Arguments get_float {World} routines d key default.
Arguments get_int {World} routines d key default.
Arguments read_config {World} routines scoring_config.
Arguments score_miners {World} routines cfg sorted_metrics.
Arguments process_for_chain {World} routines result raw_weights chain_params.
Arguments call_normalize_zscore_logistic {World} r.
Arguments call_normalize_percentile {World} r.
Arguments call_sum32 {World} r.
Arguments call_sort {World} r.
Arguments call_float_of_str {World} r.
Arguments call_int_of_str {World} r.

(** Every routine is stateless. *)
Definition stateless_routines {World : Type} (routines : Routines World) : Prop :=
  (forall x, stateless (call_normalize_zscore_logistic routines x))
  /\ (forall x, stateless (call_normalize_percentile routines x))
  /\ (forall x, stateless (call_sum32 routines x))
  /\ (forall x, stateless (call_sort routines x))
  /\ (forall s, stateless (call_float_of_str routines s))
  /\ (forall s, stateless (call_int_of_str routines s)).

(** The routines that are the functions of [Normalization] and [Numpy] in
    every ambient state. *)
Definition of_functions (World : Type) `{Normalization} `{Numpy} : Routines World :=
  mkRoutines World
    (fun x => ret (normalize_zscore_logistic x))
    (fun x => ret (normalize_percentile x))
    (fun x => ret (np_sum32 x))
    (fun x => ret (np_sort x))
    (fun s => lift (float_of_str s))
    (fun s => lift (int_of_str s)).

End Ambient.

(** ** [store/filesystem.py]

    The directory tree under [{data_dir}/ledger] is a finite map from entry
    names to contents; a missing directory and an empty one are observed
    alike by the operations below.  A window directory is read back whole
    (the JSON and gzip encodings of the files are not modelled), so an entry
    holds the window that [_load_checkpoint] / [_load_delta] builds from its
    files, and every entry has its [manifest.json]. *)

Module FilesystemStore.

Record t : Type := mk {
  checkpoints_dir : gmap string CheckpointWindow.t;
  deltas_dir : gmap string (gmap string DeltaWindow.t);
  retention_days : Z
}.

(** [sorted(names)]: ascending in the order of [str]. *)
Definition str_le (a b : string) : Prop := String.leb a b = true.

#[global] Instance str_le_dec a b : Decision (str_le a b) :=
  decide (String.leb a b = true).

Definition sorted (names : list string) : list string := merge_sort str_le names.

(** [d.iterdir()], as names; the order is the file system's. *)
Definition iterdir {A} (d : gmap string A) : list string := (map_to_list d).*1.

(** [s.split("_", maxsplit)]; [None] splits at every separator. *)
Fixpoint split_underscore (maxsplit : option nat) (s : string) : list string :=
  match s with
  | EmptyString => [ EmptyString ]
  | String c rest =>
      let at_sep :=
        Ascii.eqb c "_" && match maxsplit with Some O => false | _ => true end in
      if at_sep then
        EmptyString :: split_underscore (Nat.pred <$> maxsplit) rest
      else
        match split_underscore maxsplit rest with
        | h :: tl => String c h :: tl
        | [] => [ String c EmptyString ]
        end
  end.

Definition checkpoint_id (cp : CheckpointWindow.t) : string :=
  let epoch := LedgerManifest.checkpoint_epoch (CheckpointWindow.manifest cp) in
  let date_str := datetime.strftime (LedgerManifest.window_end (CheckpointWindow.manifest cp)) in
  "epoch_" ++ Py.str_of_int epoch ++ "_" ++ date_str.

Definition delta_id_of (delta : DeltaWindow.t) : string :=
  let start := datetime.strftime (LedgerManifest.window_start (DeltaWindow.manifest delta)) in
  let end_ := datetime.strftime (LedgerManifest.window_end (DeltaWindow.manifest delta)) in
  "d_" ++ start ++ "_" ++ end_.

Definition epoch_dir_name (epoch : Z) : string := "epoch_" ++ Py.str_of_int epoch.

(** Whether [_prune] removes a checkpoint directory of this name. *)
Definition checkpoint_expired (cutoff_str name : string) : bool :=
  let parts := split_underscore (Some 2%nat) name in
  (3 <=? length parts)%nat && Py.str_lt (nth 2 parts "") cutoff_str.

(** Whether [_prune] removes a delta directory of this name. *)
Definition delta_expired (cutoff_str name : string) : bool :=
  let parts := split_underscore None name in
  (2 <=? length parts)%nat && Py.str_lt (nth 1 parts "") cutoff_str.

(** [_prune()]; [cutoff] is [datetime.now(timezone.utc) - timedelta(days=retention_days)],
    read from the clock by the source and an input here. *)
Definition _prune (self : t) (cutoff : datetime.t) : t :=
  let cutoff_str := datetime.strftime cutoff in
  let checkpoints :=
    filter (fun kv => checkpoint_expired cutoff_str kv.1 = false) (checkpoints_dir self) in
  let deltas :=
    (fun epoch_dir : gmap string DeltaWindow.t =>
       filter (fun kv => delta_expired cutoff_str kv.1 = false) epoch_dir)
    <$> deltas_dir self in
  (* Remove empty epoch dirs *)
  let deltas := filter (fun kv => kv.2 ≠ ∅) deltas in
  mk checkpoints deltas (retention_days self).

(** What a checkpoint directory holds after [put_checkpoint] wrote [cp] into
    it, [old] being what it held before: the four files that are always
    written are those of [cp]; [chain_params.json] is written only for a
    checkpoint that has chain parameters and is never removed, so without
    them the file of an earlier checkpoint stays. *)
Definition written_over (old : option CheckpointWindow.t) (cp : CheckpointWindow.t)
  : CheckpointWindow.t :=
  CheckpointWindow.mk (CheckpointWindow.manifest cp) (CheckpointWindow.roster cp)
    (CheckpointWindow.accumulators cp) (CheckpointWindow.scoring_config cp)
    match CheckpointWindow.chain_params cp with
    | Some chain_params => Some chain_params
    | None => old ≫= CheckpointWindow.chain_params
    end.

Definition put_checkpoint (self : t) (cp : CheckpointWindow.t) (cutoff : datetime.t)
  : t * string :=
  let cp_id := checkpoint_id cp in
  let cp_dir := written_over (checkpoints_dir self !! cp_id) cp in
  let self := mk (<[cp_id := cp_dir]> (checkpoints_dir self)) (deltas_dir self)
                 (retention_days self) in
  (_prune self cutoff, cp_id).

Definition put_delta (self : t) (delta : DeltaWindow.t) (cutoff : datetime.t)
  : t * string :=
  let epoch := LedgerManifest.checkpoint_epoch (DeltaWindow.manifest delta) in
  let delta_id := delta_id_of delta in
  let epoch_dir := default ∅ (deltas_dir self !! epoch_dir_name epoch) in
  let self := mk (checkpoints_dir self)
                 (<[epoch_dir_name epoch := <[delta_id := delta]> epoch_dir]> (deltas_dir self))
                 (retention_days self) in
  (_prune self cutoff, delta_id).

(** The first directory of [sorted(iterdir(), reverse=True)] holds a manifest. *)
Definition get_latest_checkpoint (self : t) : option CheckpointWindow.t :=
  let dirs := reverse (sorted (iterdir (checkpoints_dir self))) in
  match dirs with
  | [] => None
  | cp_dir :: _ => checkpoints_dir self !! cp_dir
  end.

Definition list_deltas (self : t) (epoch : Z) (since : option datetime.t) : list string :=
  match deltas_dir self !! epoch_dir_name epoch with
  | None => []
  | Some epoch_dir =>
      let delta_ids := sorted (iterdir epoch_dir) in
      match since with
      | Some since =>
          let since_str := datetime.strftime since in
          List.filter (fun d => Py.str_gt d ("d_" ++ since_str)) delta_ids
      | None => delta_ids
      end
  end.

(** The loop of [get_delta] over the epoch directories. *)
Fixpoint find_delta (delta_id : string) (epoch_dirs : list (gmap string DeltaWindow.t))
  : option DeltaWindow.t :=
  match epoch_dirs with
  | [] => None
  | epoch_dir :: rest =>
      match epoch_dir !! delta_id with
      | Some delta => Some delta
      | None => find_delta delta_id rest
      end
  end.

Definition get_delta (self : t) (delta_id : string) : option DeltaWindow.t :=
  find_delta delta_id (map_to_list (deltas_dir self)).*2.

End FilesystemStore.

(** ** [store/interface.py]

    The read side of the [LedgerStore] protocol as the auditor sees it
    during one cycle. *)

Record LedgerStore : Type := mkStore {
  store_get_latest_checkpoint : option CheckpointWindow.t;
  store_list_deltas : Z -> option datetime.t -> list string;
  store_get_delta : string -> option DeltaWindow.t
}.

Definition filesystem_store (fs : FilesystemStore.t) : LedgerStore :=
  mkStore (FilesystemStore.get_latest_checkpoint fs)
          (FilesystemStore.list_deltas fs)
          (FilesystemStore.get_delta fs).

(** [datetime.isoformat] and [datetime.fromisoformat] ([None] for [ValueError]). *)
Class Isoformat : Type := {
  isoformat : datetime.t -> string;
  fromisoformat : string -> option datetime.t
}.

(** ** [auditor/sync.py] *)

Module Sync.

Record EpochChangeResult : Type := mkChange {
  status : string;  (* "accepted", "paused", "rejected" *)
  reason : string
}.

Record _RecomputeHistoryEntry : Type := mkEntry {
  entry_epoch : Z;
  timestamp : float;
  reason_code : string;
  reason_detail : string
}.

(** A value of the [accumulator] dictionary:
    [{"brier_ws": .., "brier_wt": .., "count": ..}] *)
Record BrierRow : Type := mkRow {
  brier_ws : float;
  brier_wt : float;
  count : Z
}.

(** The contents of [auditor_state.json]. *)
Record SavedState : Type := mkSaved {
  saved_epoch : Z;
  saved_last_delta_id : string;
  saved_last_delta_ts : string;
  saved_accumulator : gmap string BrierRow;
  saved_recompute_history : list _RecomputeHistoryEntry
}.

(** The attributes of a [LedgerSync] object, and the state file it owns. *)
Record LedgerSync : Type := mk {
  max_epoch_bumps_per_day : Z;
  max_epoch_bumps_per_week : Z;
  epoch : Z;
  last_delta_id : string;
  last_delta_ts : string;
  accumulator : gmap string BrierRow;
  recompute_history : list _RecomputeHistoryEntry;
  latest_checkpoint : option CheckpointWindow.t;
  latest_deltas : list DeltaWindow.t;
  state_file : option SavedState
}.

(** [LedgerSync(store, data_dir, ...)] when no state file exists. *)
Definition init (per_day per_week : Z) : LedgerSync :=
  mk per_day per_week 0 "" "" ∅ [] None [] None.

Definition _save_state (self : LedgerSync) : LedgerSync :=
  mk (max_epoch_bumps_per_day self) (max_epoch_bumps_per_week self)
     (epoch self) (last_delta_id self) (last_delta_ts self) (accumulator self)
     (recompute_history self) (latest_checkpoint self) (latest_deltas self)
     (Some (mkSaved (epoch self) (last_delta_id self) (last_delta_ts self)
                    (accumulator self) (recompute_history self))).

(** The entries of the history that the rate check counts at time [now]. *)
Definition recent (window : float) (now : float) (history : list _RecomputeHistoryEntry)
  : list _RecomputeHistoryEntry :=
  List.filter (fun e => (now - timestamp e <? window)%float) history.

(** [_handle_epoch_change(cp)]; [now] is the value of [time.time()]. *)
Definition _handle_epoch_change (self : LedgerSync) (cp : CheckpointWindow.t) (now : float)
  : LedgerSync * EpochChangeResult :=
  let new_epoch := LedgerManifest.checkpoint_epoch (CheckpointWindow.manifest cp) in
  let record := LedgerManifest.recompute_record (CheckpointWindow.manifest cp) in
  (* Validate recompute record *)
  if match record with
     | Some record => String.eqb (RecomputeRecord.reason_detail record) ""
     | None => false
     end
  then (self, mkChange "rejected" "empty_reason_detail")
  else
    (* Check rate limits *)
    let recent_day := recent 86400 now (recompute_history self) in
    let recent_week := recent 604800 now (recompute_history self) in
    if max_epoch_bumps_per_day self <=? Z.of_nat (length recent_day) then
      (self, mkChange "paused" "RECOMPUTE_RATE_EXCEEDED_DAILY")
    else if max_epoch_bumps_per_week self <=? Z.of_nat (length recent_week) then
      (self, mkChange "paused" "RECOMPUTE_RATE_EXCEEDED_WEEKLY")
    else
      (* Accept: reset accumulators; log recompute *)
      let history :=
        match record with
        | Some record =>
            app (recompute_history self)
                [ mkEntry new_epoch now (RecomputeRecord.reason_code record)
                          (RecomputeRecord.reason_detail record) ]
        | None => recompute_history self
        end in
      let self :=
        mk (max_epoch_bumps_per_day self) (max_epoch_bumps_per_week self)
           new_epoch "" "" ∅ history (latest_checkpoint self) (latest_deltas self)
           (state_file self) in
      (_save_state self, mkChange "accepted" "").

(** The body of the loop of [_apply_delta] for one settled submission. *)
Definition apply_submission (accumulator : gmap string BrierRow)
    (sub : SettledSubmissionEntry.t) : gmap string BrierRow :=
  let mid := Py.str_of_int (SettledSubmissionEntry.miner_id sub) in
  let acc := default (mkRow 0 0 0) (accumulator !! mid) in
  let acc :=
    match SettledSubmissionEntry.brier sub with
    | Some brier =>
        mkRow (brier_ws acc + brier)%float (brier_wt acc + 1)%float (count acc + 1)
    | None => acc
    end in
  <[mid := acc]> accumulator.

Definition _apply_delta (self : LedgerSync) (delta : DeltaWindow.t) : LedgerSync :=
  mk (max_epoch_bumps_per_day self) (max_epoch_bumps_per_week self)
     (epoch self) (last_delta_id self) (last_delta_ts self)
     (fold_left apply_submission (DeltaWindow.settled_submissions delta) (accumulator self))
     (recompute_history self) (latest_checkpoint self) (latest_deltas self)
     (state_file self).

Definition set_latest (self : LedgerSync) (cp : option CheckpointWindow.t)
    (deltas : list DeltaWindow.t) : LedgerSync :=
  mk (max_epoch_bumps_per_day self) (max_epoch_bumps_per_week self)
     (epoch self) (last_delta_id self) (last_delta_ts self) (accumulator self)
     (recompute_history self) cp deltas (state_file self).

Definition set_last_delta (self : LedgerSync) (id ts : string) : LedgerSync :=
  mk (max_epoch_bumps_per_day self) (max_epoch_bumps_per_week self)
     (epoch self) id ts (accumulator self)
     (recompute_history self) (latest_checkpoint self) (latest_deltas self)
     (state_file self).

Section Sync.
Context `{Isoformat}.

(** The body of the loop of [sync_cycle] over [new_ids]. *)
Definition sync_delta (store : LedgerStore) (self : LedgerSync) (delta_id : string)
  : LedgerSync :=
  match store_get_delta store delta_id with
  | None => self
  | Some delta =>
      if negb (LedgerManifest.checkpoint_epoch (DeltaWindow.manifest delta) =? epoch self)
      then self  (* Stale epoch, skip *)
      else
        let self :=
          set_latest self (latest_checkpoint self) (app (latest_deltas self) [delta]) in
        let self := _apply_delta self delta in
        set_last_delta self delta_id
          (isoformat (LedgerManifest.window_end (DeltaWindow.manifest delta)))
  end.

(** [sync_cycle()]: the object afterwards and the returned pair. *)
Definition sync_cycle (self : LedgerSync) (store : LedgerStore) (now : float)
  : LedgerSync * (option CheckpointWindow.t * list DeltaWindow.t) :=
  let self := set_latest self (latest_checkpoint self) [] in
  (* Fetch latest checkpoint *)
  match store_get_latest_checkpoint store with
  | None => (self, (None, []))
  | Some cp =>
      let self := set_latest self (Some cp) (latest_deltas self) in
      let cp_epoch := LedgerManifest.checkpoint_epoch (CheckpointWindow.manifest cp) in
      (* Handle epoch change *)
      let '(self, stop) :=
        if negb (cp_epoch =? epoch self) then
          let '(self, change_result) := _handle_epoch_change self cp now in
          (self, String.eqb (status change_result) "rejected"
                 || String.eqb (status change_result) "paused")
        else (self, false) in
      if stop then (self, (Some cp, []))
      else
        (* Fetch new deltas since last sync *)
        let since :=
          if negb (String.eqb (last_delta_ts self) "")
          then fromisoformat (last_delta_ts self) else None in
        let delta_ids := store_list_deltas store (epoch self) since in
        (* Filter out already-processed deltas *)
        let new_ids :=
          if negb (String.eqb (last_delta_id self) "")
          then List.filter (fun d => Py.str_gt d (last_delta_id self)) delta_ids
          else delta_ids in
        let self := fold_left (sync_delta store) new_ids self in
        let self := _save_state self in
        (self, (Some cp, latest_deltas self))
  end.

End Sync.

(** [get_miner_metrics()]: [from_accumulator] mutates the entries of
    [self.latest_checkpoint] in place, so the checkpoint held by the object
    changes with the call. *)
Definition get_miner_metrics (self : LedgerSync) : LedgerSync * list MinerMetrics.t :=
  match latest_checkpoint self with
  | None => (self, [])
  | Some cp =>
      let results := map MinerMetrics.from_accumulator (CheckpointWindow.accumulators cp) in
      let cp :=
        CheckpointWindow.mk (CheckpointWindow.manifest cp) (CheckpointWindow.roster cp)
          results.*1 (CheckpointWindow.scoring_config cp) (CheckpointWindow.chain_params cp) in
      (set_latest self (Some cp) (latest_deltas self), results.*2)
  end.

End Sync.

(** ** [auditor/plugin_registry.py], [auditor/plugins/weight_verification.py],
       [auditor/runtime.py] *)

(** What the weight plugin reads from the chain when the checkpoint carries
    no chain parameters: the uid of the subnet owner's hotkey in the
    metagraph (if any), [float(subtensor.max_weight_limit(netuid))],
    [int(subtensor.min_allowed_weights(netuid))] and [int(metagraph.n)]. *)
Class Chain : Type := {
  owner_uid : option Z;
  subtensor_max_weight_limit : float;
  subtensor_min_allowed_weights : Z;
  metagraph_n : Z
}.

Module Runtime.

Record AuditorContext : Type := mkContext {
  checkpoint : option CheckpointWindow.t;
  deltas : list DeltaWindow.t;
  accumulator_state : gmap string Sync.BrierRow
}.

Section Runtime.
Context `{Pydantic} `{Determinism} `{Bittensor} `{Isoformat}
        `{Normalization} `{Numpy} `{Chain}.

(** Steps 1, 3 and 4 of [WeightVerificationHandler.on_cycle]: the weights
    the plugin computes from the context; [None] when it skips.  Step 2,
    the Brier cross-check of the deltas, does not enter the weights: it
    fills two counters of the evidence, and an [OverflowError] that it
    raises ends the cycle before step 3 (see [WeightVerification.on_cycle]).
    The comparison with the primary's on-chain weights and the submission
    follow in the source and involve the chain only. *)
Definition computed_weights (context : AuditorContext)
  : option (Py.result ComputeWeights.WeightResult) :=
  match checkpoint context with
  | None => None
  | Some cp =>
      (* Step 1: Extract MinerMetrics from checkpoint *)
      let metrics := (map MinerMetrics.from_accumulator (CheckpointWindow.accumulators cp)).*2 in
      match metrics with
      | [] => None
      | _ :: _ =>
          (* Step 3: Build chain params *)
          let chain_params :=
            match CheckpointWindow.chain_params cp with
            | Some chain_params => Py.Ok chain_params
            | None =>
                let params :=
                  ScoringConfigSnapshot.params (CheckpointWindow.scoring_config cp) in
                burn_rate ← ComputeWeights.get_float
                               (ComputeWeights.get_section params "weight_emission")
                               "burn_rate" 0.9;
                Py.Ok (ChainParamsSnapshot.mk burn_rate owner_uid
                         (subtensor_max_weight_limit / 65535)%float
                         subtensor_min_allowed_weights metagraph_n)
            end in
          (* Step 4: Compute weights deterministically *)
          Some (chain_params ← chain_params;
                ComputeWeights.compute_weights metrics
                  (CheckpointWindow.scoring_config cp) chain_params)
      end
  end.

(** How one cycle of the runtime ends. *)
Inductive CycleOutcome : Type :=
| NoCheckpoint
| CheckpointVerificationFailed (errors : list string)
| Dispatched (context : AuditorContext).

(** [AuditorRuntime._cycle()]: the sync object afterwards and how the cycle
    ended; [Dispatched context] is [self.registry.dispatch(context)].  The
    metagraph resync that opens the cycle (whose failure is only logged) and
    the logging are left out; the context keeps the fields the weight plugin
    computes from. *)
Definition _cycle (verifier : Verifier.ManifestVerifier) (sync : Sync.LedgerSync)
    (store : LedgerStore) (now : float) : Sync.LedgerSync * CycleOutcome :=
  (* Fetch checkpoint + deltas *)
  let '(sync, (cp, deltas)) := Sync.sync_cycle sync store now in
  match cp with
  | None => (sync, NoCheckpoint)
  | Some cp =>
      (* Verify checkpoint *)
      let cp_result := Verifier.verify_checkpoint verifier cp in
      if negb (Verifier.valid cp_result) then
        (sync, CheckpointVerificationFailed (Verifier.errors cp_result))
      else
        (* Verify deltas *)
        let verified_deltas :=
          List.filter (fun delta => Verifier.valid (Verifier.verify_delta verifier delta))
                      deltas in
        (* Build context for plugins; dispatch *)
        (sync, Dispatched (mkContext (Some cp) verified_deltas (Sync.accumulator sync)))
  end.

End Runtime.
End Runtime.

(** ** Fixtures: small instances of the collaborators, and sample data *)

Module Fixture.

(** A keyed tag in place of a signature scheme: the signature of [msg] under
    the key [w] is [w ++ msg]. *)
#[export] Instance tag_keypair : Bittensor := {|
  Wallet := string;
  ss58_address := fun w => w;
  hotkey_sign := fun w msg => w ++ msg;
  keypair_verify := fun a msg sig => Py.Ok (String.eqb sig (a ++ msg))
|}.

(** A digest that reads the epoch of a manifest and nothing else. *)
#[export] Instance epoch_digest : Determinism := {|
  compute_hash := fun j =>
    match j with
    | JObj fields =>
        match dict_get "checkpoint_epoch" fields with
        | Some (JInt n) => Py.str_of_int n
        | _ => "h"
        end
    | _ => "h"
    end
|}.

#[export] Instance strftime_dump : Pydantic := {|
  dump_datetime := datetime.strftime
|}.

Definition noon : datetime.t := datetime.mk 2024 1 1 12 0 0 0 (Some 0).

Definition manifest (kind : string) (epoch : Z) (hashes : gmap string string)
    (record : option RecomputeRecord.t) : LedgerManifest.t :=
  LedgerManifest.mk 1 kind noon noon epoch hashes "primary_hk" "" noon record.

(** Normalisation that sends every participant to 0.5. *)
#[export] Instance half_normalization : Normalization := {|
  normalize_zscore_logistic := map (fun _ => 0.5%float);
  normalize_percentile := map (fun _ => 0.5%float)
|}.

Fixpoint insert_float (a : float) (l : list float) : list float :=
  match l with
  | [] => [a]
  | x :: rest => if (a <=? x)%float then a :: l else x :: insert_float a rest
  end.

(** Left-to-right summation and insertion sort; no numbers in strings. *)
#[export] Instance sequential_numpy : Numpy := {|
  np_sum32 := fun x => fold_left F32.add x 0%float;
  np_sort := fun x => foldr insert_float [] x;
  float_of_str := fun _ => Py.Raise Py.ValueError;
  int_of_str := fun _ => Py.Raise Py.ValueError
|}.

(** Routines over a counter as ambient state: the percentile normalisation
    draws its value from the counter and advances it, as a random generator
    would; the others are the functions above. *)
Definition drawing : Ambient.Routines Z :=
  Ambient.mkRoutines Z
    (fun x => Ambient.ret (normalize_zscore_logistic x))
    (fun x w => (Py.Ok (map (fun _ => (PyNum.float_of_int w / 4)%float) x), w + 1))
    (fun x => Ambient.ret (np_sum32 x))
    (fun x => Ambient.ret (np_sort x))
    (fun s => Ambient.lift (float_of_str s))
    (fun s => Ambient.lift (int_of_str s)).

Definition miner (uid : Z) (fq_raw : float) : MinerMetrics.t :=
  MinerMetrics.mk uid "hk" fq_raw 0.1 0.05 0.6 0.7 0.6 0.5 0.4 0.35.

Definition chain (n_neurons : Z) (burn_uid : option Z) (min_allowed : Z)
  : ChainParamsSnapshot.t :=
  ChainParamsSnapshot.mk 0.9 burn_uid 0.5 min_allowed n_neurons.

Definition default_config : ScoringConfigSnapshot.t := ScoringConfigSnapshot.mk [].

(** One miner whose uid lies outside a subnet of five neurons. *)
Definition stray_miner : list MinerMetrics.t := [ miner 11 0.3 ].

Definition default_cfg : ComputeWeights.Config :=
  Eval vm_compute in
    match ComputeWeights.read_config default_config with
    | Py.Ok cfg => cfg
    | Py.Raise _ => ComputeWeights.mkConfig 0 0 0 0 0 0 0 0 0 0 0 0
    end.

Definition stray_scores : ComputeWeights.Scores :=
  Eval vm_compute in
    match ComputeWeights.score_miners default_cfg (ComputeWeights.sorted_by_uid stray_miner) with
    | Py.Ok sc => sc
    | Py.Raise _ => ComputeWeights.mkScores [] [] [] [] []
    end.

Definition clock (day hour minute : Z) : datetime.t :=
  datetime.mk 2024 1 day hour minute 0 0 (Some 0).

Definition manifest_at (kind : string) (epoch : Z) (start end_ : datetime.t)
    (record : option RecomputeRecord.t) : LedgerManifest.t :=
  LedgerManifest.mk 1 kind start end_ epoch ∅ "primary_hk" "" end_ record.

Definition checkpoint (epoch : Z) (end_ : datetime.t) : CheckpointWindow.t :=
  CheckpointWindow.mk (manifest_at "checkpoint" epoch end_ end_ None) [] []
    default_config None.

Definition delta (epoch : Z) (start end_ : datetime.t) : DeltaWindow.t :=
  DeltaWindow.mk (manifest_at "delta" epoch start end_ None) [] [].

Definition empty_store : FilesystemStore.t := FilesystemStore.mk ∅ ∅ 7.

(** The retention cutoff of the sample runs: a week before their windows. *)
Definition cutoff : datetime.t := datetime.mk 2023 12 25 0 0 0 0 (Some 0).

(** A store that holds the checkpoint of epoch 9 and, written a day later,
    the checkpoint of epoch 10. *)
Definition store_9_10 : FilesystemStore.t :=
  let s := (FilesystemStore.put_checkpoint empty_store (checkpoint 9 (clock 1 12 0)) cutoff).1 in
  (FilesystemStore.put_checkpoint s (checkpoint 10 (clock 2 12 0)) cutoff).1.

(** A store that holds one delta of epoch 1, for the window 10:00 to 11:00. *)
Definition store_one_delta : FilesystemStore.t :=
  (FilesystemStore.put_delta empty_store (delta 1 (clock 1 10 0) (clock 1 11 0)) cutoff).1.

#[export] Instance strftime_iso : Isoformat := {|
  isoformat := datetime.strftime;
  fromisoformat := fun _ => None
|}.

#[export] Instance subnet_of_ten : Chain := {|
  owner_uid := Some 0;
  subtensor_max_weight_limit := 32767;
  subtensor_min_allowed_weights := 1;
  metagraph_n := 10
|}.

Definition accumulator_entry (uid : Z) (ws wt : float) : AccumulatorEntry.t :=
  AccumulatorEntry.mk uid "hk" uid 50 50
    (MetricAccumulator.mk ws wt) (MetricAccumulator.mk ws wt)
    (MetricAccumulator.mk ws wt) (MetricAccumulator.mk ws wt)
    (MetricAccumulator.mk ws wt) (MetricAccumulator.mk ws wt)
    (MetricAccumulator.mk ws wt)
    0 0 0 0 0.5 0.5 0.5 0.5 0.5.

Definition recompute (epoch : Z) : RecomputeRecord.t :=
  RecomputeRecord.mk epoch (epoch - 1) "SCORING_BUG" "second fix" [] "bugfix"
    (clock 1 12 0) "abc".

(** A checkpoint of the given epoch that announces a recompute, carries two
    accumulator entries and chain parameters, and is signed by the primary
    under the fixture keypair and digest. *)
Definition signed_checkpoint (epoch : Z) : CheckpointWindow.t :=
  let hashes : gmap string string :=
    {[ "roster" := "h"; "accumulators" := "h"; "scoring_config" := "h" ]} in
  let m :=
    LedgerManifest.mk 1 "checkpoint" (clock 1 0 0) (clock 1 12 0) epoch hashes
      "primary_hk" "" (clock 1 12 0) (Some (recompute epoch)) in
  CheckpointWindow.mk
    (LedgerManifest.set_signature (Signer.sign_manifest m "primary_hk") m)
    [] [ accumulator_entry 1 10 50; accumulator_entry 2 30 50 ]
    default_config (Some (chain 10 (Some 0) 1)).

(** A store that serves one checkpoint and no delta. *)
Definition serving (cp : CheckpointWindow.t) : LedgerStore :=
  mkStore (Some cp) (fun _ _ => []) (fun _ => None).

(** An auditor at epoch 1 that accepted a recompute at time 1000 (seconds),
    with the default limits of one bump a day and three a week. *)
Definition auditor_after_bump : Sync.LedgerSync :=
  Sync.mk 1 3 1 "d_old" "" {[ "1" := Sync.mkRow 5 25 25 ]}
    [ Sync.mkEntry 1 1000 "SCORING_BUG" "first fix" ] None [] None.

End Fixture.

(** ** Vocabulary of the properties *)

(** [mean] is the mean that the accumulator pair [acc] determines:
    [ws / wt] when [wt] is not zero, [fallback] when it is. *)
Definition mean_of (acc : MetricAccumulator.t) (fallback mean : float) : Prop :=
  (PrimFloat.eqb (MetricAccumulator.wt acc) 0 = false ->
     mean = (MetricAccumulator.ws acc / MetricAccumulator.wt acc)%float)
  /\ (PrimFloat.eqb (MetricAccumulator.wt acc) 0 = true -> mean = fallback).

(** The signature of [m] verifies for [hotkey] over the hash of the
    canonical manifest with the signature removed. *)
Definition signature_verifies `{Pydantic} `{Determinism} `{Bittensor}
    (m : LedgerManifest.t) (hotkey : string) : Prop :=
  LedgerManifest.signature m <> ""
  /\ exists sig_bytes : bytes,
       Hex.fromhex (LedgerManifest.signature m) = Some sig_bytes
       /\ keypair_verify hotkey
            (compute_hash (JObj (dict_pop "signature" (dump_LedgerManifest_fields m))))
            sig_bytes = Py.Ok true.

(** The five checks of the manifest verifier for a window of kind [kind]
    whose in-memory sections are [sections]. *)
Definition manifest_checks `{Pydantic} `{Determinism} `{Bittensor}
    (expected_hotkey : string) (m : LedgerManifest.t) (kind : string)
    (sections : list (string * pyany)) : Prop :=
  LedgerManifest.schema_version m = LEDGER_SCHEMA_VERSION
  /\ LedgerManifest.primary_hotkey m = expected_hotkey
  /\ signature_verifies m expected_hotkey
  /\ (forall name data, (name, data) ∈ sections ->
        LedgerManifest.content_hashes m !! name
        = Some (Signer.compute_section_hash data))
  /\ LedgerManifest.window_type m = kind.

(** The datetimes that a manifest carries. *)
Definition manifest_datetimes (m : LedgerManifest.t) : list datetime.t :=
  [ LedgerManifest.window_start m; LedgerManifest.window_end m;
    LedgerManifest.created_at m ]
  ++ match LedgerManifest.recompute_record m with
     | Some r => [ RecomputeRecord.timestamp r ]
     | None => []
     end.

(** pydantic's dump tells the datetimes of [m1] from those of [m2]. *)
Definition dump_separates `{Pydantic} (m1 m2 : LedgerManifest.t) : Prop :=
  forall d1 d2, d1 ∈ manifest_datetimes m1 -> d2 ∈ manifest_datetimes m2 ->
                dump_datetime d1 = dump_datetime d2 -> d1 = d2.

(** The manifest [m] signed by [wallet]: its [signature] set to
    [sign_manifest(m, wallet)]. *)
Definition signed_by `{Pydantic} `{Determinism} `{Bittensor}
    (m : LedgerManifest.t) (wallet : Wallet) : LedgerManifest.t :=
  LedgerManifest.set_signature (Signer.sign_manifest m wallet) m.

(** The final outputs of a run of [compute_weights], if it returns. *)
Definition outputs (r : Py.result ComputeWeights.WeightResult)
  : option (list Z * list Z) :=
  match r with
  | Py.Ok r => Some (ComputeWeights.uids r, ComputeWeights.uint16_weights r)
  | Py.Raise _ => None
  end.

(** The whole of a weight vector of length [n] sits on [burn_uid]. *)
Definition allocated_to (v : list float) (n burn_uid : Z) : Prop :=
  length v = Z.to_nat n
  /\ forall i, 0 <= i < n ->
       v !! Z.to_nat i = Some (if i =? burn_uid then 1%float else 0%float).

(** Comparison of a pair, first component first. *)
Definition lexc (c rest : comparison) : comparison :=
  match c with Eq => rest | Lt => Lt | Gt => Gt end.

(** The delta [delta] is stored under [id] in the directory of [epoch]. *)
Definition stored (self : FilesystemStore.t) (epoch : Z) (id : string)
    (delta : DeltaWindow.t) : Prop :=
  exists dir, FilesystemStore.deltas_dir self !! FilesystemStore.epoch_dir_name epoch = Some dir
              /\ dir !! id = Some delta.

(** Every delta directory is where [put_delta] writes it: named by the id
    of the delta it holds, under the directory of that delta's epoch; and
    the window bounds are datetimes in range. *)
Definition well_formed (self : FilesystemStore.t) : Prop :=
  forall name dir id delta,
    FilesystemStore.deltas_dir self !! name = Some dir ->
    dir !! id = Some delta ->
    id = FilesystemStore.delta_id_of delta
    /\ name = FilesystemStore.epoch_dir_name
                (LedgerManifest.checkpoint_epoch (DeltaWindow.manifest delta))
    /\ datetime.in_range (LedgerManifest.window_start (DeltaWindow.manifest delta))
    /\ datetime.in_range (LedgerManifest.window_end (DeltaWindow.manifest delta)).

(** What pydantic validation guarantees of the recompute record of a
    checkpoint, if it has one. *)
Definition record_validated (cp : CheckpointWindow.t) : Prop :=
  forall r, LedgerManifest.recompute_record (CheckpointWindow.manifest cp) = Some r ->
            RecomputeRecord.validated r.

(** The rate policy is exceeded at time [now]: the recompute history has at
    least [max_epoch_bumps_per_day] entries within the last 24 hours, or at
    least [max_epoch_bumps_per_week] within the last 7 days. *)
Definition rate_exceeded (self : Sync.LedgerSync) (now : float) : Prop :=
  Sync.max_epoch_bumps_per_day self
    <= Z.of_nat (length (Sync.recent 86400 now (Sync.recompute_history self)))
  \/ Sync.max_epoch_bumps_per_week self
      <= Z.of_nat (length (Sync.recent 604800 now (Sync.recompute_history self))).

(** The durable part of the auditor's state is the same in [s] and [s']. *)
Definition same_ledger_state (s s' : Sync.LedgerSync) : Prop :=
  Sync.epoch s' = Sync.epoch s
  /\ Sync.accumulator s' = Sync.accumulator s
  /\ Sync.last_delta_id s' = Sync.last_delta_id s
  /\ Sync.last_delta_ts s' = Sync.last_delta_ts s
  /\ Sync.recompute_history s' = Sync.recompute_history s
  /\ Sync.state_file s' = Sync.state_file s.

(** * The exporter, the plugins and sample data *)

(** The sections of [scoring_config.params] that [compute_weights] reads. *)
Definition config_sections : list string :=
  [ "dimension_weights"; "skill_score_weights"; "normalization"; "weight_emission" ].

(** [params] holds [key], and not with a [dict] as its value. *)
Definition malformed_section (params : list (string * json)) (key : string) : Prop :=
  exists v, dict_get key params = Some v /\ forall fields, v <> JObj fields.

(** The defaults written in [compute_weights]. *)
Definition config_defaults : ComputeWeights.Config :=
  ComputeWeights.mkConfig 0.6 0.4 0.7 0.3 0.6 0.4 0.10 0.10 0.50 0.30 10 0.9.

(** No character of [s] is the separator of the directory names. *)
Fixpoint no_underscore (s : string) : bool :=
  match s with
  | EmptyString => true
  | String c rest => negb (Ascii.eqb c "_") && no_underscore rest
  end.

(** The submissions of [miner_id] among [subs] that carry a Brier score. *)
Definition scored_submissions (miner_id : Z) (subs : list SettledSubmissionEntry.t)
  : list SettledSubmissionEntry.t :=
  List.filter
    (fun sub => (SettledSubmissionEntry.miner_id sub =? miner_id)
                && bool_decide (is_Some (SettledSubmissionEntry.brier sub)))
    subs.

(** The row that [_apply_delta] starts from for a miner it has not seen. *)
Definition fresh_row : Sync.BrierRow := Sync.mkRow 0 0 0.

(** What [_apply_delta] does to a row for one submission that has a score. *)
Definition add_score (row : Sync.BrierRow) (brier : float) : Sync.BrierRow :=
  Sync.mkRow (Sync.brier_ws row + brier)%float (Sync.brier_wt row + 1)%float
    (Sync.count row + 1).

(** The content-hash check of one section fails: the manifest has no hash
    under the section's name, or a hash other than the recomputed one. *)
Definition section_check_fails `{Pydantic} `{Determinism}
    (m : LedgerManifest.t) (section : string * pyany) : bool :=
  negb (bool_decide (LedgerManifest.content_hashes m !! section.1
                     = Some (Signer.compute_section_hash section.2))).

(** The number of checks of the manifest verifier that fail on a window. *)
Definition failed_checks `{Pydantic} `{Determinism} `{Bittensor}
    (expected_hotkey : string) (m : LedgerManifest.t) (kind : string)
    (sections : list (string * pyany)) : nat :=
  ((if Z.eqb (LedgerManifest.schema_version m) LEDGER_SCHEMA_VERSION then 0 else 1)
   + (if String.eqb (LedgerManifest.primary_hotkey m) expected_hotkey then 0 else 1)
   + (if Signer.verify_manifest m expected_hotkey then 0 else 1)
   + length (List.filter (section_check_fails m) sections)
   + (if String.eqb (LedgerManifest.window_type m) kind then 0 else 1))%nat.

(** ** [ledger/exporter.py]

    The exporter reads the primary's database; of the database, the table
    [ledger_state] that the exporter also writes is modelled, and the lists
    of entries that the exporter builds from the rows of the other queries
    are inputs.  Clock readings are inputs too. *)

(** pydantic's [pattern] constraint: whether a value matches a regular
    expression. *)
Class Patterns : Type := {
  pattern_matches : string -> string -> bool
}.

Module Exporter.

(** The singleton row of [ledger_state]. *)
Record LedgerStateRow : Type := mkRow {
  checkpoint_epoch : Z;
  last_checkpoint_at : option datetime.t;
  last_delta_at : option datetime.t;
  last_delta_id : option string
}.

(** The table [ledger_state]: its row with [id = 1], when there is one. *)
Definition Database : Type := option LedgerStateRow.

(** [UPDATE ledger_state SET ... WHERE id = 1] *)
Definition _UPDATE_LEDGER_EPOCH (epoch : Z) (ts : datetime.t) (db : Database) : Database :=
  (fun row => mkRow epoch (Some ts) (last_delta_at row) (last_delta_id row)) <$> db.

Definition _UPDATE_LEDGER_DELTA (ts : datetime.t) (delta_id : string) (db : Database)
  : Database :=
  (fun row => mkRow (checkpoint_epoch row) (last_checkpoint_at row) (Some ts) (Some delta_id))
  <$> db.

Definition _UPDATE_LEDGER_CHECKPOINT (ts : datetime.t) (db : Database) : Database :=
  (fun row => mkRow (checkpoint_epoch row) (Some ts) (last_delta_at row) (last_delta_id row))
  <$> db.

(** The values of [RecomputeReasonCode]. *)
Definition RecomputeReasonCode : list string :=
  [ "SDIO_FEED_ERROR"; "SDIO_OUTAGE"; "SCORING_BUG"; "DB_CORRUPTION"; "DB_MIGRATION";
    "CONFIG_CHANGE"; "MANUAL_CORRECTION"; "SCHEDULED_RECALIBRATION" ].

Section Exporter.
Context `{Pydantic} `{Determinism} `{Bittensor} `{Patterns}.

(** [params] is [self.params.model_dump(mode="json")]. *)
Record LedgerExporter : Type := mk {
  wallet : Wallet;
  netuid : Z;
  params : list (string * json)
}.

Definition _hotkey (self : LedgerExporter) : string := ss58_address (wallet self).

Definition _get_epoch (db : Database) : Z :=
  match db with
  | Some row => checkpoint_epoch row
  | None => 1
  end.

(** [export_checkpoint(as_of=as_of, recompute_record=recompute_record)];
    [as_of] is the end of the window (when the caller passes none, the
    source takes it from [get_canonical_window_bounds]), [now] the clock
    reading, [roster] and [accumulators] the entries built from the rows. *)
Definition export_checkpoint (self : LedgerExporter) (db : Database)
    (as_of now : datetime.t) (recompute_record : option RecomputeRecord.t)
    (roster : list MinerRosterEntry.t) (accumulators : list AccumulatorEntry.t)
  : Database * CheckpointWindow.t :=
  let window_start := as_of in
  let epoch := _get_epoch db in
  (* Scoring config snapshot *)
  let scoring_config := ScoringConfigSnapshot.mk (params self) in
  (* Build content hashes *)
  let content_hashes : gmap string string :=
    {[ "roster" :=
         Signer.compute_section_hash
           (AList (map (fun r => IModel (dump_MinerRosterEntry r)) roster));
       "accumulators" :=
         Signer.compute_section_hash
           (AList (map (fun a => IModel (dump_AccumulatorEntry a)) accumulators));
       "scoring_config" :=
         Signer.compute_section_hash (AModel (dump_ScoringConfigSnapshot scoring_config)) ]} in
  let manifest :=
    LedgerManifest.mk LEDGER_SCHEMA_VERSION "checkpoint" window_start as_of epoch
      content_hashes (_hotkey self) "" now recompute_record in
  (* Sign *)
  let manifest :=
    LedgerManifest.set_signature (Signer.sign_manifest manifest (wallet self)) manifest in
  let checkpoint := CheckpointWindow.mk manifest roster accumulators scoring_config None in
  (* Update ledger state *)
  (_UPDATE_LEDGER_CHECKPOINT now db, checkpoint).

(** [export_delta(since, until)]; [until] is the end of the period (the clock
    reading when the caller passes none), [now] the later clock reading, and
    the two lists are the entries built from the redacted rows. *)
Definition export_delta (self : LedgerExporter) (db : Database)
    (since until now : datetime.t)
    (settled_submissions : list SettledSubmissionEntry.t)
    (settled_outcomes : list OutcomeEntry.t)
  : Database * DeltaWindow.t :=
  let epoch := _get_epoch db in
  (* Build content hashes *)
  let content_hashes : gmap string string :=
    {[ "settled_submissions" :=
         Signer.compute_section_hash
           (AList (map (fun s => IModel (dump_SettledSubmissionEntry s)) settled_submissions));
       "settled_outcomes" :=
         Signer.compute_section_hash
           (AList (map (fun o => IModel (dump_OutcomeEntry o)) settled_outcomes)) ]} in
  let delta_id := "d_" ++ datetime.strftime since ++ "_" ++ datetime.strftime until in
  let manifest :=
    LedgerManifest.mk LEDGER_SCHEMA_VERSION "delta" since until epoch
      content_hashes (_hotkey self) "" now None in
  let manifest :=
    LedgerManifest.set_signature (Signer.sign_manifest manifest (wallet self)) manifest in
  let delta := DeltaWindow.mk manifest settled_submissions settled_outcomes in
  (* Update ledger state *)
  (_UPDATE_LEDGER_DELTA now delta_id db, delta).

(** Construction of a [RecomputeRecord]: pydantic validates the fields. *)
Definition new_RecomputeRecord (epoch previous_epoch : Z) (reason_code reason_detail : string)
    (affected_event_ids : list Z) (severity : string) (timestamp : datetime.t)
    (code_version : string) : Py.result RecomputeRecord.t :=
  if (String.length reason_detail <? 1)%nat
     || negb (pattern_matches "^(correction|bugfix|recovery)$" severity)
     || (String.length code_version <? 1)%nat
  then Py.Raise Py.ValueError
  else Py.Ok (RecomputeRecord.mk epoch previous_epoch reason_code reason_detail
                affected_event_ids severity timestamp code_version).

(** [bump_epoch(reason_code, reason_detail, affected_event_ids, severity)]:
    the database afterwards and the checkpoint returned, or the exception
    raised.  [code_version] is the value of [_get_code_version()]; [now] is
    the clock reading of [bump_epoch], and [as_of] and [export_now] are
    inputs of the [export_checkpoint] it ends with.  [export] is how that
    call goes: the roster and accumulator entries it builds from the rows
    it reads, or the exception that leaves it (from the database, from the
    construction of an entry, from hashing or from signing); the epoch is
    written by then. *)
Definition bump_epoch (self : LedgerExporter) (db : Database) (now : datetime.t)
    (code_version reason_code reason_detail : string)
    (affected_event_ids : option (list Z)) (severity : string)
    (as_of export_now : datetime.t)
    (export : Py.result (list MinerRosterEntry.t * list AccumulatorEntry.t))
  : Database * Py.result CheckpointWindow.t :=
  let old_epoch := _get_epoch db in
  let new_epoch := old_epoch + 1 in
  (* Validate reason code *)
  if negb (bool_decide (reason_code ∈ RecomputeReasonCode)) then (db, Py.Raise Py.ValueError)
  else
    match new_RecomputeRecord new_epoch old_epoch reason_code reason_detail
            (default [] affected_event_ids) severity now code_version with
    | Py.Raise e => (db, Py.Raise e)
    | Py.Ok record =>
        (* Update epoch in DB *)
        let db := _UPDATE_LEDGER_EPOCH new_epoch now db in
        (* Export checkpoint with recompute record *)
        match export with
        | Py.Raise e => (db, Py.Raise e)
        | Py.Ok (roster, accumulators) =>
            let '(db, cp) :=
              export_checkpoint self db as_of export_now (Some record) roster accumulators in
            (db, Py.Ok cp)
        end
    end.

End Exporter.
End Exporter.

(** ** [auditor/plugin_registry.py]

    [AuditorContext] is the record [Runtime.AuditorContext]; the wallet, the
    subtensor, the metagraph and the configuration that the context also
    carries are the environment of the handlers. *)

Module PluginRegistry.

(** A call that returns, or raises an [Exception] [e] with [str(e) = message]. *)
Inductive outcome (A : Type) : Type :=
| Returns (a : A)
| Raises (message : string).
Arguments Returns {A} a.
Arguments Raises {A} message.

Record TaskResult : Type := mkResult {
  plugin_name : string;
  plugin_version : string;
  status : string;  (* "pass", "fail", "error", "skip" *)
  evidence : list (string * json);
  attestation : string;
  completed_at : datetime.t
}.

Definition set_attestation (r : TaskResult) (a : string) : TaskResult :=
  mkResult (plugin_name r) (plugin_version r) (status r) (evidence r) a (completed_at r).

(** A plugin: [version] is [None] when the handler has no such attribute. *)
Record TaskHandler : Type := mkHandler {
  name : string;
  version : option string;
  on_cycle : Runtime.AuditorContext -> outcome TaskResult
}.

(** [_handlers] is a [dict]: the pairs in insertion order. *)
Record t : Type := mk {
  _handlers : list (string * TaskHandler)
}.

(** [PluginRegistry()] *)
Definition empty : t := mk [].

(** [register(handler)]: the registry afterwards, and whether the call
    returned.  The log call that follows the insertion reads
    [handler.version]. *)
Definition register (self : t) (handler : TaskHandler) : t * Py.result unit :=
  if bool_decide (name handler ∈ (_handlers self).*1) then (self, Py.Raise Py.ValueError)
  else
    let self := mk (app (_handlers self) [ (name handler, handler) ]) in
    match version handler with
    | Some _ => (self, Py.Ok tt)
    | None => (self, Py.Raise Py.AttributeError)
    end.

Definition handlers (self : t) : list string := (_handlers self).*1.

(** [dispatch(context)]; [now name] is the clock reading that dates the
    result built for a plugin that raised. *)
Definition dispatch (self : t) (context : Runtime.AuditorContext)
    (now : string -> datetime.t) : list TaskResult :=
  fold_left
    (fun (results : list TaskResult) (item : string * TaskHandler) =>
       let '(name, handler) := item in
       match on_cycle handler context with
       | Returns result => app results [ result ]
       | Raises message =>
           app results
             [ mkResult name (default "unknown" (version handler)) "error"
                 [ ("error", JStr message) ] "" (now name) ]
       end)
    (_handlers self)
    [].

End PluginRegistry.

(** A registry as [register] builds it: no name twice, and every handler
    under its own name. *)
Definition well_registered (self : PluginRegistry.t) : Prop :=
  NoDup (PluginRegistry.handlers self)
  /\ Forall (fun item : string * PluginRegistry.TaskHandler =>
               item.1 = PluginRegistry.name item.2)
            (PluginRegistry._handlers self).

(** The result that [dispatch] collects for one plugin. *)
Definition collected (context : Runtime.AuditorContext) (now : string -> datetime.t)
    (name : string) (handler : PluginRegistry.TaskHandler) : PluginRegistry.TaskResult :=
  match PluginRegistry.on_cycle handler context with
  | PluginRegistry.Returns result => result
  | PluginRegistry.Raises message =>
      PluginRegistry.mkResult name (default "unknown" (PluginRegistry.version handler))
        "error" [ ("error", JStr message) ] "" (now name)
  end.

(** ** [auditor/attestation.py], [auditor/plugins/weight_verification.py] *)

(** What the weight plugin uses of numpy on [float64] vectors and of the C
    library: the order of summation of [np.dot] and [np.linalg.norm] is
    numpy's, and [pow] is C's [pow] on finite arguments. *)
Class Numpy64 : Type := {
  np_dot : list float -> list float -> float;
  np_linalg_norm : list float -> float;
  pow : float -> float -> float
}.

(** The metagraph as the comparison reads it; [W] is [None] when the
    metagraph has no such attribute. *)
Class Metagraph : Type := {
  hotkeys : list string;
  W : option (list (list float))
}.

(** The auditor's wallet ([None] when the context has none), the text of the
    exceptions that the plugin reports, and [subtensor.set_weights]. *)
Class AuditorEnv `{Bittensor} : Type := {
  context_wallet : option Wallet;
  str_of_exception : Py.exn -> string;
  row_error : Z -> string;        (* [metagraph.W[i]] with [i] out of range *)
  vec_error : Z -> nat -> string; (* [our_vec[i] = w] with [i] out of bounds *)
  set_weights : list Z -> list Z -> PluginRegistry.outcome (bool * string)
}.

Module Attestation.
Section Attestation.
Context `{Determinism} `{Bittensor} `{Isoformat}.

Definition payload (result : PluginRegistry.TaskResult) : json :=
  JObj [ ("plugin_name", JStr (PluginRegistry.plugin_name result));
         ("plugin_version", JStr (PluginRegistry.plugin_version result));
         ("status", JStr (PluginRegistry.status result));
         ("evidence_hash", JStr (compute_hash (JObj (PluginRegistry.evidence result))));
         ("completed_at", JStr (isoformat (PluginRegistry.completed_at result))) ].

Definition create_attestation (result : PluginRegistry.TaskResult) (wallet : Wallet)
  : string :=
  let payload_hash := compute_hash (payload result) in
  let signature := hotkey_sign wallet payload_hash in
  Hex.hex signature.

Definition verify_attestation (result : PluginRegistry.TaskResult) (hotkey_ss58 : string)
  : bool :=
  if String.eqb (PluginRegistry.attestation result) "" then false
  else
    let payload_hash := compute_hash (payload result) in
    match Hex.fromhex (PluginRegistry.attestation result) with
    | None => false
    | Some sig_bytes =>
        match keypair_verify hotkey_ss58 payload_hash sig_bytes with
        | Py.Ok b => b
        | Py.Raise _ => false
        end
    end.

End Attestation.
End Attestation.

Module WeightVerification.

Record WeightVerificationHandler : Type := mk {
  tolerance : float
}.

Definition name : string := "weight_verification".
Definition version : string := "1.0.0".

(** What [on_cycle] did besides returning: the call of
    [subtensor.set_weights], if it made one. *)
Record Cycle : Type := mkCycle {
  task_result : PluginRegistry.TaskResult;
  submitted : option (list Z * list Z)
}.

Section WeightVerification.
Context `{Determinism} `{Bittensor} `{Isoformat} `{Normalization} `{Numpy} `{Chain}
        `{Numpy64} `{Metagraph} `{!AuditorEnv}.

(** [x ** 2] on a [float]: the special cases that [float.__pow__] sorts out
    itself, then C's [pow]; a finite [x] whose square overflows raises
    [OverflowError]. *)
Definition square (x : float) : Py.result float :=
  if Py.is_nan x then Py.Ok x
  else if is_infinity x then Py.Ok infinity
  else if (x =? 0)%float then Py.Ok 0%float
  else
    let x := abs x in
    if (x =? 1)%float then Py.Ok 1%float
    else
      let ix := pow x 2 in
      if is_infinity ix then Py.Raise Py.OverflowError else Py.Ok ix.

(** Step 2 for one settled submission of [delta]: [None] when it is not
    checked, otherwise whether the recomputed Brier score differs. *)
Definition brier_mismatch (delta : DeltaWindow.t) (sub : SettledSubmissionEntry.t)
  : Py.result (option bool) :=
  match SettledSubmissionEntry.brier sub with
  | None => Py.Ok None
  | Some brier =>
      (* Find matching outcome *)
      let outcome :=
        List.find (fun o => OutcomeEntry.market_id o =? SettledSubmissionEntry.market_id sub)
                  (DeltaWindow.settled_outcomes delta) in
      match outcome with
      | None => Py.Ok None
      | Some outcome =>
          match OutcomeEntry.result outcome with
          | None => Py.Ok None
          | Some result =>
              (* Independent Brier recomputation *)
              let actual :=
                if String.eqb (SettledSubmissionEntry.side sub) result
                then 1%float else 0%float in
              expected_brier ← square (SettledSubmissionEntry.imp_prob sub - actual)%float;
              Py.Ok (Some (1e-6 <? abs (expected_brier - brier))%float)
          end
      end
  end.

(** The body of the inner loop of step 2 on the two counters. *)
Definition brier_step (delta : DeltaWindow.t) (counts : Py.result (Z * Z))
    (sub : SettledSubmissionEntry.t) : Py.result (Z * Z) :=
  counts ← counts;
  let '(brier_checks, brier_mismatches) := counts in
  checked ← brier_mismatch delta sub;
  match checked : option bool with
  | None => Py.Ok counts
  | Some mismatch =>
      Py.Ok (brier_checks + 1,
             if mismatch then brier_mismatches + 1 else brier_mismatches)
  end.

(** The two counters after the loops of step 2, or the exception that ends
    them. *)
Definition brier_counts (deltas : list DeltaWindow.t) : Py.result (Z * Z) :=
  fold_left
    (fun (counts : Py.result (Z * Z)) (delta : DeltaWindow.t) =>
       fold_left (brier_step delta) (DeltaWindow.settled_submissions delta) counts)
    deltas (Py.Ok (0, 0)).

(** [list(metagraph.hotkeys).index(hotkey)], for a hotkey that is in the list. *)
Fixpoint index_of (hotkey : string) (l : list string) : Z :=
  match l with
  | [] => 0
  | h :: rest => if String.eqb h hotkey then 0 else 1 + index_of hotkey rest
  end.

(** Step 3: the chain parameters in use. *)
Definition chain_params_of (cp : CheckpointWindow.t) : Py.result ChainParamsSnapshot.t :=
  match CheckpointWindow.chain_params cp with
  | Some chain_params => Py.Ok chain_params
  | None =>
      let params := ScoringConfigSnapshot.params (CheckpointWindow.scoring_config cp) in
      burn_rate ← ComputeWeights.get_float
                     (ComputeWeights.get_section params "weight_emission") "burn_rate" 0.9;
      Py.Ok (ChainParamsSnapshot.mk burn_rate owner_uid
               (subtensor_max_weight_limit / 65535)%float
               subtensor_min_allowed_weights metagraph_n)
  end.

(** The loop that fills [our_vec]; an index below [-len(our_vec)] raises. *)
Definition fill (our_vec : list float) (pairs : list (Z * Z))
  : PluginRegistry.outcome (list float) :=
  fold_left
    (fun (our_vec : PluginRegistry.outcome (list float)) (pair : Z * Z) =>
       match our_vec with
       | PluginRegistry.Raises message => PluginRegistry.Raises message
       | PluginRegistry.Returns our_vec =>
           let '(uid, w) := pair in
           if uid <? Z.of_nat (length our_vec) then
             if 0 <=? uid then
               PluginRegistry.Returns (<[Z.to_nat uid := PyNum.float_of_int w]> our_vec)
             else if 0 <=? uid + Z.of_nat (length our_vec) then
               PluginRegistry.Returns
                 (<[Z.to_nat (uid + Z.of_nat (length our_vec)) := PyNum.float_of_int w]>
                    our_vec)
             else PluginRegistry.Raises (vec_error uid (length our_vec))
           else PluginRegistry.Returns our_vec
       end)
    pairs (PluginRegistry.Returns our_vec).

(** The outcome of step 5. *)
Record Comparison : Type := mkComparison {
  matches : bool;
  cosine_sim : float;
  primary_uid : option Z;
  comparison_error : option string
}.

Definition compare (self : WeightVerificationHandler) (cp : CheckpointWindow.t)
    (chain_params : ChainParamsSnapshot.t) (weight_result : ComputeWeights.WeightResult)
  : Comparison :=
  let primary_hotkey := LedgerManifest.primary_hotkey (CheckpointWindow.manifest cp) in
  if bool_decide (primary_hotkey ∈ hotkeys) then
    let primary_uid := index_of primary_hotkey hotkeys in
    match W with
    | None => mkComparison true 1 None None
    | Some rows =>
        match rows !! Z.to_nat primary_uid with
        | None => mkComparison true 1 None (Some (row_error primary_uid))
        | Some on_chain =>
            (* Cosine similarity comparison *)
            if ChainParamsSnapshot.n_neurons chain_params <? 0 then
              mkComparison true 1 (Some primary_uid)
                (Some (str_of_exception Py.ValueError))
            else
              let our_vec :=
                replicate (Z.to_nat (ChainParamsSnapshot.n_neurons chain_params)) 0%float in
              match fill our_vec (combine (ComputeWeights.uids weight_result)
                                          (ComputeWeights.uint16_weights weight_result)) with
              | PluginRegistry.Raises message =>
                  mkComparison true 1 (Some primary_uid) (Some message)
              | PluginRegistry.Returns our_vec =>
                  let chain_vec := on_chain in
                  if Nat.eqb (length chain_vec) (length our_vec) then
                    let dot := np_dot our_vec chain_vec in
                    let norm_a := np_linalg_norm our_vec in
                    let norm_b := np_linalg_norm chain_vec in
                    let cosine_sim :=
                      if (0 <? norm_a)%float && (0 <? norm_b)%float
                      then (dot / (norm_a * norm_b))%float else 1%float in
                    mkComparison (1 - tolerance self <=? cosine_sim)%float cosine_sim
                      (Some primary_uid) None
                  else mkComparison true 1 (Some primary_uid) None
              end
        end
    end
  else mkComparison true 1 None None.

Definition optional_entry (key : string) (v : option json) : list (string * json) :=
  match v with Some v => [ (key, v) ] | None => [] end.

(** [on_cycle(context)]; [now] is the clock reading that dates the result.
    An exception of steps 2, 3 and 4 leaves [on_cycle]. *)
Definition on_cycle (self : WeightVerificationHandler) (context : Runtime.AuditorContext)
    (now : datetime.t) : PluginRegistry.outcome Cycle :=
  let skip (reason : string) :=
    PluginRegistry.Returns
      (mkCycle (PluginRegistry.mkResult name version "skip" [ ("reason", JStr reason) ]
                  "" now) None) in
  match Runtime.checkpoint context with
  | None => skip "no_checkpoint"
  | Some cp =>
      (* Step 1: Extract MinerMetrics from checkpoint *)
      let metrics :=
        (map MinerMetrics.from_accumulator (CheckpointWindow.accumulators cp)).*2 in
      match metrics with
      | [] => skip "no_miners"
      | _ :: _ =>
          (* Steps 2, 3 and 4 *)
          match counts ← brier_counts (Runtime.deltas context);
                chain_params ← chain_params_of cp;
                weight_result ← ComputeWeights.compute_weights metrics
                                  (CheckpointWindow.scoring_config cp) chain_params;
                Py.Ok (counts, chain_params, weight_result) with
          | Py.Raise e => PluginRegistry.Raises (str_of_exception e)
          | Py.Ok (brier_checks, brier_mismatches, chain_params, weight_result) =>
              let evidence :=
                [ ("brier_checks", JInt brier_checks);
                  ("brier_mismatches", JInt brier_mismatches) ] in
              let evidence :=
                app evidence
                  [ ("computed_uids",
                     JArr (map JInt (take 10 (ComputeWeights.uids weight_result))));
                    ("computed_weights_sample",
                     JArr (map JInt (take 10 (ComputeWeights.uint16_weights weight_result))));
                    ("n_miners_scored", JInt (Z.of_nat (length metrics))) ] in
              (* Step 5: Compare to on-chain primary weights *)
              let comparison := compare self cp chain_params weight_result in
              let evidence :=
                app evidence
                  (app (optional_entry "primary_uid" (JInt <$> primary_uid comparison))
                  (app (optional_entry "comparison_error"
                          (JStr <$> comparison_error comparison))
                       [ ("cosine_similarity", JFloat (cosine_sim comparison));
                         ("match", JBool (matches comparison)) ])) in
              (* Step 6: Set weights on chain *)
              let '(evidence, submitted) :=
                if matches comparison
                   && negb (Nat.eqb (length (ComputeWeights.uids weight_result)) 0)
                then
                  let uids := ComputeWeights.uids weight_result in
                  let weights := ComputeWeights.uint16_weights weight_result in
                  match set_weights uids weights with
                  | PluginRegistry.Returns (result_ok, msg) =>
                      (app evidence
                         [ ("set_weights",
                            JStr (if result_ok then "success" else "failed: " ++ msg)) ],
                       Some (uids, weights))
                  | PluginRegistry.Raises message =>
                      (app evidence [ ("set_weights_error", JStr message) ],
                       Some (uids, weights))
                  end
                else (evidence, None) in
              let status := if matches comparison then "pass" else "fail" in
              let task_result :=
                PluginRegistry.mkResult name version status evidence "" now in
              (* Sign attestation *)
              let task_result :=
                match context_wallet with
                | Some wallet =>
                    PluginRegistry.set_attestation task_result
                      (Attestation.create_attestation task_result wallet)
                | None => task_result
                end in
              PluginRegistry.Returns (mkCycle task_result submitted)
          end
      end
  end.

(** The module-level [HANDLER], as the registry sees it. *)
Definition HANDLER (now : datetime.t) : PluginRegistry.TaskHandler :=
  PluginRegistry.mkHandler name (Some version)
    (fun context =>
       match on_cycle (mk 0.001) context now with
       | PluginRegistry.Returns cycle => PluginRegistry.Returns (task_result cycle)
       | PluginRegistry.Raises message => PluginRegistry.Raises message
       end).

End WeightVerification.
End WeightVerification.

(** The settled submissions of [deltas] that carry a Brier score. *)
Definition brier_scored (deltas : list DeltaWindow.t) : list SettledSubmissionEntry.t :=
  List.filter (fun sub => bool_decide (is_Some (SettledSubmissionEntry.brier sub)))
              (concat (map DeltaWindow.settled_submissions deltas)).

(** ** Further sample data *)

Module Samples.
Import Fixture.

(** The severities that the pattern of [RecomputeRecord] admits. *)
#[export] Instance exact_patterns : Patterns := {|
  pattern_matches := fun _ value =>
    bool_decide (value ∈ [ "correction"; "bugfix"; "recovery" ])
|}.

(** Three miners, passed out of order. *)
Definition three_miners : list MinerMetrics.t :=
  [ miner 3 0.9; miner 1 0.3; miner 2 0.5 ].

Definition three_scores : ComputeWeights.Scores :=
  Eval vm_compute in
    match ComputeWeights.score_miners default_cfg (ComputeWeights.sorted_by_uid three_miners)
    with
    | Py.Ok sc => sc
    | Py.Raise _ => ComputeWeights.mkScores [] [] [] [] []
    end.

(** A store that holds two checkpoints of epoch 9, a day apart. *)
Definition store_two_days : FilesystemStore.t :=
  FilesystemStore.mk
    {[ FilesystemStore.checkpoint_id (checkpoint 9 (clock 1 12 0))
         := checkpoint 9 (clock 1 12 0);
       FilesystemStore.checkpoint_id (checkpoint 9 (clock 2 12 0))
         := checkpoint 9 (clock 2 12 0) ]}
    ∅ 7.

(** An exporter that signs with the primary's wallet. *)
Definition exporter : Exporter.LedgerExporter := Exporter.mk "primary_hk" 57 [].

(** Sequential dot product and Euclidean norm; squares by multiplication. *)
#[export] Instance sequential_numpy64 : Numpy64 := {|
  np_dot := fun a b => fold_left PrimFloat.add (zip_with PrimFloat.mul a b) 0%float;
  np_linalg_norm := fun a =>
    PrimFloat.sqrt (fold_left PrimFloat.add (map (fun x => (x * x)%float) a) 0%float);
  pow := fun x _ => (x * x)%float
|}.

(** A metagraph of ten neurons in which the primary, at uid 1, has set the
    weights that the sample checkpoint leads to. *)
Definition agreeing_metagraph : Metagraph := {|
  hotkeys := [ "owner_hk"; "primary_hk" ];
  W := Some [ []; [ 65535; 26032; 39504; 0; 0; 0; 0; 0; 0; 0 ]%float ]
|}.

(** The same metagraph with all of the primary's weight on uid 5. *)
Definition diverging_metagraph : Metagraph := {|
  hotkeys := [ "owner_hk"; "primary_hk" ];
  W := Some [ []; [ 0; 0; 0; 0; 0; 65535; 0; 0; 0; 0 ]%float ]
|}.

(** An auditor with a wallet, on a chain that accepts the weights. *)
#[export] Instance auditor_env : AuditorEnv := {|
  context_wallet := Some "auditor_hk";
  str_of_exception := fun _ => "error";
  row_error := fun _ => "index out of range";
  vec_error := fun _ _ => "index out of bounds";
  set_weights := fun _ _ => PluginRegistry.Returns (true, "")
|}.

(** An auditor at epoch 1 that has processed no delta yet, and a store that
    serves a checkpoint of epoch 1 together with the deltas of
    [store_one_delta]. *)
Definition fresh_auditor : Sync.LedgerSync := Sync.mk 1 3 1 "" "" ∅ [] None [] None.

Definition serving_one_delta : LedgerStore :=
  mkStore (Some (checkpoint 1 (clock 1 12 0)))
          (FilesystemStore.list_deltas store_one_delta)
          (FilesystemStore.get_delta store_one_delta).

(** The context of a cycle on the signed sample checkpoint of epoch 2. *)
Definition context : Runtime.AuditorContext :=
  Runtime.mkContext (Some (signed_checkpoint 2)) [] ∅.

Definition handler : WeightVerification.WeightVerificationHandler :=
  WeightVerification.mk 0.001.

End Samples.

(** * Properties *)

(** ** Accumulators and derived means *)

Lemma guarded_mean_of (acc : MetricAccumulator.t) (fallback : float) :
  mean_of acc fallback
    (if Py.truthy (MetricAccumulator.wt acc)
     then (MetricAccumulator.ws acc / MetricAccumulator.wt acc)%float
     else fallback).
Proof.
  unfold mean_of, Py.truthy.
  destruct (PrimFloat.eqb (MetricAccumulator.wt acc) 0) eqn:Hwt; simpl;
    split; intros Hz; first [ reflexivity | discriminate Hz ].
Qed.

(** C2.  After [derive_means], every derived mean is [ws / wt] of its
    accumulator pair when [wt] is not zero and the documented fallback when
    [wt] is zero: 0.0 for brier, fq, pss and es; 0.5 for mes, sos and lead. *)
Theorem derive_means_correct (a : AccumulatorEntry.t) :
  let a' := AccumulatorEntry.derive_means a in
  mean_of (AccumulatorEntry.brier a) 0 (AccumulatorEntry.brier_mean a')
  /\ mean_of (AccumulatorEntry.fq a) 0 (AccumulatorEntry.fq_raw a')
  /\ mean_of (AccumulatorEntry.pss a) 0 (AccumulatorEntry.pss_mean a')
  /\ mean_of (AccumulatorEntry.es a) 0 (AccumulatorEntry.es_adj a')
  /\ mean_of (AccumulatorEntry.mes a) 0.5 (AccumulatorEntry.mes_mean a')
  /\ mean_of (AccumulatorEntry.sos a) 0.5 (AccumulatorEntry.sos_score a')
  /\ mean_of (AccumulatorEntry.lead a) 0.5 (AccumulatorEntry.lead_score a').
Proof.
  cbn zeta. unfold AccumulatorEntry.derive_means. cbn [AccumulatorEntry.brier_mean
    AccumulatorEntry.fq_raw AccumulatorEntry.pss_mean AccumulatorEntry.es_adj
    AccumulatorEntry.mes_mean AccumulatorEntry.sos_score AccumulatorEntry.lead_score].
  repeat split; apply guarded_mean_of.
Qed.

(** [derive_means] leaves every other attribute as it was. *)
Lemma derive_means_frame (a : AccumulatorEntry.t) :
  let a' := AccumulatorEntry.derive_means a in
  AccumulatorEntry.miner_id a' = AccumulatorEntry.miner_id a
  /\ AccumulatorEntry.hotkey a' = AccumulatorEntry.hotkey a
  /\ AccumulatorEntry.uid a' = AccumulatorEntry.uid a
  /\ AccumulatorEntry.brier a' = AccumulatorEntry.brier a
  /\ AccumulatorEntry.fq a' = AccumulatorEntry.fq a
  /\ AccumulatorEntry.pss a' = AccumulatorEntry.pss a
  /\ AccumulatorEntry.es a' = AccumulatorEntry.es a
  /\ AccumulatorEntry.mes a' = AccumulatorEntry.mes a
  /\ AccumulatorEntry.sos a' = AccumulatorEntry.sos a
  /\ AccumulatorEntry.lead a' = AccumulatorEntry.lead a
  /\ AccumulatorEntry.cal_score a' = AccumulatorEntry.cal_score a
  /\ AccumulatorEntry.sharp_score a' = AccumulatorEntry.sharp_score a.
Proof. cbn. repeat split. Qed.

(** The published derived means play no part in [derive_means]. *)
Lemma derive_means_forgets_published (a : AccumulatorEntry.t) (b f p e m s l : float) :
  AccumulatorEntry.derive_means (AccumulatorEntry.with_published_means a b f p e m s l)
  = AccumulatorEntry.derive_means a.
Proof. reflexivity. Qed.

(** An entry published with [brier_mean = 0.9] over the pair [(10, 50)]: after
    [from_accumulator] the caller's entry reads [10 / 50]. *)
Example from_accumulator_overwrites_published :
  let acc := AccumulatorEntry.mk 1 "a" 1 0 0
               (MetricAccumulator.mk 10 50) (MetricAccumulator.mk 0 0)
               (MetricAccumulator.mk 0 0) (MetricAccumulator.mk 0 0)
               (MetricAccumulator.mk 0 0) (MetricAccumulator.mk 0 0)
               (MetricAccumulator.mk 0 0)
               0.9 0 0 0 0 0.5 0.5 0.25 0.75 in
  let '(acc', m) := MinerMetrics.from_accumulator acc in
  AccumulatorEntry.brier_mean acc' = (10 / 50)%float
  /\ MinerMetrics.brier_mean m = (10 / 50)%float
  /\ AccumulatorEntry.mes_mean acc' = 0.5%float
  /\ MinerMetrics.cal_score m = 0.25%float
  /\ MinerMetrics.sharp_score m = 0.75%float.
Proof. vm_compute. repeat split. Qed.

(** C10.  [MinerMetrics.from_accumulator] mutates its argument: the entry
    the caller holds afterwards is [derive_means] of the entry passed, whose
    seven derived means are recomputed from the (ws, wt) pairs whatever was
    published, while [cal_score] and [sharp_score] stay as published; the
    returned metrics read the recomputed entry; and [get_miner_metrics] does
    this to every accumulator of the checkpoint held by the sync object. *)
Theorem from_accumulator_mutates_argument (acc : AccumulatorEntry.t) :
  let res := MinerMetrics.from_accumulator acc in
  let acc' := res.1 in
  let m := res.2 in
  acc' = AccumulatorEntry.derive_means acc
  /\ (mean_of (AccumulatorEntry.brier acc) 0 (AccumulatorEntry.brier_mean acc')
      /\ mean_of (AccumulatorEntry.fq acc) 0 (AccumulatorEntry.fq_raw acc')
      /\ mean_of (AccumulatorEntry.pss acc) 0 (AccumulatorEntry.pss_mean acc')
      /\ mean_of (AccumulatorEntry.es acc) 0 (AccumulatorEntry.es_adj acc')
      /\ mean_of (AccumulatorEntry.mes acc) 0.5 (AccumulatorEntry.mes_mean acc')
      /\ mean_of (AccumulatorEntry.sos acc) 0.5 (AccumulatorEntry.sos_score acc')
      /\ mean_of (AccumulatorEntry.lead acc) 0.5 (AccumulatorEntry.lead_score acc'))
  /\ (AccumulatorEntry.cal_score acc' = AccumulatorEntry.cal_score acc
      /\ AccumulatorEntry.sharp_score acc' = AccumulatorEntry.sharp_score acc)
  /\ (MinerMetrics.uid m = AccumulatorEntry.uid acc
      /\ MinerMetrics.hotkey m = AccumulatorEntry.hotkey acc
      /\ MinerMetrics.brier_mean m = AccumulatorEntry.brier_mean acc'
      /\ MinerMetrics.fq_raw m = AccumulatorEntry.fq_raw acc'
      /\ MinerMetrics.pss_mean m = AccumulatorEntry.pss_mean acc'
      /\ MinerMetrics.es_adj m = AccumulatorEntry.es_adj acc'
      /\ MinerMetrics.mes_mean m = AccumulatorEntry.mes_mean acc'
      /\ MinerMetrics.sos_score m = AccumulatorEntry.sos_score acc'
      /\ MinerMetrics.lead_score m = AccumulatorEntry.lead_score acc'
      /\ MinerMetrics.cal_score m = AccumulatorEntry.cal_score acc
      /\ MinerMetrics.sharp_score m = AccumulatorEntry.sharp_score acc)
  /\ (forall b f p e m' s l : float,
        MinerMetrics.from_accumulator
          (AccumulatorEntry.with_published_means acc b f p e m' s l)
        = MinerMetrics.from_accumulator acc)
  /\ (forall (self : Sync.LedgerSync) (cp : CheckpointWindow.t),
        Sync.latest_checkpoint self = Some cp ->
        (Sync.get_miner_metrics self).2
        = map (fun a => (MinerMetrics.from_accumulator a).2)
              (CheckpointWindow.accumulators cp)
        /\ (CheckpointWindow.accumulators
              <$> Sync.latest_checkpoint (Sync.get_miner_metrics self).1)
           = Some (map AccumulatorEntry.derive_means (CheckpointWindow.accumulators cp))).
Proof.
  cbn zeta.
  split; [reflexivity|].
  split; [repeat split; apply guarded_mean_of|].
  split; [split; reflexivity|].
  split; [repeat split|].
  split; [intros; reflexivity|].
  intros self cp Hcp. unfold Sync.get_miner_metrics. rewrite Hcp. cbn.
  split.
  - induction (CheckpointWindow.accumulators cp) as [|a l IH]; [reflexivity|].
    cbn. f_equal. exact IH.
  - f_equal.
    induction (CheckpointWindow.accumulators cp) as [|a l IH]; [reflexivity|].
    cbn. f_equal. exact IH.
Qed.

(** ** Redaction *)

Lemma tier3_disjoint_from_tier2 :
  Redaction.TIER3_FIELD_PATTERNS ∩ ⋃ Redaction.tier2_allowlists = ∅.
Proof. apply (bool_decide_unpack _). vm_compute. exact I. Qed.

Lemma redact_dom {V : Type} (row : gmap string (option V)) (allowlist : gset string) :
  dom (Redaction.redact row allowlist) ⊆ allowlist.
Proof.
  intros k Hk. apply elem_of_dom in Hk as [v Hv].
  unfold Redaction.redact in Hv. apply map_lookup_filter_Some in Hv as [_ [Hin _]].
  exact Hin.
Qed.

(** C7.  The Tier-3 deny-list meets none of the Tier-2 allow-lists, and so
    [contains_tier3] is false for every row that [redact] produces under any
    of them. *)
Theorem tier3_never_exported :
  Redaction.TIER3_FIELD_PATTERNS
    ∩ (Redaction.SAFE_ACCUMULATOR_FIELDS ∪ Redaction.SAFE_ROLLING_SCORE_FIELDS
       ∪ Redaction.SAFE_OUTCOME_FIELDS ∪ Redaction.SAFE_MINER_FIELDS
       ∪ Redaction.SAFE_SETTLED_SUBMISSION_FIELDS) = ∅
  /\ forall (V : Type) (row : gmap string (option V)) (allowlist : gset string),
       allowlist ∈ Redaction.tier2_allowlists ->
       Redaction.contains_tier3 (Redaction.redact row allowlist) = false.
Proof.
  split.
  - apply (bool_decide_unpack _). vm_compute. exact I.
  - intros V row allowlist Hin.
    unfold Redaction.contains_tier3. apply bool_decide_eq_false. intros Hne. apply Hne.
    pose proof (redact_dom row allowlist) as Hdom.
    pose proof tier3_disjoint_from_tier2 as Hdisj.
    assert (Hsub : allowlist ⊆ ⋃ Redaction.tier2_allowlists).
    { intros k Hk. apply elem_of_union_list. exists allowlist. split; assumption. }
    apply leibniz_equiv, elem_of_equiv_empty. intros k Hk.
    apply elem_of_intersection in Hk as [Hk1 Hk2].
    assert (Hk : k ∈ Redaction.TIER3_FIELD_PATTERNS ∩ ⋃ Redaction.tier2_allowlists).
    { apply elem_of_intersection. split; [exact Hk2|]. apply Hsub, Hdom, Hk1. }
    rewrite Hdisj in Hk. exact (not_elem_of_empty k Hk).
Qed.

(** ** Manifest verification *)

Section VerifierFacts.
Context `{Pydantic} `{Determinism} `{Bittensor}.

Lemma verify_manifest_true (m : LedgerManifest.t) (hotkey : string) :
  Signer.verify_manifest m hotkey = true <-> signature_verifies m hotkey.
Proof.
  unfold Signer.verify_manifest, signature_verifies, Signer._manifest_signing_payload.
  destruct (String.eqb_spec (LedgerManifest.signature m) "") as [Heq|Hne].
  - split; [discriminate|]. intros [Hne _]. contradiction.
  - destruct (Hex.fromhex (LedgerManifest.signature m)) as [sig_bytes|].
    + destruct (keypair_verify hotkey _ sig_bytes) as [b|e] eqn:Hv.
      * split.
        -- intros ->. split; [exact Hne|]. exists sig_bytes. split; [reflexivity|exact Hv].
        -- intros [_ [sb [Hsb Hok]]]. injection Hsb as <-. congruence.
      * split; [discriminate|].
        intros [_ [sb [Hsb Hok]]]. injection Hsb as <-. congruence.
    + split; [discriminate|]. intros [_ [sb [Hsb _]]]. discriminate.
Qed.

Lemma section_errors_nil (m : LedgerManifest.t) (name : string) (data : pyany) :
  Verifier.section_errors m (name, data) = []
  <-> LedgerManifest.content_hashes m !! name = Some (Signer.compute_section_hash data).
Proof.
  unfold Verifier.section_errors.
  destruct (LedgerManifest.content_hashes m !! name) as [expected|]; [|split; discriminate].
  destruct (String.eqb_spec (Signer.compute_section_hash data) expected) as [Heq|Hne]; simpl.
  - split; [intros _; congruence | reflexivity].
  - split; [discriminate | intros [= Heq]; congruence].
Qed.

Lemma fold_section_errors (m : LedgerManifest.t) (sections : list (string * pyany))
    (errors : list string) :
  fold_left (fun errors section => app errors (Verifier.section_errors m section))
            sections errors
  = app errors (concat (map (Verifier.section_errors m) sections)).
Proof.
  revert errors. induction sections as [|sec rest IH]; intros errors; simpl.
  - symmetry. apply app_nil_r.
  - rewrite IH. symmetry. apply app_assoc.
Qed.

Lemma concat_section_errors_nil (m : LedgerManifest.t) (sections : list (string * pyany)) :
  concat (map (Verifier.section_errors m) sections) = []
  <-> forall name data, (name, data) ∈ sections ->
        LedgerManifest.content_hashes m !! name = Some (Signer.compute_section_hash data).
Proof.
  induction sections as [|[name0 data0] rest IH]; cbn [map concat].
  - split; [|reflexivity]. intros _ name data Hin. inversion Hin.
  - split.
    + intros Hnil. apply app_eq_nil in Hnil as [Hhead Hrest].
      intros name data Hin. apply elem_of_cons in Hin as [[= -> ->]|Hin].
      * apply section_errors_nil, Hhead.
      * apply IH; assumption.
    + intros Hall.
      rewrite (proj2 (section_errors_nil m name0 data0) (Hall _ _ (list_elem_of_here _ _))).
      apply IH. intros name data Hin. apply Hall. right. exact Hin.
Qed.

Lemma verify_valid_iff (self : Verifier.ManifestVerifier) (window : Verifier.Window)
    (sections : list (string * pyany)) :
  Verifier.valid (Verifier._verify self window sections) = true
  <-> manifest_checks (Verifier.primary_hotkey self) (Verifier.window_manifest window)
        (match window with
         | Verifier.WCheckpoint _ => "checkpoint"
         | Verifier.WDelta _ => "delta"
         end) sections.
Proof.
  unfold Verifier._verify, manifest_checks. cbn [Verifier.valid].
  set (m := Verifier.window_manifest window).
  set (kind := match window with
               | Verifier.WCheckpoint _ => "checkpoint"
               | Verifier.WDelta _ => "delta"
               end).
  rewrite fold_section_errors.
  rewrite <- verify_manifest_true, <- concat_section_errors_nil.
  destruct (Z.eqb_spec (LedgerManifest.schema_version m) LEDGER_SCHEMA_VERSION) as [Hs|Hs];
    destruct (String.eqb_spec (LedgerManifest.primary_hotkey m) (Verifier.primary_hotkey self))
      as [Hh|Hh];
    destruct (Signer.verify_manifest m (Verifier.primary_hotkey self)) eqn:Hv;
    destruct (String.eqb_spec (LedgerManifest.window_type m) kind) as [Hw|Hw];
    destruct (concat (map (Verifier.section_errors m) sections)) as [|e es] eqn:Hc;
    cbn; rewrite ?length_app; cbn;
    (split; [ intros Hlen; first [ discriminate Hlen | (repeat split; congruence) ]
            | intros (? & ? & ? & ? & ?); first [ reflexivity | congruence ] ]).
Qed.

Lemma verify_invalid_errors (self : Verifier.ManifestVerifier) (window : Verifier.Window)
    (sections : list (string * pyany)) :
  Verifier.valid (Verifier._verify self window sections) = false ->
  Verifier.errors (Verifier._verify self window sections) <> [].
Proof.
  unfold Verifier._verify. cbn [Verifier.valid Verifier.errors].
  intros Hlen Hnil. rewrite Hnil in Hlen. discriminate Hlen.
Qed.

(** C3.  The verifier answers [valid = true] exactly when the schema
    version is the supported one, the primary hotkey is the expected one,
    the signature verifies over the manifest without its signature, every
    expected section (roster, accumulators, scoring_config for a checkpoint;
    settled_submissions, settled_outcomes for a delta) has a recorded hash
    equal to the recomputed one, and the window type matches the kind of
    window; a failed check gives [valid = false] with a non-empty list of
    errors, as a value. *)
Theorem manifest_verifier_valid_iff_all_checks (self : Verifier.ManifestVerifier) :
  (forall cp : CheckpointWindow.t,
     (Verifier.valid (Verifier.verify_checkpoint self cp) = true
      <-> manifest_checks (Verifier.primary_hotkey self) (CheckpointWindow.manifest cp)
            "checkpoint"
            [ ("roster",
               AList (map (fun r => IModel (dump_MinerRosterEntry r))
                          (CheckpointWindow.roster cp)));
              ("accumulators",
               AList (map (fun a => IModel (dump_AccumulatorEntry a))
                          (CheckpointWindow.accumulators cp)));
              ("scoring_config",
               AModel (dump_ScoringConfigSnapshot (CheckpointWindow.scoring_config cp))) ])
     /\ (Verifier.valid (Verifier.verify_checkpoint self cp) = false ->
         Verifier.errors (Verifier.verify_checkpoint self cp) <> []))
  /\ (forall delta : DeltaWindow.t,
        (Verifier.valid (Verifier.verify_delta self delta) = true
         <-> manifest_checks (Verifier.primary_hotkey self) (DeltaWindow.manifest delta)
               "delta"
               [ ("settled_submissions",
                  AList (map (fun s => IModel (dump_SettledSubmissionEntry s))
                             (DeltaWindow.settled_submissions delta)));
                 ("settled_outcomes",
                  AList (map (fun o => IModel (dump_OutcomeEntry o))
                             (DeltaWindow.settled_outcomes delta))) ])
        /\ (Verifier.valid (Verifier.verify_delta self delta) = false ->
            Verifier.errors (Verifier.verify_delta self delta) <> [])).
Proof.
  split.
  - intros cp. split.
    + exact (verify_valid_iff self (Verifier.WCheckpoint cp) (Verifier.checkpoint_sections cp)).
    + apply verify_invalid_errors.
  - intros delta. split.
    + exact (verify_valid_iff self (Verifier.WDelta delta) (Verifier.delta_sections delta)).
    + apply verify_invalid_errors.
Qed.

End VerifierFacts.

(** ** Hexadecimal round trip *)

Lemma hex_digit_value (n : N) :
  (n < 16)%N ->
  Hex.digit_value (Hex.hex_digit n) = Some n /\ Hex.is_space (Hex.hex_digit n) = false.
Proof.
  intros Hn.
  assert (Hcases : n ∈ (N.of_nat <$> seq 0 16)).
  { apply list_elem_of_fmap. exists (N.to_nat n). split; [lia|].
    apply list_elem_of_In, in_seq. lia. }
  cbn in Hcases.
  repeat (apply elem_of_cons in Hcases as [->|Hcases]; [vm_compute; split; reflexivity|]).
  inversion Hcases.
Qed.

Lemma fromhex_hex (b : bytes) : Hex.fromhex (Hex.hex b) = Some b.
Proof.
  unfold Hex.fromhex. induction b as [|c rest IH]; [reflexivity|].
  cbn [Hex.hex Hex.fromhex_from].
  pose proof (N_ascii_bounded c) as Hc.
  set (n := N_of_ascii c) in *.
  assert (Hhi : (n / 16 < 16)%N) by (apply N.Div0.div_lt_upper_bound; lia).
  assert (Hlo : (n mod 16 < 16)%N) by (apply N.mod_lt; lia).
  destruct (hex_digit_value _ Hhi) as [Hvhi Hshi].
  destruct (hex_digit_value _ Hlo) as [Hvlo _].
  rewrite Hshi, Hvhi, Hvlo, IH.
  rewrite <- (N.div_mod n 16) by lia.
  unfold n. rewrite ascii_N_embedding. reflexivity.
Qed.

Lemma hex_empty (b : bytes) : Hex.hex b = "" -> b = "".
Proof. destruct b; [reflexivity|discriminate]. Qed.

(** ** Manifest signatures *)

Section SignerFacts.
Context `{Pydantic} `{Determinism} `{Bittensor}.

(** The signature is not part of what is signed. *)
Lemma signing_payload_ignores_signature (sig : string) (m : LedgerManifest.t) :
  Signer._manifest_signing_payload (LedgerManifest.set_signature sig m)
  = Signer._manifest_signing_payload m.
Proof. reflexivity. Qed.

Lemma map_JInt_inj (l1 l2 : list Z) : map JInt l1 = map JInt l2 -> l1 = l2.
Proof.
  revert l2. induction l1 as [|a l1 IH]; intros [|b l2]; cbn; try discriminate.
  - reflexivity.
  - intros [= -> Hrest]. f_equal. apply IH, Hrest.
Qed.

#[local] Instance JStr_inj : Inj (=) (=) JStr.
Proof. intros a b [= ->]. reflexivity. Qed.

Lemma dump_RecomputeRecord_inj (r1 r2 : RecomputeRecord.t) :
  (dump_datetime (RecomputeRecord.timestamp r1)
   = dump_datetime (RecomputeRecord.timestamp r2) ->
   RecomputeRecord.timestamp r1 = RecomputeRecord.timestamp r2) ->
  dump_RecomputeRecord r1 = dump_RecomputeRecord r2 -> r1 = r2.
Proof.
  destruct r1, r2. unfold dump_RecomputeRecord. cbn.
  intros Hdt Heq. injection Heq as -> -> -> -> Hids -> Hts ->.
  apply map_JInt_inj in Hids as ->.
  rewrite (Hdt Hts). reflexivity.
Qed.

(** Everything but the signature can be read back from the signed fields. *)
Lemma signing_fields_inj (m1 m2 : LedgerManifest.t) :
  dump_separates m1 m2 ->
  dict_pop "signature" (dump_LedgerManifest_fields m1)
  = dict_pop "signature" (dump_LedgerManifest_fields m2) ->
  LedgerManifest.set_signature "" m1 = LedgerManifest.set_signature "" m2.
Proof.
  intros Hsep. unfold dump_separates, manifest_datetimes in Hsep.
  destruct m1 as [v1 t1 s1 e1 ep1 h1 hk1 sg1 c1 r1], m2 as [v2 t2 s2 e2 ep2 h2 hk2 sg2 c2 r2].
  cbn in *. intros Heq.
  injection Heq as -> -> Hs He -> Hh -> Hc Hr.
  assert (s1 = s2) as -> by (apply Hsep; [set_solver..|exact Hs]).
  assert (e1 = e2) as -> by (apply Hsep; [set_solver..|exact He]).
  assert (c1 = c2) as -> by (apply Hsep; [set_solver..|exact Hc]).
  assert (h1 = h2) as ->.
  { apply (inj (fmap JStr)). apply map_to_list_inj. rewrite Hh. reflexivity. }
  assert (r1 = r2) as ->; [|reflexivity].
  destruct r1 as [r1|], r2 as [r2|]; cbn in Hr; try reflexivity;
    try (destruct r1; discriminate Hr); try (destruct r2; discriminate Hr).
  f_equal. apply dump_RecomputeRecord_inj; [|exact Hr].
  apply Hsep; set_solver.
Qed.

(** C4.  Signing a manifest and verifying it against the signer's hotkey
    succeeds; and a manifest that carries the original signature but differs
    from the signed manifest in any other field fails verification.  The
    keypair and the hash are collaborators: the statement assumes that the
    keypair accepts the signature it made (which is not empty), accepts it
    for no other message, that the hash of the changed manifest does not
    collide with the hash that was signed, and that pydantic's dump tells
    the datetimes of the two manifests apart. *)
Theorem sign_then_verify_and_tamper (wallet : Wallet) (m m' : LedgerManifest.t) :
  let payload := Signer._manifest_signing_payload m in
  let signed := signed_by m wallet in
  keypair_verify (ss58_address wallet) payload (hotkey_sign wallet payload) = Py.Ok true ->
  hotkey_sign wallet payload <> "" ->
  (keypair_verify (ss58_address wallet) (Signer._manifest_signing_payload m')
     (hotkey_sign wallet payload) = Py.Ok true ->
   Signer._manifest_signing_payload m' = payload) ->
  (Signer._manifest_signing_payload m' = payload ->
   dict_pop "signature" (dump_LedgerManifest_fields m')
   = dict_pop "signature" (dump_LedgerManifest_fields m)) ->
  dump_separates m' m ->
  Signer.verify_manifest signed (ss58_address wallet) = true
  /\ (LedgerManifest.signature m' = LedgerManifest.signature signed ->
      m' <> signed ->
      Signer.verify_manifest m' (ss58_address wallet) = false).
Proof.
  intros payload signed Hok Hne Hbind Hhash Hsep.
  assert (Hsig : LedgerManifest.signature signed = Hex.hex (hotkey_sign wallet payload))
    by reflexivity.
  assert (Hsig_ne : LedgerManifest.signature signed <> "").
  { rewrite Hsig. intros Hempty. apply Hne, hex_empty, Hempty. }
  split.
  - apply verify_manifest_true. split; [exact Hsig_ne|].
    exists (hotkey_sign wallet payload). split.
    + rewrite Hsig. apply fromhex_hex.
    + exact Hok.
  - intros Hsame Hdiff.
    destruct (Signer.verify_manifest m' (ss58_address wallet)) eqn:Hv; [|reflexivity].
    exfalso. apply Hdiff.
    apply verify_manifest_true in Hv as [_ [sig_bytes [Hhex Hver]]].
    rewrite Hsame, Hsig, fromhex_hex in Hhex. injection Hhex as <-.
    pose proof (signing_fields_inj m' m Hsep (Hhash (Hbind Hver))) as Hfields.
    destruct m' as [v1 t1 s1 e1 ep1 h1 hk1 sg1 c1 r1].
    destruct m as [v2 t2 s2 e2 ep2 h2 hk2 sg2 c2 r2].
    cbn in Hsame. unfold signed, signed_by. cbn in Hfields |- *.
    injection Hfields as -> -> -> -> -> -> -> -> ->.
    rewrite Hsame. reflexivity.
Qed.

End SignerFacts.

Import Fixture.

(** The theorem at work: a checkpoint manifest of epoch 1 signed under the
    tag keypair verifies, and the same signature on epoch 2 does not. *)
Lemma sign_then_verify_and_tamper_witness :
  let m := Fixture.manifest "checkpoint" 1 ∅ None in
  let signed := signed_by m "primary_hk" in
  let tampered :=
    LedgerManifest.set_signature (LedgerManifest.signature signed)
      (Fixture.manifest "checkpoint" 2 ∅ None) in
  Signer.verify_manifest signed "primary_hk" = true
  /\ Signer.verify_manifest tampered "primary_hk" = false.
Proof.
  intros m signed tampered.
  assert (Hsep : dump_separates tampered m).
  { intros d1 d2 Hd1 Hd2 _.
    assert (Hall : forall d, d ∈ [Fixture.noon; Fixture.noon; Fixture.noon] -> d = Fixture.noon).
    { intros d Hd. repeat (apply elem_of_cons in Hd as [->|Hd]; [reflexivity|]).
      inversion Hd. }
    rewrite (Hall d1 Hd1), (Hall d2 Hd2). reflexivity. }
  destruct (@sign_then_verify_and_tamper strftime_dump epoch_digest tag_keypair
              "primary_hk" m tampered) as [Hgood Hbad].
  - vm_compute. reflexivity.
  - vm_compute. discriminate.
  - vm_compute. discriminate.
  - vm_compute. discriminate.
  - exact Hsep.
  - split; [exact Hgood|]. apply Hbad.
    + reflexivity.
    + vm_compute. discriminate.
Defined.

(** ** [compute_weights] and the ambient state *)

Section AmbientFacts.
Context {World : Type}.

Lemma stateless_ret {A} (a : A) : Ambient.stateless (World := World) (Ambient.ret a).
Proof. by exists (Py.Ok a). Qed.

Lemma stateless_lift {A} (r : Py.result A) :
  Ambient.stateless (World := World) (Ambient.lift r).
Proof. by exists r. Qed.

Lemma stateless_bind {A B} (m : Ambient.run World A) (k : A -> Ambient.run World B) :
  Ambient.stateless m -> (forall a, Ambient.stateless (k a)) ->
  Ambient.stateless (Ambient.bind m k).
Proof.
  intros [[a|e] Hm] Hk.
  - destruct (Hk a) as [r Hr]. exists r. intros w. unfold Ambient.bind. by rewrite Hm.
  - exists (Py.Raise e). intros w. unfold Ambient.bind. by rewrite Hm.
Qed.

Lemma stateless_run {A} (m : Ambient.run World A) (w1 w2 : World) :
  Ambient.stateless m -> (m w1).1 = (m w2).1 /\ (m w1).2 = w1.
Proof. intros [r Hr]. by rewrite !Hr. Qed.

Variable routines : Ambient.Routines World.
Hypothesis Hroutines : Ambient.stateless_routines routines.

Ltac stateless_step :=
  first
    [ apply stateless_ret
    | apply stateless_lift
    | apply Hroutines
    | apply stateless_bind; [|intros ?]
    | match goal with
      | |- Ambient.stateless (mbind _ _) => apply stateless_bind; [|intros ?]
      | |- Ambient.stateless (if ?b then _ else _) => destruct b
      | |- Ambient.stateless (match ?x with _ => _ end) => destruct x
      end ].

Lemma normalize_max_weight_stateless (x : list float) (limit : float) :
  Ambient.stateless (Ambient._normalize_max_weight routines x limit).
Proof. unfold Ambient._normalize_max_weight. cbn zeta. repeat stateless_step. Qed.

Lemma get_float_stateless (d : json) (key : string) (default : float) :
  Ambient.stateless (Ambient.get_float routines d key default).
Proof. unfold Ambient.get_float, Ambient.py_float. repeat stateless_step. Qed.

Lemma get_int_stateless (d : json) (key : string) (default : Z) :
  Ambient.stateless (Ambient.get_int routines d key default).
Proof. unfold Ambient.get_int, Ambient.py_int. repeat stateless_step. Qed.

Lemma read_config_stateless (scoring_config : ScoringConfigSnapshot.t) :
  Ambient.stateless (Ambient.read_config routines scoring_config).
Proof.
  unfold Ambient.read_config. cbn zeta.
  repeat first [ apply get_float_stateless | apply get_int_stateless | stateless_step ].
Qed.

Lemma score_miners_stateless (cfg : ComputeWeights.Config)
    (sorted_metrics : list MinerMetrics.t) :
  Ambient.stateless (Ambient.score_miners routines cfg sorted_metrics).
Proof. unfold Ambient.score_miners. cbn zeta. repeat stateless_step. Qed.

Lemma process_for_chain_stateless (result : ComputeWeights.WeightResult)
    (raw_weights : list float) (chain_params : ChainParamsSnapshot.t) :
  Ambient.stateless (Ambient.process_for_chain routines result raw_weights chain_params).
Proof.
  unfold Ambient.process_for_chain. cbn zeta.
  repeat first [ apply normalize_max_weight_stateless | stateless_step ].
Qed.

Lemma compute_weights_stateless (miner_metrics : list MinerMetrics.t)
    (scoring_config : ScoringConfigSnapshot.t) (chain_params : ChainParamsSnapshot.t) :
  Ambient.stateless
    (Ambient.compute_weights routines miner_metrics scoring_config chain_params).
Proof.
  unfold Ambient.compute_weights. cbn zeta.
  repeat first [ apply read_config_stateless | apply score_miners_stateless
               | apply process_for_chain_stateless | stateless_step ].
Qed.

End AmbientFacts.
(** With routines that are functions, the call-by-call run returns what
    [ComputeWeights.compute_weights] returns, in every ambient state. *)
Section AmbientRefines.
Context {World : Type} `{Normalization} `{Numpy}.

Ltac run_steps :=
  cbn [Ambient.call_normalize_zscore_logistic Ambient.call_normalize_percentile
       Ambient.call_sum32 Ambient.call_sort Ambient.call_float_of_str
       Ambient.call_int_of_str Ambient.of_functions];
  unfold mbind, Ambient.run_bind, Ambient.bind, Ambient.ret, Ambient.lift;
  cbv beta iota.

Lemma normalize_max_weight_of_functions (x : list float) (limit : float) (w : World) :
  Ambient._normalize_max_weight (Ambient.of_functions World) x limit w
  = (Py.Ok (ComputeWeights._normalize_max_weight x limit), w).
Proof.
  unfold Ambient._normalize_max_weight, ComputeWeights._normalize_max_weight. run_steps.
  cbn zeta. destruct (_ || _); [reflexivity|]. cbv beta iota.
  destruct (_ <=? _)%float; reflexivity.
Qed.

Lemma get_float_of_functions (d : json) (key : string) (default : float) (w : World) :
  Ambient.get_float (Ambient.of_functions World) d key default w
  = (ComputeWeights.get_float d key default, w).
Proof.
  unfold Ambient.get_float, ComputeWeights.get_float, Ambient.py_float,
    ComputeWeights.py_float. run_steps.
  destruct d; try reflexivity. destruct (dict_get key _) as [v|]; [|reflexivity].
  destruct v; try reflexivity. cbn zeta. by destruct (is_infinity _).
Qed.

Lemma get_int_of_functions (d : json) (key : string) (default : Z) (w : World) :
  Ambient.get_int (Ambient.of_functions World) d key default w
  = (ComputeWeights.get_int d key default, w).
Proof.
  unfold Ambient.get_int, ComputeWeights.get_int, Ambient.py_int, ComputeWeights.py_int.
  run_steps.
  destruct d; try reflexivity. destruct (dict_get key _) as [v|]; [|reflexivity].
  by destruct v.
Qed.

Lemma read_config_of_functions (scoring_config : ScoringConfigSnapshot.t) (w : World) :
  Ambient.read_config (Ambient.of_functions World) scoring_config w
  = (ComputeWeights.read_config scoring_config, w).
Proof.
  unfold Ambient.read_config, ComputeWeights.read_config. cbn zeta.
  unfold mbind at 1 2 3 4 5 6 7 8 9 10 11 12, Ambient.run_bind, Ambient.bind.
  repeat (rewrite ?get_float_of_functions, ?get_int_of_functions;
          match goal with
          | |- context [ComputeWeights.get_float ?d ?k ?v] =>
              destruct (ComputeWeights.get_float d k v);
              cbn [mbind result_bind Py.bind]; [|reflexivity]
          | |- context [ComputeWeights.get_int ?d ?k ?v] =>
              destruct (ComputeWeights.get_int d k v);
              cbn [mbind result_bind Py.bind]; [|reflexivity]
          end).
  reflexivity.
Qed.

Lemma score_miners_of_functions (cfg : ComputeWeights.Config)
    (sorted_metrics : list MinerMetrics.t) (w : World) :
  Ambient.score_miners (Ambient.of_functions World) cfg sorted_metrics w
  = (ComputeWeights.score_miners cfg sorted_metrics, w).
Proof.
  unfold Ambient.score_miners, ComputeWeights.score_miners. run_steps. cbn zeta.
  destruct (_ <=? _); destruct (negb _); reflexivity.
Qed.

Lemma process_for_chain_of_functions (result : ComputeWeights.WeightResult)
    (raw_weights : list float) (chain_params : ChainParamsSnapshot.t) (w : World) :
  Ambient.process_for_chain (Ambient.of_functions World) result raw_weights chain_params w
  = (ComputeWeights.process_for_chain result raw_weights chain_params, w).
Proof.
  unfold Ambient.process_for_chain, ComputeWeights.process_for_chain. cbn zeta.
  destruct (Nat.eqb _ 0); [reflexivity|].
  unfold mbind at 1, Ambient.run_bind, Ambient.bind.
  destruct (_ <? _); rewrite normalize_max_weight_of_functions; run_steps;
    destruct (ComputeWeights._convert_to_uint16 _ _); reflexivity.
Qed.

Lemma compute_weights_of_functions (miner_metrics : list MinerMetrics.t)
    (scoring_config : ScoringConfigSnapshot.t) (chain_params : ChainParamsSnapshot.t)
    (w : World) :
  Ambient.compute_weights (Ambient.of_functions World) miner_metrics scoring_config
    chain_params w
  = (ComputeWeights.compute_weights miner_metrics scoring_config chain_params, w).
Proof.
  unfold Ambient.compute_weights, ComputeWeights.compute_weights. cbn zeta.
  destruct miner_metrics as [|m ms]; [by destruct (ChainParamsSnapshot.burn_uid _)|].
  unfold mbind at 1, Ambient.run_bind, Ambient.bind. rewrite read_config_of_functions.
  destruct (ComputeWeights.read_config scoring_config) as [cfg|e];
    cbn [mbind result_bind Py.bind]; [|reflexivity].
  unfold mbind at 1, Ambient.run_bind, Ambient.bind. rewrite score_miners_of_functions.
  destruct (ComputeWeights.score_miners cfg _) as [sc|e];
    cbn [mbind result_bind Py.bind]; [|reflexivity].
  destruct (_ <? 0); [reflexivity|].
  run_steps. unfold ComputeWeights.l1_norm.
  destruct (ComputeWeights.all_zero _).
  - destruct (ChainParamsSnapshot.burn_uid chain_params) as [burn_uid|]; [|reflexivity].
    destruct (ComputeWeights.in_range _ _); [|reflexivity].
    apply process_for_chain_of_functions.
  - apply process_for_chain_of_functions.
Qed.

End AmbientRefines.

(** C1.  [compute_weights] is deterministic and depends on nothing but its
    arguments.  Run call by call in an ambient state that every call into
    another module may read and change, it returns the same result (the
    same [uids] and [uint16_weights] in particular, or the same exception)
    from every ambient state, and leaves the state as it found it, provided
    the routines it calls there (the two normalisations, numpy's sum and
    sort, the parsing of numbers) do so themselves.  So a second invocation
    after the first, and an invocation in another process or at another
    time, give the result of the first. *)
Theorem compute_weights_deterministic {World : Type}
    (routines : Ambient.Routines World)
    (miner_metrics : list MinerMetrics.t) (scoring_config : ScoringConfigSnapshot.t)
    (chain_params : ChainParamsSnapshot.t) (w1 w2 : World) :
  Ambient.stateless_routines routines ->
  let invoke := Ambient.compute_weights routines miner_metrics scoring_config chain_params in
  let first := invoke w1 in
  let again := invoke first.2 in
  let elsewhere := invoke w2 in
  first.2 = w1
  /\ again = first
  /\ elsewhere.1 = first.1
  /\ outputs elsewhere.1 = outputs first.1.
Proof.
  intros Hroutines.
  destruct (compute_weights_stateless routines Hroutines miner_metrics scoring_config
              chain_params) as [r Hr].
  assert (Hrun : forall w,
            Ambient.compute_weights routines miner_metrics scoring_config chain_params w
            = (r, w)) by exact Hr.
  cbv zeta. rewrite !Hrun. cbn [fst snd]. rewrite ?Hrun. by repeat split.
Qed.

(** ** Weight computation *)

Section ComputeWeightsFacts.
Context `{Normalization} `{Numpy}.

Lemma record_raw_weights_snoc (l : list float) (x : float) :
  ComputeWeights.record_raw_weights (l ++ [x])
  = if (0 <? x)%float
    then <[Z.of_nat (length l) := x]> (ComputeWeights.record_raw_weights l)
    else ComputeWeights.record_raw_weights l.
Proof.
  unfold ComputeWeights.record_raw_weights.
  rewrite imap_app, fold_left_app. cbn. rewrite Nat.add_0_r. reflexivity.
Qed.

Lemma record_raw_weights_lookup (l : list float) (i : Z) :
  ComputeWeights.record_raw_weights l !! i
  = if 0 <=? i
    then match l !! Z.to_nat i with
         | Some w => if (0 <? w)%float then Some w else None
         | None => None
         end
    else None.
Proof.
  induction l as [|x l IH] using rev_ind.
  - cbn. rewrite lookup_empty. destruct (0 <=? i); reflexivity.
  - rewrite record_raw_weights_snoc.
    destruct (Z.leb_spec 0 i) as [Hi|Hi].
    + destruct (decide (Z.to_nat i = length l)) as [Heq|Hne].
      * rewrite Heq, list_lookup_middle by reflexivity.
        destruct (0 <? x)%float eqn:Hx.
        -- replace i with (Z.of_nat (length l)) by lia.
           rewrite lookup_insert_eq. reflexivity.
        -- rewrite IH, Heq, lookup_ge_None_2 by lia. reflexivity.
      * assert (Hl : (l ++ [x])%list !! Z.to_nat i = l !! Z.to_nat i).
        { destruct (decide (Z.to_nat i < length l)%nat) as [Hlt|Hge].
          - apply lookup_app_l, Hlt.
          - rewrite !lookup_ge_None_2; [reflexivity|lia|rewrite length_app; cbn; lia]. }
        rewrite Hl.
        destruct (0 <? x)%float.
        -- rewrite lookup_insert_ne by lia. exact IH.
        -- exact IH.
    + destruct (0 <? x)%float.
      * rewrite lookup_insert_ne by lia. exact IH.
      * exact IH.
Qed.

Lemma one_hot_allocated (n b : Z) :
  ComputeWeights.in_range b n = true ->
  allocated_to (ComputeWeights.one_hot n b) n b.
Proof.
  unfold ComputeWeights.in_range. intros Hr.
  apply andb_true_iff in Hr as [Hlo Hhi].
  apply Z.leb_le in Hlo. apply Z.ltb_lt in Hhi.
  unfold allocated_to, ComputeWeights.one_hot. split.
  - rewrite length_insert, length_replicate. reflexivity.
  - intros i Hi. destruct (Z.eqb_spec i b) as [->|Hne].
    + apply list_lookup_insert_eq. rewrite length_replicate. lia.
    + rewrite list_lookup_insert_ne by lia. apply lookup_replicate_2. lia.
Qed.

Lemma record_raw_weights_one_hot (n b : Z) :
  ComputeWeights.in_range b n = true ->
  ComputeWeights.record_raw_weights (ComputeWeights.one_hot n b) = {[ b := 1%float ]}.
Proof.
  intros Hr. destruct (one_hot_allocated n b Hr) as [Hlen Hat].
  unfold ComputeWeights.in_range in Hr.
  apply andb_true_iff in Hr as [Hlo Hhi].
  apply Z.leb_le in Hlo. apply Z.ltb_lt in Hhi.
  apply map_eq. intros i. rewrite record_raw_weights_lookup.
  destruct (Z.leb_spec 0 i) as [Hi|Hi].
  - destruct (Z.ltb_spec i n) as [Hin|Hout].
    + rewrite Hat by lia. destruct (Z.eqb_spec i b) as [->|Hne].
      * rewrite lookup_singleton_eq. reflexivity.
      * rewrite lookup_singleton_ne by congruence. reflexivity.
    + rewrite lookup_ge_None_2 by lia.
      rewrite lookup_singleton_ne by lia. reflexivity.
  - rewrite lookup_singleton_ne by lia. reflexivity.
Qed.

(** Whatever [process_for_chain] returns, it carries the raw weights it
    recorded and the intermediates it was given. *)
Lemma process_for_chain_raw_weights (result r : ComputeWeights.WeightResult)
    (raw : list float) (chain_params : ChainParamsSnapshot.t) :
  ComputeWeights.process_for_chain result raw chain_params = Py.Ok r ->
  ComputeWeights.raw_weights r = ComputeWeights.record_raw_weights raw
  /\ ComputeWeights.skill_scores r = ComputeWeights.skill_scores result
  /\ ComputeWeights.dimension_scores r = ComputeWeights.dimension_scores result.
Proof.
  unfold ComputeWeights.process_for_chain.
  destruct (Nat.eqb _ 0).
  - intros [= <-]. repeat split.
  - destruct (_ <? _); cbn;
      (destruct (ComputeWeights._convert_to_uint16 _ _) as [out|e]; cbn;
       [intros [= <-]; repeat split | discriminate]).
Qed.

Lemma record_intermediates_outputs (result : ComputeWeights.WeightResult)
    (uids : list Z) (sc : ComputeWeights.Scores) :
  ComputeWeights.uids (ComputeWeights.record_intermediates result uids sc)
  = ComputeWeights.uids result
  /\ ComputeWeights.uint16_weights (ComputeWeights.record_intermediates result uids sc)
     = ComputeWeights.uint16_weights result.
Proof.
  unfold ComputeWeights.record_intermediates.
  generalize (combine uids
       (combine (ComputeWeights.skill_score sc)
          (combine (combine (combine (ComputeWeights.forecast_dim sc)
                                     (ComputeWeights.skill_dim sc))
                            (ComputeWeights.econ_dim sc))
                   (ComputeWeights.info_dim sc)))).
  intros rows. revert result.
  induction rows as [|[uid [s [[[f k] e] i]]] rows IH]; intros result; cbn.
  - split; reflexivity.
  - destruct (IH (ComputeWeights.mkWeightResult (ComputeWeights.uids result)
                    (ComputeWeights.uint16_weights result)
                    (<[uid:=s]> (ComputeWeights.skill_scores result))
                    (ComputeWeights.raw_weights result)
                    (<[uid:={[ "forecast_dim" := f; "skill_dim" := k;
                               "econ_dim" := e; "info_dim" := i ]}]>
                       (ComputeWeights.dimension_scores result)))) as [IHu IHw].
    split; [exact IHu|exact IHw].
Qed.

(** C5.  When the L1 norm of the dense score vector is zero or NaN: with a
    burn uid that is present and in range, the raw weight vector is 1 at
    [burn_uid] and 0 elsewhere, it is the vector that the emission steps
    receive, and the raw weights of the result are [{burn_uid: 1.0}];
    otherwise the function returns a result whose [uids] and
    [uint16_weights] are empty. *)
Theorem zero_norm_allocates_to_burn
    (miner_metrics : list MinerMetrics.t) (scoring_config : ScoringConfigSnapshot.t)
    (chain_params : ChainParamsSnapshot.t)
    (cfg : ComputeWeights.Config) (sc : ComputeWeights.Scores) :
  let n_neurons := ChainParamsSnapshot.n_neurons chain_params in
  let uids := map MinerMetrics.uid (ComputeWeights.sorted_by_uid miner_metrics) in
  let scores := ComputeWeights.dense_scores n_neurons uids (ComputeWeights.skill_score sc) in
  let result := ComputeWeights.record_intermediates ComputeWeights.empty_result uids sc in
  miner_metrics <> [] ->
  ComputeWeights.read_config scoring_config = Py.Ok cfg ->
  ComputeWeights.score_miners cfg (ComputeWeights.sorted_by_uid miner_metrics) = Py.Ok sc ->
  0 <= n_neurons ->
  ComputeWeights.all_zero (ComputeWeights.l1_norm scores) = true ->
  match ChainParamsSnapshot.burn_uid chain_params with
  | Some burn_uid =>
      if ComputeWeights.in_range burn_uid n_neurons then
        exists raw_weights : list float,
          allocated_to raw_weights n_neurons burn_uid
          /\ ComputeWeights.compute_weights miner_metrics scoring_config chain_params
             = ComputeWeights.process_for_chain result raw_weights chain_params
          /\ forall r,
               ComputeWeights.compute_weights miner_metrics scoring_config chain_params
               = Py.Ok r ->
               ComputeWeights.raw_weights r = {[ burn_uid := 1%float ]}
      else
        exists r,
          ComputeWeights.compute_weights miner_metrics scoring_config chain_params = Py.Ok r
          /\ ComputeWeights.uids r = [] /\ ComputeWeights.uint16_weights r = []
  | None =>
      exists r,
        ComputeWeights.compute_weights miner_metrics scoring_config chain_params = Py.Ok r
        /\ ComputeWeights.uids r = [] /\ ComputeWeights.uint16_weights r = []
  end.
Proof.
  intros n_neurons uids scores result Hne Hcfg Hsc Hn Hzero.
  assert (Hcw : ComputeWeights.compute_weights miner_metrics scoring_config chain_params
                = match ChainParamsSnapshot.burn_uid chain_params with
                  | Some burn_uid =>
                      if ComputeWeights.in_range burn_uid n_neurons then
                        ComputeWeights.process_for_chain result
                          (ComputeWeights.one_hot n_neurons burn_uid) chain_params
                      else Py.Ok result
                  | None => Py.Ok result
                  end).
  { unfold ComputeWeights.compute_weights.
    destruct miner_metrics as [|m0 rest]; [contradiction|].
    rewrite Hcfg. cbn [mbind result_bind Py.bind].
    rewrite Hsc. cbn [mbind result_bind Py.bind].
    fold n_neurons.
    destruct (Z.ltb_spec n_neurons 0) as [Hneg|_]; [lia|].
    fold uids. fold scores. rewrite Hzero. reflexivity. }
  destruct (record_intermediates_outputs ComputeWeights.empty_result uids sc) as [Hu Hw].
  destruct (ChainParamsSnapshot.burn_uid chain_params) as [burn_uid|].
  - destruct (ComputeWeights.in_range burn_uid n_neurons) eqn:Hr.
    + exists (ComputeWeights.one_hot n_neurons burn_uid).
      split; [apply one_hot_allocated, Hr|]. split; [exact Hcw|].
      intros r Hok. rewrite Hcw in Hok.
      apply process_for_chain_raw_weights in Hok as [Hraw _].
      rewrite Hraw. apply record_raw_weights_one_hot, Hr.
    + exists result. split; [exact Hcw|]. split; [exact Hu|exact Hw].
  - exists result. split; [exact Hcw|]. split; [exact Hu|exact Hw].
Qed.

End ComputeWeightsFacts.

(** The theorems at work on the fixtures. *)
Lemma of_functions_stateless (World : Type) `{Normalization} `{Numpy} :
  Ambient.stateless_routines (Ambient.of_functions World).
Proof.
  repeat split; intros x; (apply stateless_ret || apply stateless_lift).
Qed.

Lemma compute_weights_deterministic_witness :
  let invoke :=
    Ambient.compute_weights (Ambient.of_functions Z)
      [ Fixture.miner 3 0.9; Fixture.miner 1 0.3; Fixture.miner 2 0.5 ]
      Fixture.default_config (Fixture.chain 10 (Some 0) 1) in
  (invoke 0).2 = 0
  /\ invoke (invoke 0).2 = invoke 0
  /\ (invoke 1).1 = (invoke 0).1
  /\ outputs (invoke 1).1 = outputs (invoke 0).1.
Proof.
  exact (compute_weights_deterministic (Ambient.of_functions Z) _ _ _ 0 1
           (of_functions_stateless Z)).
Defined.

(** A routine that draws from the ambient state is observed: the first
    invocation leaves another state than it found, and the second returns
    other weights than the first. *)
Lemma drawing_routine_is_observed :
  let invoke :=
    Ambient.compute_weights Fixture.drawing
      [ Fixture.miner 3 0.9; Fixture.miner 1 0.3; Fixture.miner 2 0.5 ]
      Fixture.default_config (Fixture.chain 10 (Some 0) 1) in
  (invoke 0).2 = 2
  /\ outputs (invoke 0).1 = Some ([0; 1; 2; 3], [65535; 21398; 21733; 22404])
  /\ outputs (invoke (invoke 0).2).1 = Some ([0; 1; 2; 3], [65535; 21561; 21774; 22200]).
Proof. cbn zeta. repeat split; vm_compute; reflexivity. Qed.

Lemma zero_norm_allocates_to_burn_witness :
  exists raw_weights : list float,
    allocated_to raw_weights 5 0
    /\ ComputeWeights.compute_weights Fixture.stray_miner Fixture.default_config
         (Fixture.chain 5 (Some 0) 2)
       = ComputeWeights.process_for_chain
           (ComputeWeights.record_intermediates ComputeWeights.empty_result [11]
              Fixture.stray_scores)
           raw_weights (Fixture.chain 5 (Some 0) 2)
    /\ forall r,
         ComputeWeights.compute_weights Fixture.stray_miner Fixture.default_config
           (Fixture.chain 5 (Some 0) 2) = Py.Ok r ->
         ComputeWeights.raw_weights r = {[ 0 := 1%float ]}.
Proof.
  refine (@zero_norm_allocates_to_burn half_normalization sequential_numpy
            Fixture.stray_miner Fixture.default_config (Fixture.chain 5 (Some 0) 2)
            Fixture.default_cfg Fixture.stray_scores _ _ _ _ _).
  - discriminate.
  - vm_compute. reflexivity.
  - vm_compute. reflexivity.
  - cbn. lia.
  - vm_compute. reflexivity.
Defined.

(** With two weights required ([min_allowed_weights = 2]) the raw vector is
    still all on the burn uid, and the emission steps pad it: every uid of
    the subnet is emitted, the burn uid at the top. *)
Example zero_norm_padding_spreads_emission :
  let run :=
    ComputeWeights.compute_weights Fixture.stray_miner Fixture.default_config
      (Fixture.chain 5 (Some 0) 2) in
  outputs run = Some ([0; 1; 2; 3; 4], [65535; 16466; 16466; 16466; 16466])
  /\ match run with
     | Py.Ok r => ComputeWeights.raw_weights r = {[ 0 := 1%float ]}
     | Py.Raise _ => False
     end.
Proof. cbn zeta. split; vm_compute; reflexivity. Qed.

(** With one weight required the burn uid is the whole emission. *)
Example zero_norm_burn_only_emission :
  outputs
    (ComputeWeights.compute_weights Fixture.stray_miner Fixture.default_config
       (Fixture.chain 5 (Some 0) 1))
  = Some ([0], [65535]).
Proof. vm_compute. reflexivity. Qed.

(** ** The one-hot vector through the emission steps *)

Lemma select_app {A : Type} (m1 m2 : list bool) (x1 x2 : list A) :
  length m1 = length x1 ->
  ComputeWeights.select (m1 ++ m2) (x1 ++ x2)
  = (ComputeWeights.select m1 x1 ++ ComputeWeights.select m2 x2)%list.
Proof.
  revert x1. induction m1 as [|b m1 IH]; intros [|a x1] Hlen; try discriminate Hlen.
  - reflexivity.
  - injection Hlen as Hlen. specialize (IH x1 Hlen).
    unfold ComputeWeights.select in *. cbn. destruct b; cbn; rewrite IH; reflexivity.
Qed.

Lemma select_none {A : Type} (k : nat) (x : list A) :
  ComputeWeights.select (replicate k false) x = [].
Proof.
  revert x. induction k as [|k IH]; intros [|a x]; cbn; try reflexivity.
  apply IH.
Qed.

Lemma one_hot_split (n b : Z) :
  ComputeWeights.in_range b n = true ->
  ComputeWeights.one_hot n b
  = (replicate (Z.to_nat b) 0%float
     ++ 1%float :: replicate (Z.to_nat n - S (Z.to_nat b)) 0%float)%list.
Proof.
  unfold ComputeWeights.in_range, ComputeWeights.one_hot. intros Hr.
  apply andb_true_iff in Hr as [Hlo Hhi].
  apply Z.leb_le in Hlo. apply Z.ltb_lt in Hhi.
  apply insert_replicate_lt. lia.
Qed.

Lemma one_hot_mask (n b : Z) :
  ComputeWeights.in_range b n = true ->
  map (fun w => (0 <? w)%float) (ComputeWeights.one_hot n b)
  = (replicate (Z.to_nat b) false
     ++ true :: replicate (Z.to_nat n - S (Z.to_nat b)) false)%list.
Proof.
  intros Hr. rewrite (one_hot_split n b Hr), map_app. cbn [map].
  assert (Hrep : forall k, map (fun w => (0 <? w)%float) (replicate k 0%float)
                           = replicate k false).
  { induction k as [|k IH]; [reflexivity|]. cbn. rewrite IH. reflexivity. }
  rewrite !Hrep. reflexivity.
Qed.

Lemma all_uids_split (n b : Z) :
  ComputeWeights.in_range b n = true ->
  map Z.of_nat (seq 0 (Z.to_nat n))
  = (map Z.of_nat (seq 0 (Z.to_nat b))
     ++ b :: map Z.of_nat (seq (S (Z.to_nat b)) (Z.to_nat n - S (Z.to_nat b))))%list.
Proof.
  unfold ComputeWeights.in_range. intros Hr.
  apply andb_true_iff in Hr as [Hlo Hhi].
  apply Z.leb_le in Hlo. apply Z.ltb_lt in Hhi.
  replace (Z.to_nat n) with (Z.to_nat b + S (Z.to_nat n - S (Z.to_nat b)))%nat at 1 by lia.
  rewrite seq_app, map_app. cbn [seq map]. rewrite Nat.add_0_l, Z2Nat.id by lia.
  reflexivity.
Qed.

Lemma select_one_hot (n b : Z) :
  ComputeWeights.in_range b n = true ->
  let mask := map (fun w => (0 <? w)%float) (ComputeWeights.one_hot n b) in
  ComputeWeights.select mask (ComputeWeights.one_hot n b) = [ 1%float ]
  /\ ComputeWeights.select mask (map Z.of_nat (seq 0 (Z.to_nat n))) = [ b ].
Proof.
  intros Hr mask. unfold mask. rewrite (one_hot_mask n b Hr).
  split.
  - rewrite (one_hot_split n b Hr).
    rewrite select_app by (rewrite !length_replicate; reflexivity).
    rewrite select_none.
    change (ComputeWeights.select (true :: ?m) (?a :: ?x))
      with (a :: ComputeWeights.select m x).
    rewrite select_none. reflexivity.
  - rewrite (all_uids_split n b Hr).
    rewrite select_app by (rewrite length_replicate, length_map, length_seq; reflexivity).
    rewrite select_none.
    change (ComputeWeights.select (true :: ?m) (?a :: ?x))
      with (a :: ComputeWeights.select m x).
    rewrite select_none. reflexivity.
Qed.

Section EmissionFacts.
Context `{Normalization} `{Numpy}.

(** A single weight of 1 stays 1 under the max-weight projection, when the
    limit lets one of the first two branches decide (that is, when the limit
    is a number) and numpy's sum and sort of [[1.0]] are [1.0] and [[1.0]]. *)
Lemma normalize_max_weight_singleton (limit : float) :
  np_sum32 [ 1%float ] = 1%float ->
  np_sort [ 1%float ] = [ 1%float ] ->
  (PyNum.float_of_int 1 * limit <=? 1)%float = true
  \/ (1 <=? F32.round32 limit)%float = true ->
  ComputeWeights._normalize_max_weight [ 1%float ] limit = [ 1%float ].
Proof.
  intros Hsum Hsort Hlimit.
  assert (Hone : F32.div 1 (F32.round32 (PyNum.float_of_int 1)) = 1%float)
    by (vm_compute; reflexivity).
  assert (Hdiv : F32.div 1 1 = 1%float) by (vm_compute; reflexivity).
  unfold ComputeWeights._normalize_max_weight.
  cbn [length]. change (Z.of_nat 1) with 1. rewrite Hsort, Hsum.
  change (1 =? 0)%float with false. cbn [orb map].
  rewrite Hone, Hdiv.
  destruct (PyNum.float_of_int 1 * limit <=? 1)%float eqn:Hb1; [reflexivity|].
  destruct Hlimit as [Hl|Hl]; [discriminate Hl|].
  change (ComputeWeights.np_max [1%float]) with 1%float.
  rewrite Hl. reflexivity.
Qed.

(** With at most one weight required, a zero (or NaN) norm and a burn uid
    in range give the whole emission to the burn uid:
    [uids = [burn_uid]], [uint16_weights = [65535]]. *)
Lemma zero_norm_burn_only_output
    (miner_metrics : list MinerMetrics.t) (scoring_config : ScoringConfigSnapshot.t)
    (chain_params : ChainParamsSnapshot.t)
    (cfg : ComputeWeights.Config) (sc : ComputeWeights.Scores) (burn_uid : Z) :
  let n_neurons := ChainParamsSnapshot.n_neurons chain_params in
  let limit := ChainParamsSnapshot.max_weight_limit chain_params in
  let uids := map MinerMetrics.uid (ComputeWeights.sorted_by_uid miner_metrics) in
  let scores := ComputeWeights.dense_scores n_neurons uids (ComputeWeights.skill_score sc) in
  miner_metrics <> [] ->
  ComputeWeights.read_config scoring_config = Py.Ok cfg ->
  ComputeWeights.score_miners cfg (ComputeWeights.sorted_by_uid miner_metrics) = Py.Ok sc ->
  ComputeWeights.all_zero (ComputeWeights.l1_norm scores) = true ->
  ChainParamsSnapshot.burn_uid chain_params = Some burn_uid ->
  ComputeWeights.in_range burn_uid n_neurons = true ->
  ChainParamsSnapshot.min_allowed_weights chain_params <= 1 ->
  np_sum32 [ 1%float ] = 1%float ->
  np_sort [ 1%float ] = [ 1%float ] ->
  (PyNum.float_of_int 1 * limit <=? 1)%float = true
  \/ (1 <=? F32.round32 limit)%float = true ->
  outputs (ComputeWeights.compute_weights miner_metrics scoring_config chain_params)
  = Some ([ burn_uid ], [ 65535 ]).
Proof.
  intros n_neurons limit uids scores Hne Hcfg Hsc Hzero Hburn Hr Hmin Hsum Hsort Hlimit.
  assert (Hn : 0 <= n_neurons).
  { unfold ComputeWeights.in_range in Hr. apply andb_true_iff in Hr as [Hlo Hhi].
    apply Z.leb_le in Hlo. apply Z.ltb_lt in Hhi. lia. }
  unfold ComputeWeights.compute_weights.
  destruct miner_metrics as [|m0 rest]; [contradiction|].
  rewrite Hcfg. cbn [mbind result_bind Py.bind].
  rewrite Hsc. cbn [mbind result_bind Py.bind].
  fold n_neurons. destruct (Z.ltb_spec n_neurons 0) as [Hneg|_]; [lia|].
  fold uids. fold scores. rewrite Hzero, Hburn, Hr.
  unfold ComputeWeights.process_for_chain. fold n_neurons. fold limit.
  destruct (select_one_hot n_neurons burn_uid Hr) as [Hw Hu].
  cbn zeta in Hw, Hu. rewrite Hw, Hu.
  cbn [length Nat.eqb]. change (Z.of_nat 1) with 1.
  destruct (Z.ltb_spec 1 (ChainParamsSnapshot.min_allowed_weights chain_params))
    as [Hlt|_]; [lia|].
  rewrite (normalize_max_weight_singleton limit Hsum Hsort Hlimit).
  reflexivity.
Qed.

End EmissionFacts.


(** ** The order of [str] and the printed form of datetimes *)

Lemma ascii_compare_trans (a b c : ascii) (r : comparison) :
  Ascii.compare a b = r -> Ascii.compare b c = r -> Ascii.compare a c = r.
Proof.
  unfold Ascii.compare. intros Hab Hbc. destruct r.
  - apply N.compare_eq in Hab, Hbc. rewrite Hab, Hbc. apply N.compare_refl.
  - rewrite N.compare_lt_iff in *. lia.
  - rewrite N.compare_gt_iff in *. lia.
Qed.

Lemma ascii_compare_eq (a b : ascii) : Ascii.compare a b = Eq <-> a = b.
Proof.
  split; [apply Ascii.compare_eq_iff|]. intros ->.
  unfold Ascii.compare. apply N.compare_refl.
Qed.

Lemma string_compare_refl (s : string) : String.compare s s = Eq.
Proof.
  induction s as [|c s IH]; [reflexivity|]. cbn.
  rewrite (proj2 (ascii_compare_eq c c) eq_refl). exact IH.
Qed.

Lemma string_compare_lt_trans (s1 s2 s3 : string) :
  String.compare s1 s2 = Lt -> String.compare s2 s3 = Lt -> String.compare s1 s3 = Lt.
Proof.
  revert s2 s3. induction s1 as [|c1 s1 IH]; intros [|c2 s2] [|c3 s3]; cbn;
    try discriminate; try reflexivity.
  destruct (Ascii.compare c1 c2) eqn:H12; try discriminate;
    destruct (Ascii.compare c2 c3) eqn:H23; try discriminate; intros Ha Hb.
  - rewrite (ascii_compare_trans c1 c2 c3 Eq H12 H23). eapply IH; eassumption.
  - apply ascii_compare_eq in H12 as ->. rewrite H23. reflexivity.
  - apply ascii_compare_eq in H23 as <-. rewrite H12. reflexivity.
  - rewrite (ascii_compare_trans c1 c2 c3 Lt H12 H23). reflexivity.
Qed.

#[global] Instance str_le_total : Total FilesystemStore.str_le.
Proof. intros a b. apply String.leb_total. Qed.

#[global] Instance str_le_trans : Transitive FilesystemStore.str_le.
Proof.
  intros a b c. unfold FilesystemStore.str_le, String.leb.
  destruct (String.compare a b) eqn:Hab; try discriminate;
    destruct (String.compare b c) eqn:Hbc; try discriminate; intros _ _.
  - apply String.compare_eq_iff in Hab as ->. rewrite Hbc. reflexivity.
  - apply String.compare_eq_iff in Hab as ->. rewrite Hbc. reflexivity.
  - apply String.compare_eq_iff in Hbc as <-. rewrite Hab. reflexivity.
  - rewrite (string_compare_lt_trans a b c Hab Hbc). reflexivity.
Qed.

Lemma append_cons (c : ascii) (s t : string) :
  (String c s ++ t)%string = String c (s ++ t).
Proof. reflexivity. Qed.

Lemma append_nil_l (s : string) : ("" ++ s)%string = s.
Proof. reflexivity. Qed.

Lemma append_nil_r (s : string) : (s ++ "")%string = s.
Proof.
  induction s as [|x s IH]; [reflexivity|]. rewrite append_cons, IH. reflexivity.
Qed.

Lemma string_append_assoc (a b c : string) : ((a ++ b) ++ c = a ++ (b ++ c))%string.
Proof.
  induction a as [|x a IH]; [reflexivity|].
  rewrite !append_cons, IH. reflexivity.
Qed.

Lemma compare_cons (c1 c2 : ascii) (s1 s2 : string) :
  String.compare (String c1 s1) (String c2 s2)
  = lexc (Ascii.compare c1 c2) (String.compare s1 s2).
Proof. reflexivity. Qed.

Lemma digit_compare (a b : Z) :
  Ascii.compare (datetime.digit a) (datetime.digit b) = (a mod 10 ?= b mod 10).
Proof.
  unfold datetime.digit.
  assert (Hdigits : forall x, 0 <= x < 10 ->
            x ∈ (Z.of_nat <$> seq 0 10)).
  { intros x Hx. apply list_elem_of_fmap. exists (Z.to_nat x). split; [lia|].
    apply list_elem_of_In, in_seq. lia. }
  pose proof (Hdigits (a mod 10) (Z.mod_pos_bound a 10 eq_refl)) as Ha.
  pose proof (Hdigits (b mod 10) (Z.mod_pos_bound b 10 eq_refl)) as Hb.
  generalize dependent (b mod 10). generalize dependent (a mod 10).
  intros x Hx y Hy. cbn in Hx, Hy.
  repeat (apply elem_of_cons in Hx as [->|Hx];
          [ repeat (apply elem_of_cons in Hy as [->|Hy]; [vm_compute; reflexivity|]);
            inversion Hy |]).
  inversion Hx.
Qed.

Lemma radix_compare (base q r q' r' : Z) :
  0 <= r < base -> 0 <= r' < base ->
  (q * base + r ?= q' * base + r') = lexc (q ?= q') (r ?= r').
Proof.
  intros Hr Hr'. unfold lexc.
  destruct (Z.compare_spec q q') as [->|Hq|Hq].
  - apply Z.add_compare_mono_l.
  - apply Z.compare_lt_iff. nia.
  - apply Z.compare_gt_iff. nia.
Qed.

Lemma pad2_compare (a b : Z) (x y : string) :
  0 <= a < 100 -> 0 <= b < 100 ->
  String.compare (datetime.pad2 a ++ x) (datetime.pad2 b ++ y)
  = lexc (a ?= b) (String.compare x y).
Proof.
  intros Ha Hb. unfold datetime.pad2.
  rewrite !append_cons, !append_nil_l, !compare_cons, !digit_compare.
  rewrite (Z.mod_small (a / 10) 10), (Z.mod_small (b / 10) 10)
    by (split; [apply Z.div_pos; lia | apply Z.div_lt_upper_bound; lia]).
  assert (Hab : (a ?= b) = lexc (a / 10 ?= b / 10) (a mod 10 ?= b mod 10)).
  { rewrite <- (radix_compare 10) by (apply Z.mod_pos_bound; lia).
    f_equal; Z.div_mod_to_equations; lia. }
  rewrite Hab. unfold lexc. destruct (a / 10 ?= b / 10); [|reflexivity..].
  destruct (a mod 10 ?= b mod 10); reflexivity.
Qed.

Lemma pad2_low (n : Z) : datetime.pad2 n = datetime.pad2 (n mod 100).
Proof.
  unfold datetime.pad2, datetime.digit.
  replace ((n mod 100 / 10) mod 10) with ((n / 10) mod 10)
    by (Z.div_mod_to_equations; lia).
  replace ((n mod 100) mod 10) with (n mod 10) by (Z.div_mod_to_equations; lia).
  reflexivity.
Qed.

Lemma pad4_compare (a b : Z) (x y : string) :
  0 <= a < 10000 -> 0 <= b < 10000 ->
  String.compare (datetime.pad4 a ++ x) (datetime.pad4 b ++ y)
  = lexc (a ?= b) (String.compare x y).
Proof.
  intros Ha Hb.
  assert (Hpad : forall n s,
            (datetime.pad4 n ++ s)%string
            = (datetime.pad2 (n / 100) ++ (datetime.pad2 (n mod 100) ++ s))%string).
  { intros n s. rewrite <- (pad2_low n). unfold datetime.pad4.
    unfold datetime.pad2 at 2. rewrite !append_cons, !append_nil_l.
    unfold datetime.digit.
    replace (n / 100 / 10) with (n / 1000) by (Z.div_mod_to_equations; lia).
    reflexivity. }
  rewrite !Hpad.
  rewrite (pad2_compare (a / 100) (b / 100)) by (Z.div_mod_to_equations; lia).
  rewrite (pad2_compare (a mod 100) (b mod 100)) by (Z.div_mod_to_equations; lia).
  assert (Hab : (a ?= b) = lexc (a / 100 ?= b / 100) (a mod 100 ?= b mod 100)).
  { rewrite <- (radix_compare 100) by (apply Z.mod_pos_bound; lia).
    f_equal; Z.div_mod_to_equations; lia. }
  rewrite Hab. unfold lexc. destruct (a / 100 ?= b / 100); [|reflexivity..].
  destruct (a mod 100 ?= b mod 100); reflexivity.
Qed.

(** Printed datetimes compare as the instants they print. *)
Lemma strftime_compare (a b : datetime.t) (x y : string) :
  datetime.in_range a -> datetime.in_range b ->
  String.compare (datetime.strftime a ++ x) (datetime.strftime b ++ y)
  = lexc (datetime.seconds_key a ?= datetime.seconds_key b) (String.compare x y).
Proof.
  intros (Hy & Hmo & Hd & Hh & Hmi & Hs) (Hy' & Hmo' & Hd' & Hh' & Hmi' & Hs').
  unfold datetime.strftime, datetime.seconds_key.
  rewrite !string_append_assoc.
  rewrite pad4_compare, !pad2_compare by lia.
  rewrite !append_cons, !append_nil_l, compare_cons.
  rewrite (proj2 (ascii_compare_eq "T" "T") eq_refl).
  unfold lexc at 4. rewrite !pad2_compare by lia.
  rewrite !(radix_compare 100) by lia.
  unfold lexc.
  repeat match goal with |- context [?u ?= ?v] => destruct (u ?= v) end; reflexivity.
Qed.

(** ** The filesystem store *)

Lemma sorted_elem_of (names : list string) (x : string) :
  x ∈ FilesystemStore.sorted names <-> x ∈ names.
Proof.
  unfold FilesystemStore.sorted. rewrite merge_sort_Permutation. reflexivity.
Qed.

Lemma sorted_strongly (names : list string) :
  StronglySorted FilesystemStore.str_le (FilesystemStore.sorted names).
Proof. apply StronglySorted_merge_sort; apply _. Qed.

Lemma StronglySorted_list_filter {A} (R : relation A) (f : A -> bool) (l : list A) :
  StronglySorted R l -> StronglySorted R (List.filter f l).
Proof.
  induction 1 as [|a l Hl IH Hall]; cbn; [constructor|].
  destruct (f a); [|exact IH].
  constructor; [exact IH|].
  apply Forall_forall. intros y Hy. apply list_elem_of_In, filter_In in Hy as [Hy _].
  rewrite Forall_forall in Hall. apply Hall, list_elem_of_In, Hy.
Qed.

Lemma iterdir_elem_of {A} (d : gmap string A) (name : string) :
  name ∈ FilesystemStore.iterdir d <-> is_Some (d !! name).
Proof.
  unfold FilesystemStore.iterdir. rewrite list_elem_of_fmap. split.
  - intros [[k v] [-> Hkv]]. apply elem_of_map_to_list in Hkv. exists v. exact Hkv.
  - intros [v Hv]. exists (name, v). split; [reflexivity|].
    apply elem_of_map_to_list. exact Hv.
Qed.

Lemma strftime_compare_prefix (a b : datetime.t) (rest : string) :
  datetime.in_range a -> datetime.in_range b ->
  String.compare (datetime.strftime a) (datetime.strftime b ++ rest)
  = lexc (datetime.seconds_key a ?= datetime.seconds_key b) (String.compare "" rest).
Proof.
  intros Ha Hb. rewrite <- (append_nil_r (datetime.strftime a)).
  apply strftime_compare; assumption.
Qed.

(** The filter of [list_deltas] on a delta id: the window start, printed to
    the second, is at or after [since]. *)
Lemma since_filter (since : datetime.t) (delta : DeltaWindow.t) :
  datetime.in_range since ->
  datetime.in_range (LedgerManifest.window_start (DeltaWindow.manifest delta)) ->
  Py.str_gt (FilesystemStore.delta_id_of delta) ("d_" ++ datetime.strftime since) = true
  <-> datetime.seconds_key since
      <= datetime.seconds_key (LedgerManifest.window_start (DeltaWindow.manifest delta)).
Proof.
  intros Hsince Hstart.
  unfold Py.str_gt, String.ltb, FilesystemStore.delta_id_of.
  rewrite !append_cons, !append_nil_l, !compare_cons.
  rewrite !(proj2 (ascii_compare_eq _ _) eq_refl). cbn [lexc].
  rewrite strftime_compare_prefix by assumption.
  rewrite ?append_cons, ?append_nil_l.
  change (String.compare "" (String "_" ?s)) with Lt.
  destruct (Z.compare_spec (datetime.seconds_key since)
              (datetime.seconds_key
                 (LedgerManifest.window_start (DeltaWindow.manifest delta))))
    as [Heq|Hlt|Hgt]; cbn [lexc].
  - split; [lia|reflexivity].
  - split; [lia|reflexivity].
  - split; [discriminate|lia].
Qed.

Lemma epoch_dir_name_inj (e1 e2 : Z) :
  FilesystemStore.epoch_dir_name e1 = FilesystemStore.epoch_dir_name e2 -> e1 = e2.
Proof.
  unfold FilesystemStore.epoch_dir_name, Py.str_of_int.
  intros Heq. apply (inj (String.append "epoch_")) in Heq.
  apply (inj pretty) in Heq. exact Heq.
Qed.

(** What [list_deltas] returns, on any directory tree. *)
Lemma list_deltas_spec (self : FilesystemStore.t) (epoch : Z) (since : option datetime.t) :
  StronglySorted FilesystemStore.str_le (FilesystemStore.list_deltas self epoch since)
  /\ NoDup (FilesystemStore.list_deltas self epoch since)
  /\ forall id,
       id ∈ FilesystemStore.list_deltas self epoch since
       <-> (exists delta, stored self epoch id delta)
           /\ match since with
              | Some since => Py.str_gt id ("d_" ++ datetime.strftime since) = true
              | None => True
              end.
Proof.
  unfold FilesystemStore.list_deltas, stored.
  destruct (FilesystemStore.deltas_dir self !! FilesystemStore.epoch_dir_name epoch)
    as [epoch_dir|] eqn:Hdir.
  - assert (Hmem : forall id,
              id ∈ FilesystemStore.sorted (FilesystemStore.iterdir epoch_dir)
              <-> exists delta, exists dir, Some epoch_dir = Some dir /\ dir !! id = Some delta).
    { intros id. rewrite sorted_elem_of, iterdir_elem_of. split.
      - intros [delta Hd]. exists delta, epoch_dir. split; [reflexivity|exact Hd].
      - intros [delta [dir [[= <-] Hd]]]. exists delta. exact Hd. }
    assert (Hnodup : NoDup (FilesystemStore.sorted (FilesystemStore.iterdir epoch_dir))).
    { unfold FilesystemStore.sorted. rewrite merge_sort_Permutation.
      apply NoDup_fst_map_to_list. }
    destruct since as [since|].
    + split; [apply StronglySorted_list_filter, sorted_strongly|].
      split; [apply NoDup_ListNoDup, List.NoDup_filter, NoDup_ListNoDup, Hnodup|].
      intros id. rewrite list_elem_of_In, filter_In, <- list_elem_of_In, Hmem. reflexivity.
    + split; [apply sorted_strongly|]. split; [exact Hnodup|].
      intros id. rewrite Hmem. split; [intros Hs; split; [exact Hs|exact I]|intros [Hs _]; exact Hs].
  - split; [constructor|]. split; [constructor|].
    intros id. split; [intros Hin; inversion Hin|].
    intros [[delta [dir [Hcontra _]]] _]. discriminate Hcontra.
Qed.

Lemma well_formed_empty (retention : Z) :
  well_formed (FilesystemStore.mk ∅ ∅ retention).
Proof. intros name dir id delta Hdir. cbn in Hdir. rewrite lookup_empty in Hdir. discriminate. Qed.

Lemma well_formed_prune (self : FilesystemStore.t) (cutoff : datetime.t) :
  well_formed self -> well_formed (FilesystemStore._prune self cutoff).
Proof.
  intros Hwf name dir id delta Hdir Hid. unfold FilesystemStore._prune in Hdir. cbn in Hdir.
  apply map_lookup_filter_Some in Hdir as [Hdir _].
  apply lookup_fmap_Some in Hdir as [dir0 [<- Hdir0]].
  apply map_lookup_filter_Some in Hid as [Hid _].
  exact (Hwf name dir0 id delta Hdir0 Hid).
Qed.

Lemma well_formed_put_delta (self : FilesystemStore.t) (delta : DeltaWindow.t)
    (cutoff : datetime.t) :
  well_formed self ->
  datetime.in_range (LedgerManifest.window_start (DeltaWindow.manifest delta)) ->
  datetime.in_range (LedgerManifest.window_end (DeltaWindow.manifest delta)) ->
  well_formed (FilesystemStore.put_delta self delta cutoff).1.
Proof.
  intros Hwf Hstart Hend. unfold FilesystemStore.put_delta. cbn [fst].
  apply well_formed_prune.
  intros name dir id d Hdir Hid. cbn in Hdir.
  set (e := LedgerManifest.checkpoint_epoch (DeltaWindow.manifest delta)) in *.
  destruct (decide (name = FilesystemStore.epoch_dir_name e)) as [->|Hname].
  - rewrite lookup_insert_eq in Hdir. injection Hdir as <-.
    destruct (decide (id = FilesystemStore.delta_id_of delta)) as [->|Hne].
    + rewrite lookup_insert_eq in Hid. injection Hid as <-.
      split; [reflexivity|]. split; [reflexivity|]. split; assumption.
    + rewrite lookup_insert_ne in Hid by congruence.
      destruct (FilesystemStore.deltas_dir self !! FilesystemStore.epoch_dir_name e)
        as [dir0|] eqn:Hdir0; cbn in Hid.
      * exact (Hwf _ dir0 id d Hdir0 Hid).
      * rewrite lookup_empty in Hid. discriminate.
  - rewrite lookup_insert_ne in Hdir by congruence.
    exact (Hwf name dir id d Hdir Hid).
Qed.

(** C9, as the code has it.  For every epoch and optional [since],
    [list_deltas] returns, sorted ascending and without repetition, the ids
    of exactly the stored deltas of that epoch whose window start, to the
    second, is at or after [since] (all of the epoch's deltas when [since]
    is absent).  The store is one that [put_delta] produced, and the
    datetimes are in range. *)
Theorem list_deltas_filters_by_window_start
    (self : FilesystemStore.t) (epoch : Z) (since : option datetime.t) :
  well_formed self ->
  (forall s, since = Some s -> datetime.in_range s) ->
  Sorted FilesystemStore.str_le (FilesystemStore.list_deltas self epoch since)
  /\ NoDup (FilesystemStore.list_deltas self epoch since)
  /\ forall id,
       id ∈ FilesystemStore.list_deltas self epoch since
       <-> exists delta,
             stored self epoch id delta
             /\ id = FilesystemStore.delta_id_of delta
             /\ LedgerManifest.checkpoint_epoch (DeltaWindow.manifest delta) = epoch
             /\ match since with
                | Some s =>
                    datetime.seconds_key s
                    <= datetime.seconds_key
                         (LedgerManifest.window_start (DeltaWindow.manifest delta))
                | None => True
                end.
Proof.
  intros Hwf Hsince.
  destruct (list_deltas_spec self epoch since) as (Hsorted & Hnodup & Hmem).
  split; [apply StronglySorted_Sorted, Hsorted|]. split; [exact Hnodup|].
  intros id. rewrite Hmem. split.
  - intros [[delta Hstored] Hfilter]. exists delta.
    destruct Hstored as [dir [Hdir Hid]].
    destruct (Hwf _ dir id delta Hdir Hid) as (Hidd & Hname & Hstart & _).
    split; [exists dir; split; assumption|]. split; [exact Hidd|].
    split; [symmetry; apply epoch_dir_name_inj, Hname|].
    destruct since as [s|]; [|exact I].
    rewrite Hidd in Hfilter. apply since_filter in Hfilter; auto.
  - intros [delta (Hstored & Hidd & _ & Hfilter)].
    split; [exists delta; exact Hstored|].
    destruct since as [s|]; [|exact I].
    destruct Hstored as [dir [Hdir Hid]].
    destruct (Hwf _ dir id delta Hdir Hid) as (_ & _ & Hstart & _).
    rewrite Hidd. apply since_filter; auto.
Qed.

Lemma clock_in_range (day hour minute : Z) :
  1 <= day <= 31 -> 0 <= hour < 24 -> 0 <= minute < 60 ->
  datetime.in_range (Fixture.clock day hour minute).
Proof. intros. unfold datetime.in_range. cbn. lia. Qed.

Lemma store_one_delta_well_formed : well_formed Fixture.store_one_delta.
Proof.
  apply well_formed_put_delta; [apply well_formed_empty|..]; apply clock_in_range; lia.
Qed.

(** The theorem at work: asked for the deltas since 09:00, the store holding
    the delta of 10:00 to 11:00 lists it. *)
Lemma list_deltas_filters_by_window_start_witness :
  let delta := Fixture.delta 1 (Fixture.clock 1 10 0) (Fixture.clock 1 11 0) in
  let since := Some (Fixture.clock 1 9 0) in
  Sorted FilesystemStore.str_le (FilesystemStore.list_deltas Fixture.store_one_delta 1 since)
  /\ FilesystemStore.delta_id_of delta
     ∈ FilesystemStore.list_deltas Fixture.store_one_delta 1 since.
Proof.
  intros delta since.
  destruct (list_deltas_filters_by_window_start Fixture.store_one_delta 1 since
              store_one_delta_well_formed) as (Hsorted & _ & Hmem).
  - intros s [= <-]. apply clock_in_range; lia.
  - split; [exact Hsorted|]. apply Hmem. exists delta.
    split; [|split; [reflexivity|split; [reflexivity|]]].
    + exists {[ FilesystemStore.delta_id_of delta := delta ]}.
      split; vm_compute; reflexivity.
    + vm_compute. discriminate.
Defined.

(** C9, as the claim states it, fails: the delta of the window 10:00 to
    11:00 is stored for epoch 1 and its window end is strictly after 10:30,
    yet [list_deltas(1, since=10:30)] is empty. *)
Lemma list_deltas_misses_window_ending_after_since :
  let delta := Fixture.delta 1 (Fixture.clock 1 10 0) (Fixture.clock 1 11 0) in
  let since := Fixture.clock 1 10 30 in
  stored Fixture.store_one_delta 1 (FilesystemStore.delta_id_of delta) delta
  /\ datetime.seconds_key since
     < datetime.seconds_key (LedgerManifest.window_end (DeltaWindow.manifest delta))
  /\ FilesystemStore.list_deltas Fixture.store_one_delta 1 (Some since) = []
  /\ FilesystemStore.list_deltas Fixture.store_one_delta 1 None
     = [ FilesystemStore.delta_id_of delta ].
Proof.
  cbn zeta. split; [|split; [|split]].
  - exists {[ FilesystemStore.delta_id_of
                (Fixture.delta 1 (Fixture.clock 1 10 0) (Fixture.clock 1 11 0))
              := Fixture.delta 1 (Fixture.clock 1 10 0) (Fixture.clock 1 11 0) ]}.
    split; vm_compute; reflexivity.
  - vm_compute. reflexivity.
  - vm_compute. reflexivity.
  - vm_compute. reflexivity.
Qed.

(** What [get_latest_checkpoint] returns, on any directory tree: nothing
    when there is no checkpoint, else the checkpoint whose directory name is
    greatest in the order of [str]. *)
Lemma get_latest_checkpoint_greatest_name (self : FilesystemStore.t) :
  match FilesystemStore.get_latest_checkpoint self with
  | None => FilesystemStore.checkpoints_dir self = ∅
  | Some cp =>
      exists id,
        FilesystemStore.checkpoints_dir self !! id = Some cp
        /\ forall id', is_Some (FilesystemStore.checkpoints_dir self !! id') ->
                       FilesystemStore.str_le id' id
  end.
Proof.
  unfold FilesystemStore.get_latest_checkpoint.
  set (names := FilesystemStore.iterdir (FilesystemStore.checkpoints_dir self)).
  pose proof (sorted_strongly names) as Hsorted.
  assert (Hmem : forall id, id ∈ FilesystemStore.sorted names
                            <-> is_Some (FilesystemStore.checkpoints_dir self !! id)).
  { intros id. rewrite sorted_elem_of. apply iterdir_elem_of. }
  destruct (FilesystemStore.sorted names) as [|x l] using rev_ind.
  - cbn. apply map_empty. intros id.
    destruct (FilesystemStore.checkpoints_dir self !! id) eqn:Hid; [|reflexivity].
    assert (Hin : id ∈ @nil string) by (apply Hmem; eauto). inversion Hin.
  - clear IHl. rewrite reverse_app. cbn.
    assert (Hx : is_Some (FilesystemStore.checkpoints_dir self !! x)).
    { apply Hmem. apply elem_of_app. right. left. }
    destruct Hx as [cp Hcp]. rewrite Hcp. exists x. split; [exact Hcp|].
    intros id' Hid'. apply Hmem in Hid'. apply elem_of_app in Hid' as [Hin|Hin].
    + apply (StronglySorted_app_1_elem_of _ l [x]); [exact Hsorted|exact Hin|left].
    + apply list_elem_of_singleton in Hin as ->.
      unfold FilesystemStore.str_le, String.leb. rewrite string_compare_refl. reflexivity.
Qed.

(** C8 at the failing input: with the checkpoints of epoch 9 and of epoch 10
    both stored (the latter with the later window end),
    [get_latest_checkpoint] returns the checkpoint of epoch 9, as
    ["epoch_9_..."] is after ["epoch_10_..."] in the order of [str]. *)
Theorem latest_checkpoint_epoch_9_beats_10 :
  let cp9 := Fixture.checkpoint 9 (Fixture.clock 1 12 0) in
  let cp10 := Fixture.checkpoint 10 (Fixture.clock 2 12 0) in
  FilesystemStore.checkpoints_dir Fixture.store_9_10 !! FilesystemStore.checkpoint_id cp9
    = Some cp9
  /\ FilesystemStore.checkpoints_dir Fixture.store_9_10 !! FilesystemStore.checkpoint_id cp10
     = Some cp10
  /\ FilesystemStore.get_latest_checkpoint Fixture.store_9_10 = Some cp9
  /\ Py.str_lt (FilesystemStore.checkpoint_id cp10) (FilesystemStore.checkpoint_id cp9) = true.
Proof. cbn zeta. repeat split; vm_compute; reflexivity. Qed.

(** ** The auditor's epoch-change policy *)

Lemma handle_epoch_change_paused (self : Sync.LedgerSync) (cp : CheckpointWindow.t)
    (now : float) :
  record_validated cp -> rate_exceeded self now ->
  (Sync._handle_epoch_change self cp now).1 = self
  /\ Sync.status (Sync._handle_epoch_change self cp now).2 = "paused".
Proof.
  intros Hrec Hrate. unfold Sync._handle_epoch_change.
  destruct (LedgerManifest.recompute_record (CheckpointWindow.manifest cp))
    as [record|] eqn:Hrecord.
  - destruct (Hrec record Hrecord) as [Hdetail _].
    apply String.eqb_neq in Hdetail. rewrite Hdetail.
    destruct (Z.leb_spec (Sync.max_epoch_bumps_per_day self)
                (Z.of_nat (length (Sync.recent 86400 now (Sync.recompute_history self)))))
      as [Hday|Hday]; [split; reflexivity|].
    destruct (Z.leb_spec (Sync.max_epoch_bumps_per_week self)
                (Z.of_nat (length (Sync.recent 604800 now (Sync.recompute_history self)))))
      as [Hweek|Hweek]; [split; reflexivity|].
    destruct Hrate; lia.
  - destruct (Z.leb_spec (Sync.max_epoch_bumps_per_day self)
                (Z.of_nat (length (Sync.recent 86400 now (Sync.recompute_history self)))))
      as [Hday|Hday]; [split; reflexivity|].
    destruct (Z.leb_spec (Sync.max_epoch_bumps_per_week self)
                (Z.of_nat (length (Sync.recent 604800 now (Sync.recompute_history self)))))
      as [Hweek|Hweek]; [split; reflexivity|].
    destruct Hrate; lia.
Qed.

Lemma handle_epoch_change_accepted (self : Sync.LedgerSync) (cp : CheckpointWindow.t)
    (now : float) :
  record_validated cp -> ~ rate_exceeded self now ->
  let self' := (Sync._handle_epoch_change self cp now).1 in
  Sync.status (Sync._handle_epoch_change self cp now).2 = "accepted"
  /\ Sync.epoch self' = LedgerManifest.checkpoint_epoch (CheckpointWindow.manifest cp)
  /\ Sync.accumulator self' = ∅
  /\ Sync.last_delta_id self' = ""
  /\ Sync.last_delta_ts self' = ""
  /\ Sync.recompute_history self'
     = match LedgerManifest.recompute_record (CheckpointWindow.manifest cp) with
       | Some record =>
           (Sync.recompute_history self
            ++ [ Sync.mkEntry
                   (LedgerManifest.checkpoint_epoch (CheckpointWindow.manifest cp)) now
                   (RecomputeRecord.reason_code record)
                   (RecomputeRecord.reason_detail record) ])%list
       | None => Sync.recompute_history self
       end.
Proof.
  intros Hrec Hrate. unfold rate_exceeded in Hrate. cbn zeta.
  unfold Sync._handle_epoch_change.
  assert (Hvalid : match LedgerManifest.recompute_record (CheckpointWindow.manifest cp) with
                   | Some record => String.eqb (RecomputeRecord.reason_detail record) ""
                   | None => false
                   end = false).
  { destruct (LedgerManifest.recompute_record (CheckpointWindow.manifest cp))
      as [record|] eqn:Hrecord; [|reflexivity].
    destruct (Hrec record Hrecord) as [Hdetail _]. apply String.eqb_neq, Hdetail. }
  rewrite Hvalid.
  destruct (Z.leb_spec (Sync.max_epoch_bumps_per_day self)
              (Z.of_nat (length (Sync.recent 86400 now (Sync.recompute_history self)))))
    as [Hday|Hday]; [exfalso; apply Hrate; left; exact Hday|].
  destruct (Z.leb_spec (Sync.max_epoch_bumps_per_week self)
              (Z.of_nat (length (Sync.recent 604800 now (Sync.recompute_history self)))))
    as [Hweek|Hweek]; [exfalso; apply Hrate; right; exact Hweek|].
  cbn. repeat split.
Qed.

Section SyncFacts.
Context `{Isoformat}.

Lemma sync_cycle_paused (self : Sync.LedgerSync) (store : LedgerStore)
    (cp : CheckpointWindow.t) (now : float) :
  store_get_latest_checkpoint store = Some cp ->
  LedgerManifest.checkpoint_epoch (CheckpointWindow.manifest cp) <> Sync.epoch self ->
  record_validated cp -> rate_exceeded self now ->
  Sync.sync_cycle self store now
  = (Sync.set_latest self (Some cp) [], (Some cp, [])).
Proof.
  intros Hcp Hepoch Hrec Hrate. unfold Sync.sync_cycle. rewrite Hcp.
  set (self1 := Sync.set_latest (Sync.set_latest self (Sync.latest_checkpoint self) [])
                  (Some cp) _).
  assert (Hself1 : self1 = Sync.set_latest self (Some cp) []) by reflexivity.
  assert (Hne : negb (LedgerManifest.checkpoint_epoch (CheckpointWindow.manifest cp)
                      =? Sync.epoch self1) = true).
  { apply negb_true_iff, Z.eqb_neq. exact Hepoch. }
  rewrite Hne.
  assert (Hrate1 : rate_exceeded self1 now) by exact Hrate.
  destruct (handle_epoch_change_paused self1 cp now Hrec Hrate1) as [Hself Hstatus].
  destruct (Sync._handle_epoch_change self1 cp now) as [self2 change_result].
  cbn [fst snd] in Hself, Hstatus. subst self2. rewrite Hstatus.
  cbn. rewrite Hself1. reflexivity.
Qed.

(** X30.  The rate policy of epoch changes.  When the auditor processes a
    checkpoint whose epoch differs from its own (a recompute record, if
    present, being one that passed validation): if the recompute history
    has at least
    [max_epoch_bumps_per_day] entries within the last 24 hours or at least
    [max_epoch_bumps_per_week] within the last 7 days, the epoch change is
    "paused", the sync cycle returns the checkpoint with no deltas, applies
    none, and leaves epoch, accumulators, last delta id and timestamp,
    history and state file as they were; otherwise the change is "accepted",
    the epoch is replaced and the accumulators and delta cursor are reset;
    and once no history entry lies within the last 7 days (the limits being
    positive) the change is accepted again. *)
Theorem epoch_change_rate_policy (self : Sync.LedgerSync) (store : LedgerStore)
    (cp : CheckpointWindow.t) (now : float) :
  store_get_latest_checkpoint store = Some cp ->
  LedgerManifest.checkpoint_epoch (CheckpointWindow.manifest cp) <> Sync.epoch self ->
  record_validated cp ->
  (rate_exceeded self now ->
     Sync.status (Sync._handle_epoch_change self cp now).2 = "paused"
     /\ (Sync.sync_cycle self store now).2 = (Some cp, [])
     /\ Sync.latest_deltas (Sync.sync_cycle self store now).1 = []
     /\ same_ledger_state self (Sync.sync_cycle self store now).1)
  /\ (~ rate_exceeded self now ->
        let self' := (Sync._handle_epoch_change self cp now).1 in
        Sync.status (Sync._handle_epoch_change self cp now).2 = "accepted"
        /\ Sync.epoch self' = LedgerManifest.checkpoint_epoch (CheckpointWindow.manifest cp)
        /\ Sync.accumulator self' = ∅
        /\ Sync.last_delta_id self' = "")
  /\ (0 < Sync.max_epoch_bumps_per_day self ->
      0 < Sync.max_epoch_bumps_per_week self ->
      Sync.recent 86400 now (Sync.recompute_history self) = [] ->
      Sync.recent 604800 now (Sync.recompute_history self) = [] ->
      Sync.status (Sync._handle_epoch_change self cp now).2 = "accepted").
Proof.
  intros Hcp Hepoch Hrec. split; [|split].
  - intros Hrate.
    split; [apply handle_epoch_change_paused; assumption|].
    rewrite (sync_cycle_paused self store cp now Hcp Hepoch Hrec Hrate).
    split; [reflexivity|]. split; [reflexivity|]. repeat split.
  - intros Hrate.
    destruct (handle_epoch_change_accepted self cp now Hrec Hrate)
      as (Hs & He & Ha & Hl & _).
    cbn zeta. repeat split; assumption.
  - intros Hday Hweek Hrd Hrw.
    apply handle_epoch_change_accepted; [exact Hrec|].
    unfold rate_exceeded. rewrite Hrd, Hrw. cbn. lia.
Qed.

End SyncFacts.

Lemma signed_checkpoint_validated (epoch : Z) :
  record_validated (Fixture.signed_checkpoint epoch).
Proof. intros r [= <-]. split; discriminate. Qed.

(** The theorem at work on the auditor that accepted a bump at time 1000:
    a checkpoint of epoch 2 arriving at time 2000 is paused and nothing
    changes; arriving at time 700000, more than 7 days later, it is
    accepted. *)
Lemma epoch_change_rate_policy_witness :
  let self := Fixture.auditor_after_bump in
  let cp := Fixture.signed_checkpoint 2 in
  (Sync.status (Sync._handle_epoch_change self cp 2000).2 = "paused"
   /\ (Sync.sync_cycle self (Fixture.serving cp) 2000).2 = (Some cp, [])
   /\ Sync.latest_deltas (Sync.sync_cycle self (Fixture.serving cp) 2000).1 = []
   /\ same_ledger_state self (Sync.sync_cycle self (Fixture.serving cp) 2000).1)
  /\ Sync.status (Sync._handle_epoch_change self cp 700000).2 = "accepted".
Proof.
  intros self cp. split.
  - refine (proj1 (@epoch_change_rate_policy strftime_iso self (Fixture.serving cp) cp
                     2000 eq_refl _ (signed_checkpoint_validated 2)) _).
    + vm_compute. discriminate.
    + left. vm_compute. discriminate.
  - refine (proj2 (proj2 (@epoch_change_rate_policy strftime_iso self (Fixture.serving cp) cp
                            700000 eq_refl _ (signed_checkpoint_validated 2))) _ _ _ _).
    + vm_compute. discriminate.
    + vm_compute. reflexivity.
    + vm_compute. reflexivity.
    + vm_compute. reflexivity.
    + vm_compute. reflexivity.
Defined.

(** The rolling windows on the same auditor with the source's defaults:
    paused one hour after the bump, paused again just inside 24 hours,
    accepted once 24 hours have passed. *)
Example rate_policy_rolls_over :
  let self := Fixture.auditor_after_bump in
  let cp := Fixture.signed_checkpoint 2 in
  Sync.status (Sync._handle_epoch_change self cp 4600).2 = "paused"
  /\ Sync.reason (Sync._handle_epoch_change self cp 4600).2 = "RECOMPUTE_RATE_EXCEEDED_DAILY"
  /\ Sync.status (Sync._handle_epoch_change self cp 87399).2 = "paused"
  /\ Sync.status (Sync._handle_epoch_change self cp 87400).2 = "accepted"
  /\ Sync.epoch (Sync._handle_epoch_change self cp 87400).1 = 2
  /\ length (Sync.recompute_history (Sync._handle_epoch_change self cp 87400).1) = 2%nat.
Proof. cbn zeta. repeat split; vm_compute; reflexivity. Qed.

(** C6.  A paused epoch change does not stop the weights.  On the tick in
    which the epoch change is paused, the sync cycle logs the pause and
    returns early, but it returns the checkpoint; the runtime's cycle, which
    is not told of the pause, verifies that checkpoint and dispatches it to
    the plugins, and the weight plugin computes weights from it.  The claim
    has "no weights are produced that tick", and the test of the policy is
    named [test_epoch_rate_limit_pauses_weights]. *)
Lemma paused_tick_still_produces_weights :
  let self := Fixture.auditor_after_bump in
  let cp := Fixture.signed_checkpoint 2 in
  let verifier := Verifier.mkVerifier "primary_hk" in
  let tick := Runtime._cycle verifier self (Fixture.serving cp) 2000 in
  let context := Runtime.mkContext (Some cp) [] (Sync.accumulator self) in
  Sync.status (Sync._handle_epoch_change self cp 2000).2 = "paused"
  /\ Sync.epoch tick.1 = 1
  /\ tick.2 = Runtime.Dispatched context
  /\ (outputs <$> Runtime.computed_weights context)
     = Some (Some ([0; 1; 2], [65535; 26032; 39504])).
Proof. cbn zeta. repeat split; vm_compute; reflexivity. Qed.

(** * Further properties of the code *)

#[local] Set Warnings "-clear-no-such-hyp".

(** ** Order of the miners *)

(** Ascending by uid, strictly. *)
Lemma insert_by_uid_perm (m : MinerMetrics.t) (l : list MinerMetrics.t) :
  ComputeWeights.insert_by_uid m l ≡ₚ m :: l.
Proof.
  induction l as [|x l IH]; simpl; [done|].
  destruct (MinerMetrics.uid m <=? MinerMetrics.uid x); [done|].
  rewrite IH. apply perm_swap.
Qed.

Lemma sorted_by_uid_perm (l : list MinerMetrics.t) :
  ComputeWeights.sorted_by_uid l ≡ₚ l.
Proof.
  unfold ComputeWeights.sorted_by_uid.
  induction l as [|x l IH]; simpl; [done|].
  rewrite insert_by_uid_perm. by rewrite IH.
Qed.

Lemma insert_by_uid_ascending (m : MinerMetrics.t) (l : list MinerMetrics.t) :
  MinerMetrics.uid m ∉ map MinerMetrics.uid l ->
  StronglySorted (fun a b => MinerMetrics.uid a < MinerMetrics.uid b) l ->
  StronglySorted (fun a b => MinerMetrics.uid a < MinerMetrics.uid b)
    (ComputeWeights.insert_by_uid m l).
Proof.
  induction l as [|x l IH]; simpl; intros Hnot Hs.
  - repeat constructor.
  - apply StronglySorted_inv in Hs as [Hs Hall].
    rewrite not_elem_of_cons in Hnot. destruct Hnot as [Hne Hnot].
    destruct (MinerMetrics.uid m <=? MinerMetrics.uid x) eqn:Hle.
    + apply Z.leb_le in Hle.
      constructor; [by constructor|].
      constructor; [lia|].
      eapply Forall_impl; [exact Hall|]. simpl. intros; lia.
    + apply Z.leb_gt in Hle.
      constructor; [by apply IH|].
      rewrite insert_by_uid_perm. constructor; [lia|done].
Qed.

Lemma sorted_by_uid_ascending (l : list MinerMetrics.t) :
  NoDup (map MinerMetrics.uid l) ->
  StronglySorted (fun a b => MinerMetrics.uid a < MinerMetrics.uid b)
    (ComputeWeights.sorted_by_uid l).
Proof.
  unfold ComputeWeights.sorted_by_uid.
  induction l as [|x l IH]; simpl; intros Hnd; [constructor|].
  apply NoDup_cons in Hnd as [Hnot Hnd].
  apply insert_by_uid_ascending; [|by apply IH].
  fold (ComputeWeights.sorted_by_uid l). by rewrite sorted_by_uid_perm.
Qed.

Lemma sorted_by_uid_of_perm (l1 l2 : list MinerMetrics.t) :
  NoDup (map MinerMetrics.uid l1) -> l1 ≡ₚ l2 ->
  ComputeWeights.sorted_by_uid l1 = ComputeWeights.sorted_by_uid l2.
Proof.
  intros Hnd Hperm.
  apply (StronglySorted_unique_strong
           (fun a b => MinerMetrics.uid a < MinerMetrics.uid b)).
  - intros a b _ _ ??. lia.
  - by apply sorted_by_uid_ascending.
  - apply sorted_by_uid_ascending. by rewrite <- Hperm.
  - by rewrite !sorted_by_uid_perm.
Qed.

Section Order.
Context `{Normalization} `{Numpy}.

(** X1.  The order in which the miners are passed does not matter: when the
    uids are pairwise distinct, [compute_weights] gives the same result,
    audit trail included, on every permutation of [miner_metrics]. *)
Theorem compute_weights_order_irrelevant
    (m1 m2 : list MinerMetrics.t) (scoring_config : ScoringConfigSnapshot.t)
    (chain_params : ChainParamsSnapshot.t) :
  NoDup (map MinerMetrics.uid m1) ->
  m1 ≡ₚ m2 ->
  ComputeWeights.compute_weights m1 scoring_config chain_params
  = ComputeWeights.compute_weights m2 scoring_config chain_params.
Proof.
  intros Hnd Hperm.
  pose proof (sorted_by_uid_of_perm m1 m2 Hnd Hperm) as Hsorted.
  destruct m1 as [|a1 m1], m2 as [|a2 m2].
  - reflexivity.
  - by apply Permutation_nil_cons in Hperm.
  - symmetry in Hperm. by apply Permutation_nil_cons in Hperm.
  - unfold ComputeWeights.compute_weights. by rewrite Hsorted.
Qed.

End Order.

(** ** Shape of the result of [compute_weights] *)

Lemma StronglySorted_sublist {A} (R : relation A) (l1 l2 : list A) :
  l1 `sublist_of` l2 -> StronglySorted R l2 -> StronglySorted R l1.
Proof.
  induction 1 as [|x l1 l2 Hsub IH|x l1 l2 Hsub IH]; intros Hs.
  - constructor.
  - apply StronglySorted_inv in Hs as [Hs Hall].
    constructor; [by apply IH|].
    rewrite Forall_forall in Hall |- *. intros y Hy. apply Hall.
    by apply (sublist_subseteq _ _ Hsub).
  - apply StronglySorted_inv in Hs as [Hs _]. by apply IH.
Qed.

Lemma select_sublist {A} (mask : list bool) (x : list A) :
  ComputeWeights.select mask x `sublist_of` x.
Proof.
  unfold ComputeWeights.select.
  revert x. induction mask as [|b mask IH]; intros [|a x]; simpl;
    try apply sublist_nil_l.
  destruct b; simpl.
  - by apply sublist_skip.
  - by apply sublist_cons.
Qed.

Lemma fst_combine_sublist {A B} (a : list A) (b : list B) :
  (combine a b).*1 `sublist_of` a.
Proof.
  revert b. induction a as [|x a IH]; intros [|y b]; simpl;
    try apply sublist_nil_l.
  by apply sublist_skip.
Qed.

Lemma emit_uint16_spec (pairs : list (Z * float)) (us ws : list Z) :
  ComputeWeights.emit_uint16 pairs = Py.Ok (us, ws) ->
  length us = length ws
  /\ Forall (fun w => w <> 0) ws
  /\ us `sublist_of` pairs.*1.
Proof.
  revert us ws. induction pairs as [|[uid_i w_i] rest IH]; intros us ws; simpl.
  - intros [= <- <-]. repeat split; [constructor|apply sublist_nil_l].
  - destruct (PyNum.round _) as [v|e]; cbn [mbind result_bind Py.bind]; [|discriminate].
    destruct (ComputeWeights.emit_uint16 rest) as [[us' ws']|e];
      cbn [mbind result_bind Py.bind]; [|discriminate].
    destruct (IH us' ws' eq_refl) as (Hlen & Hnz & Hsub).
    destruct (Z.eqb_spec v 0) as [Hv|Hv]; simpl; intros [= <- <-].
    + repeat split; [done|done|by apply sublist_cons].
    + repeat split; [simpl; by rewrite Hlen|by constructor|by apply sublist_skip].
Qed.

Section Shape.
Context `{Normalization} `{Numpy}.

Lemma convert_to_uint16_spec (uids : list Z) (weights : list float) (us ws : list Z) :
  ComputeWeights._convert_to_uint16 uids weights = Py.Ok (us, ws) ->
  length us = length ws
  /\ Forall (fun w => w <> 0) ws
  /\ us `sublist_of` uids.
Proof.
  unfold ComputeWeights._convert_to_uint16.
  destruct (Nat.eqb _ 0).
  { intros [= <- <-]. repeat split; [constructor|apply sublist_nil_l]. }
  destruct (PrimFloat.eqb _ 0).
  { intros [= <- <-]. repeat split; [constructor|apply sublist_nil_l]. }
  intros Hemit. apply emit_uint16_spec in Hemit as (Hlen & Hnz & Hsub).
  repeat split; [done|done|].
  etrans; [exact Hsub|]. etrans; [apply fst_combine_sublist|]. apply select_sublist.
Qed.

Lemma process_for_chain_outputs (result r : ComputeWeights.WeightResult)
    (raw : list float) (chain_params : ChainParamsSnapshot.t) :
  ComputeWeights.process_for_chain result raw chain_params = Py.Ok r ->
  (ComputeWeights.uids r = ComputeWeights.uids result
   /\ ComputeWeights.uint16_weights r = ComputeWeights.uint16_weights result)
  \/ (length (ComputeWeights.uids r) = length (ComputeWeights.uint16_weights r)
      /\ Forall (fun w => w <> 0) (ComputeWeights.uint16_weights r)
      /\ ComputeWeights.uids r
         `sublist_of` map Z.of_nat (seq 0 (Z.to_nat (ChainParamsSnapshot.n_neurons chain_params)))).
Proof.
  unfold ComputeWeights.process_for_chain.
  destruct (Nat.eqb _ 0).
  - intros [= <-]. left. split; reflexivity.
  - destruct (_ <? _); cbn [mbind result_bind Py.bind];
      (destruct (ComputeWeights._convert_to_uint16 _ _) as [[us ws]|e] eqn:Hconv;
       cbn [mbind result_bind Py.bind]; [intros [= <-]|discriminate]);
      apply convert_to_uint16_spec in Hconv as (Hlen & Hnz & Hsub);
      right; cbn; repeat split; try done.
    etrans; [exact Hsub|]. apply select_sublist.
Qed.

(** What a successful run on at least one miner went through. *)
Lemma compute_weights_inv (miner_metrics : list MinerMetrics.t)
    (scoring_config : ScoringConfigSnapshot.t) (chain_params : ChainParamsSnapshot.t)
    (r : ComputeWeights.WeightResult) :
  miner_metrics <> [] ->
  ComputeWeights.compute_weights miner_metrics scoring_config chain_params = Py.Ok r ->
  let n_neurons := ChainParamsSnapshot.n_neurons chain_params in
  let uids := map MinerMetrics.uid (ComputeWeights.sorted_by_uid miner_metrics) in
  exists cfg sc,
    ComputeWeights.read_config scoring_config = Py.Ok cfg
    /\ ComputeWeights.score_miners cfg (ComputeWeights.sorted_by_uid miner_metrics) = Py.Ok sc
    /\ 0 <= n_neurons
    /\ let result := ComputeWeights.record_intermediates ComputeWeights.empty_result uids sc in
       r = result
       \/ exists raw_weights,
            length raw_weights = Z.to_nat n_neurons
            /\ ComputeWeights.process_for_chain result raw_weights chain_params = Py.Ok r.
Proof.
  intros Hne Hrun n_neurons uids.
  unfold ComputeWeights.compute_weights in Hrun.
  destruct miner_metrics as [|m0 rest]; [contradiction|].
  destruct (ComputeWeights.read_config scoring_config) as [cfg|e];
    cbn [mbind result_bind Py.bind] in Hrun; [|discriminate].
  destruct (ComputeWeights.score_miners cfg _) as [sc|e] eqn:Hsc;
    cbn [mbind result_bind Py.bind] in Hrun; [|discriminate].
  fold n_neurons in Hrun. fold uids in Hrun.
  exists cfg, sc. split; [reflexivity|]. split; [exact Hsc|].
  destruct (Z.ltb_spec n_neurons 0) as [Hneg|Hn]; [discriminate|].
  split; [exact Hn|]. cbn zeta.
  assert (Hdense : length (ComputeWeights.dense_scores n_neurons uids
                             (ComputeWeights.skill_score sc)) = Z.to_nat n_neurons).
  { unfold ComputeWeights.dense_scores, ComputeWeights.scatter.
    rewrite length_map.
    generalize (combine uids (ComputeWeights.skill_score sc)).
    intros rows.
    assert (Hgen : forall acc : list float,
              length (fold_left
                (fun (scores : list float) (row : Z * float) =>
                   let '(uid, s) := row in
                   if ComputeWeights.in_range uid n_neurons
                   then <[Z.to_nat uid := F32.round32 s]> scores else scores)
                rows acc) = length acc).
    { induction rows as [|[u s] rows IH]; intros acc; simpl; [done|].
      rewrite IH. destruct (ComputeWeights.in_range u n_neurons);
        [apply length_insert|done]. }
    rewrite Hgen. apply length_replicate. }
  destruct (ComputeWeights.all_zero _).
  - destruct (ChainParamsSnapshot.burn_uid chain_params) as [burn_uid|].
    + destruct (ComputeWeights.in_range burn_uid n_neurons).
      * right. eexists. split; [|exact Hrun].
        unfold ComputeWeights.one_hot. rewrite length_insert. apply length_replicate.
      * left. by injection Hrun as <-.
    + left. by injection Hrun as <-.
  - right. eexists. split; [|exact Hrun].
    destruct (ChainParamsSnapshot.burn_uid chain_params) as [burn_uid|];
      [destruct (_ && _)|]; rewrite ?length_insert, !length_map; exact Hdense.
Qed.

Lemma all_uids_ascending (n : nat) (k : nat) :
  StronglySorted Z.lt (map Z.of_nat (seq k n)).
Proof.
  revert k. induction n as [|n IH]; intros k; simpl; constructor; [apply IH|].
  rewrite Forall_forall. intros x Hx.
  apply list_elem_of_fmap in Hx as (i & -> & Hi).
  apply elem_of_seq in Hi. lia.
Qed.

End Shape.

Section Output.
Context `{Normalization} `{Numpy}.

(** X2.  A run on at least one miner that returns emits a well-formed weight
    vector: as many weights as uids, no zero weight, and the uids strictly
    ascending within [0, n_neurons). *)
Theorem compute_weights_output_well_formed
    (miner_metrics : list MinerMetrics.t) (scoring_config : ScoringConfigSnapshot.t)
    (chain_params : ChainParamsSnapshot.t) (r : ComputeWeights.WeightResult) :
  miner_metrics <> [] ->
  ComputeWeights.compute_weights miner_metrics scoring_config chain_params = Py.Ok r ->
  length (ComputeWeights.uids r) = length (ComputeWeights.uint16_weights r)
  /\ Forall (fun w => w <> 0) (ComputeWeights.uint16_weights r)
  /\ StronglySorted Z.lt (ComputeWeights.uids r)
  /\ Forall (fun uid => 0 <= uid < ChainParamsSnapshot.n_neurons chain_params)
            (ComputeWeights.uids r).
Proof.
  intros Hne Hrun.
  destruct (compute_weights_inv _ _ _ _ Hne Hrun) as (cfg & sc & _ & _ & Hn & Hcase).
  cbn zeta in Hcase.
  set (uids := map MinerMetrics.uid (ComputeWeights.sorted_by_uid miner_metrics)) in *.
  destruct (record_intermediates_outputs ComputeWeights.empty_result uids sc) as [Hu Hw].
  assert (Hempty : forall r0 : ComputeWeights.WeightResult,
            ComputeWeights.uids r0 = [] -> ComputeWeights.uint16_weights r0 = [] ->
            length (ComputeWeights.uids r0) = length (ComputeWeights.uint16_weights r0)
            /\ Forall (fun w => w <> 0) (ComputeWeights.uint16_weights r0)
            /\ StronglySorted Z.lt (ComputeWeights.uids r0)
            /\ Forall (fun uid => 0 <= uid < ChainParamsSnapshot.n_neurons chain_params)
                      (ComputeWeights.uids r0)).
  { intros r0 -> ->. repeat split; constructor. }
  destruct Hcase as [->|(raw & _ & Hproc)]; [by apply Hempty|].
  apply process_for_chain_outputs in Hproc as [[Hu' Hw']|(Hlen & Hnz & Hsub)].
  - apply Hempty; [rewrite Hu'; exact Hu|rewrite Hw'; exact Hw].
  - repeat split; [done|done|..].
    + eapply StronglySorted_sublist; [exact Hsub|apply all_uids_ascending].
    + rewrite Forall_forall. intros uid Huid.
      apply (sublist_subseteq _ _ Hsub) in Huid.
      apply list_elem_of_fmap in Huid as (i & -> & Hi).
      apply elem_of_seq in Hi. lia.
Qed.

End Output.

(** ** The audit trail *)

Lemma fst_combine_le {A B} (a : list A) (b : list B) :
  (length a <= length b)%nat -> (combine a b).*1 = a.
Proof.
  revert b. induction a as [|x a IH]; intros [|y b] Hlen; simpl in *;
    [done|done|lia|]. f_equal. apply IH. lia.
Qed.

Section Trail.
Context `{Normalization} `{Numpy}.

Lemma score_miners_lengths (cfg : ComputeWeights.Config)
    (sorted_metrics : list MinerMetrics.t) (sc : ComputeWeights.Scores) :
  ComputeWeights.score_miners cfg sorted_metrics = Py.Ok sc ->
  length (ComputeWeights.forecast_dim sc) = length sorted_metrics
  /\ length (ComputeWeights.skill_dim sc) = length sorted_metrics
  /\ length (ComputeWeights.econ_dim sc) = length sorted_metrics
  /\ length (ComputeWeights.info_dim sc) = length sorted_metrics
  /\ length (ComputeWeights.skill_score sc) = length sorted_metrics.
Proof.
  unfold ComputeWeights.score_miners.
  destruct (Nat.eqb_spec
              (length (if ComputeWeights.min_count cfg <=? Z.of_nat (length sorted_metrics)
                       then normalize_zscore_logistic (map MinerMetrics.pss_mean sorted_metrics)
                       else normalize_percentile (map MinerMetrics.pss_mean sorted_metrics)))
              (length sorted_metrics)) as [Hp|Hp]; simpl; [|discriminate].
  destruct (Nat.eqb_spec
              (length (if ComputeWeights.min_count cfg <=? Z.of_nat (length sorted_metrics)
                       then normalize_zscore_logistic (map MinerMetrics.es_adj sorted_metrics)
                       else normalize_percentile (map MinerMetrics.es_adj sorted_metrics)))
              (length sorted_metrics)) as [He|He]; simpl; [|discriminate].
  intros [= <-]. cbn.
  unfold ComputeWeights.lin2.
  rewrite !length_zip_with, !length_combine, !length_zip_with, !length_map, Hp, He.
  repeat split; lia.
Qed.

Lemma record_intermediates_dom (result : ComputeWeights.WeightResult) (uids : list Z)
    (sc : ComputeWeights.Scores) :
  (length uids <= length (ComputeWeights.skill_score sc))%nat ->
  (length uids <= length (ComputeWeights.forecast_dim sc))%nat ->
  (length uids <= length (ComputeWeights.skill_dim sc))%nat ->
  (length uids <= length (ComputeWeights.econ_dim sc))%nat ->
  (length uids <= length (ComputeWeights.info_dim sc))%nat ->
  let result' := ComputeWeights.record_intermediates result uids sc in
  dom (ComputeWeights.skill_scores result')
  = dom (ComputeWeights.skill_scores result) ∪ list_to_set uids
  /\ dom (ComputeWeights.dimension_scores result')
     = dom (ComputeWeights.dimension_scores result) ∪ list_to_set uids
  /\ ComputeWeights.raw_weights result' = ComputeWeights.raw_weights result.
Proof.
  intros H1 H2 H3 H4 H5. cbn zeta. unfold ComputeWeights.record_intermediates.
  set (rows := combine uids _).
  assert (Hrows : rows.*1 = uids).
  { apply fst_combine_le.
    rewrite !length_combine. lia. }
  rewrite <- Hrows. clear Hrows. generalize rows. clear.
  intros rows. revert result.
  induction rows as [|[uid [s [[[f k] e] i]]] rows IH]; intros result; simpl.
  - repeat split; set_solver.
  - destruct (IH (ComputeWeights.mkWeightResult (ComputeWeights.uids result)
                    (ComputeWeights.uint16_weights result)
                    (<[uid := s]> (ComputeWeights.skill_scores result))
                    (ComputeWeights.raw_weights result)
                    (<[uid := {[ "forecast_dim" := f; "skill_dim" := k;
                                 "econ_dim" := e; "info_dim" := i ]}]>
                       (ComputeWeights.dimension_scores result))))
      as (Hs & Hd & Hr).
    rewrite Hs, Hd, Hr. cbn. rewrite !dom_insert_L. repeat split; set_solver.
Qed.

(** X3.  The audit trail of a run on at least one miner: [skill_scores] and
    [dimension_scores] have an entry for every miner passed in, and for no
    other uid, whether or not the uid lies within the metagraph;
    [raw_weights] only holds positive weights, under uids within
    [0, n_neurons). *)
Theorem compute_weights_audit_trail
    (miner_metrics : list MinerMetrics.t) (scoring_config : ScoringConfigSnapshot.t)
    (chain_params : ChainParamsSnapshot.t) (r : ComputeWeights.WeightResult) :
  miner_metrics <> [] ->
  ComputeWeights.compute_weights miner_metrics scoring_config chain_params = Py.Ok r ->
  dom (ComputeWeights.skill_scores r) = list_to_set (map MinerMetrics.uid miner_metrics)
  /\ dom (ComputeWeights.dimension_scores r)
     = list_to_set (map MinerMetrics.uid miner_metrics)
  /\ forall (uid : Z) (w : float),
       ComputeWeights.raw_weights r !! uid = Some w ->
       0 <= uid < ChainParamsSnapshot.n_neurons chain_params /\ (0 <? w)%float = true.
Proof.
  intros Hne Hrun.
  destruct (compute_weights_inv _ _ _ _ Hne Hrun) as (cfg & sc & _ & Hsc & Hn & Hcase).
  cbn zeta in Hcase.
  set (uids := map MinerMetrics.uid (ComputeWeights.sorted_by_uid miner_metrics)) in *.
  destruct (score_miners_lengths _ _ _ Hsc) as (Hf & Hk & He & Hi & Hs).
  assert (Hlen : length uids = length (ComputeWeights.sorted_by_uid miner_metrics)).
  { unfold uids. apply length_map. }
  destruct (record_intermediates_dom ComputeWeights.empty_result uids sc)
    as (Hds & Hdd & Hraw); try lia.
  assert (Huids : list_to_set uids =@{gset Z} list_to_set (map MinerMetrics.uid miner_metrics)).
  { apply set_eq. intros x. rewrite !elem_of_list_to_set. unfold uids.
    by rewrite sorted_by_uid_perm. }
  cbn in Hds, Hdd, Hraw.
  rewrite dom_empty_L, (left_id_L ∅ (∪)) in Hds.
  rewrite dom_empty_L, (left_id_L ∅ (∪)) in Hdd.
  destruct Hcase as [->|(raw & Hlraw & Hproc)].
  - rewrite Hds, Hdd, Hraw, Huids. split; [done|]. split; [done|].
    intros uid w Hlook. by rewrite lookup_empty in Hlook.
  - apply process_for_chain_raw_weights in Hproc as (Hrw & Hss & Hdds).
    rewrite Hss, Hdds, Hds, Hdd, Huids. split; [done|]. split; [done|].
    intros uid w. rewrite Hrw, record_raw_weights_lookup.
    destruct (Z.leb_spec 0 uid) as [Hpos|]; [|discriminate].
    destruct (raw !! Z.to_nat uid) as [w'|] eqn:Hlook; [|discriminate].
    apply lookup_lt_Some in Hlook.
    destruct (0 <? w')%float eqn:Hw; [|discriminate].
    intros [= <-]. split; [lia|done].
Qed.

End Trail.

(** ** Burn allocation on a non-zero score vector *)

Section Burn.
Context `{Normalization} `{Numpy}.

(** X4.  Steps 4 and 5 on a score vector whose L1 norm is neither zero nor
    NaN, with a burn uid within the metagraph and a positive burn rate: the
    burn uid is given the burn rate itself, whatever its own score was, and
    every other uid its share [score / norm] scaled by [1 - burn_rate], all
    in binary32; [raw_weights] records the positive ones. *)
Theorem burn_rate_overrides_burn_uid
    (miner_metrics : list MinerMetrics.t) (scoring_config : ScoringConfigSnapshot.t)
    (chain_params : ChainParamsSnapshot.t)
    (cfg : ComputeWeights.Config) (sc : ComputeWeights.Scores)
    (burn_uid : Z) (r : ComputeWeights.WeightResult) :
  let n_neurons := ChainParamsSnapshot.n_neurons chain_params in
  let uids := map MinerMetrics.uid (ComputeWeights.sorted_by_uid miner_metrics) in
  let scores := ComputeWeights.dense_scores n_neurons uids (ComputeWeights.skill_score sc) in
  let norm := ComputeWeights.l1_norm scores in
  let burn_rate := ComputeWeights.burn_rate cfg in
  miner_metrics <> [] ->
  ComputeWeights.read_config scoring_config = Py.Ok cfg ->
  ComputeWeights.score_miners cfg (ComputeWeights.sorted_by_uid miner_metrics) = Py.Ok sc ->
  ComputeWeights.all_zero norm = false ->
  ChainParamsSnapshot.burn_uid chain_params = Some burn_uid ->
  ComputeWeights.in_range burn_uid n_neurons = true ->
  (0 <? burn_rate)%float = true ->
  ComputeWeights.compute_weights miner_metrics scoring_config chain_params = Py.Ok r ->
  forall (uid : Z) (score : float),
    0 <= uid -> scores !! Z.to_nat uid = Some score ->
    ComputeWeights.raw_weights r !! uid
    = let w := if uid =? burn_uid then F32.round32 burn_rate
               else F32.mul (F32.div score norm) (F32.round32 (1 - burn_rate)%float) in
      if (0 <? w)%float then Some w else None.
Proof.
  intros n_neurons uids scores norm burn_rate Hne Hcfg Hsc Hnorm Hburn Hin Hrate Hrun
         uid score Huid Hscore.
  unfold ComputeWeights.compute_weights in Hrun.
  destruct miner_metrics as [|m0 rest]; [contradiction|].
  rewrite Hcfg in Hrun. cbn [mbind result_bind Py.bind] in Hrun.
  rewrite Hsc in Hrun. cbn [mbind result_bind Py.bind] in Hrun.
  fold n_neurons in Hrun. fold uids in Hrun. fold scores in Hrun. fold norm in Hrun.
  destruct (Z.ltb_spec n_neurons 0) as [Hneg|_]; [discriminate|].
  rewrite Hnorm, Hburn in Hrun. fold burn_rate in Hrun.
  rewrite Hrate in Hrun.
  rewrite Hin in Hrun. cbn [andb] in Hrun.
  apply process_for_chain_raw_weights in Hrun as (Hraw & _ & _).
  rewrite Hraw, record_raw_weights_lookup.
  destruct (Z.leb_spec 0 uid) as [_|]; [|lia].
  apply andb_true_iff in Hin as [Hlo Hhi].
  apply Z.leb_le in Hlo.
  cbn zeta.
  destruct (Z.eqb_spec uid burn_uid) as [->|Hneq].
  - rewrite list_lookup_insert_eq; [reflexivity|].
    rewrite !length_map. by apply lookup_lt_Some in Hscore.
  - rewrite list_lookup_insert_ne by lia.
    rewrite !list_lookup_fmap, Hscore. reflexivity.
Qed.

End Burn.

(** ** Reading the configuration *)

Section Config.
Context `{Normalization} `{Numpy}.

(** X5.  A scoring configuration that has none of the four sections is read
    as the defaults written in the source, and the run proceeds with them. *)
Theorem read_config_defaults (params : list (string * json)) :
  (forall key, key ∈ config_sections -> dict_get key params = None) ->
  ComputeWeights.read_config (ScoringConfigSnapshot.mk params) = Py.Ok config_defaults.
Proof.
  intros Hnone. unfold ComputeWeights.read_config, ComputeWeights.get_section.
  cbn [ScoringConfigSnapshot.params].
  rewrite !Hnone by (unfold config_sections; set_solver).
  reflexivity.
Qed.

Lemma get_float_malformed (v : json) (key : string) (default : float) :
  (forall fields, v <> JObj fields) ->
  ComputeWeights.get_float v key default = Py.Raise Py.AttributeError.
Proof. intros Hv. destruct v; try reflexivity. by destruct (Hv fields). Qed.

Lemma get_int_malformed (v : json) (key : string) (default : Z) :
  (forall fields, v <> JObj fields) ->
  ComputeWeights.get_int v key default = Py.Raise Py.AttributeError.
Proof. intros Hv. destruct v; try reflexivity. by destruct (Hv fields). Qed.

Lemma read_config_malformed (params : list (string * json)) (key : string) :
  key ∈ config_sections -> malformed_section params key ->
  Py.is_ok (ComputeWeights.read_config (ScoringConfigSnapshot.mk params)) = false.
Proof.
  intros Hkey (v & Hget & Hv).
  unfold ComputeWeights.read_config, ComputeWeights.get_section.
  cbn [ScoringConfigSnapshot.params].
  unfold config_sections in Hkey.
  repeat (apply elem_of_cons in Hkey as [->|Hkey]); [..|by apply elem_of_nil in Hkey];
    rewrite Hget;
    repeat first
      [ rewrite (get_float_malformed v) by exact Hv; reflexivity
      | rewrite (get_int_malformed v) by exact Hv; reflexivity
      | match goal with
        | |- context [ComputeWeights.get_float ?d ?k ?x ≫= _] =>
            destruct (ComputeWeights.get_float d k x); cbn [mbind result_bind Py.bind];
            [|reflexivity]
        | |- context [ComputeWeights.get_int ?d ?k ?x ≫= _] =>
            destruct (ComputeWeights.get_int d k x); cbn [mbind result_bind Py.bind];
            [|reflexivity]
        end ].
Qed.

(** X6.  A section of the scoring configuration that is present but is not a
    dictionary makes [compute_weights] raise as soon as there is a miner to
    score; with no miner the configuration is not read and the run returns. *)
Theorem compute_weights_malformed_config
    (miner_metrics : list MinerMetrics.t) (params : list (string * json))
    (chain_params : ChainParamsSnapshot.t) (key : string) :
  key ∈ config_sections -> malformed_section params key ->
  Py.is_ok (ComputeWeights.compute_weights miner_metrics
              (ScoringConfigSnapshot.mk params) chain_params)
  = match miner_metrics with [] => true | _ :: _ => false end.
Proof.
  intros Hkey Hbad. unfold ComputeWeights.compute_weights.
  destruct miner_metrics as [|m0 rest].
  - by destruct (ChainParamsSnapshot.burn_uid chain_params).
  - pose proof (read_config_malformed params key Hkey Hbad) as Hcfg.
    destruct (ComputeWeights.read_config _); [discriminate|reflexivity].
Qed.

End Config.

(** ** Redaction composes *)

Lemma redact_lookup {V : Type} (row : gmap string (option V)) (allowlist : gset string)
    (k : string) (v : option V) :
  Redaction.redact row allowlist !! k = Some v
  <-> row !! k = Some v /\ k ∈ allowlist /\ is_Some v.
Proof. unfold Redaction.redact. rewrite map_lookup_filter_Some. cbn. tauto. Qed.

(** X7.  Redacting a redacted row keeps what both allow-lists permit: it is
    redaction by the intersection.  So [redact] is idempotent, the order of
    two redactions does not matter, and a field once dropped never comes
    back. *)
Theorem redact_composes {V : Type} (row : gmap string (option V)) (a b : gset string) :
  Redaction.redact (Redaction.redact row a) b = Redaction.redact row (a ∩ b)
  /\ Redaction.redact (Redaction.redact row a) a = Redaction.redact row a
  /\ Redaction.redact (Redaction.redact row a) b
     = Redaction.redact (Redaction.redact row b) a.
Proof.
  assert (Hcomp : forall (a b : gset string),
            Redaction.redact (Redaction.redact row a) b = Redaction.redact row (a ∩ b)).
  { intros a' b'. apply map_eq. intros k. apply option_eq. intros v.
    rewrite !redact_lookup, elem_of_intersection. tauto. }
  split; [apply Hcomp|]. split.
  - rewrite Hcomp. f_equal. set_solver.
  - rewrite !Hcomp. f_equal. set_solver.
Qed.

(** ** Classification agrees with the lists *)

Lemma tier2_union :
  ⋃ Redaction.tier2_allowlists
  = Redaction.SAFE_ROLLING_SCORE_FIELDS ∪ Redaction.SAFE_OUTCOME_FIELDS
    ∪ Redaction.SAFE_MINER_FIELDS ∪ Redaction.SAFE_SETTLED_SUBMISSION_FIELDS
    ∪ Redaction.SAFE_ACCUMULATOR_FIELDS.
Proof. unfold Redaction.tier2_allowlists. cbn. set_solver. Qed.

(** X8.  [classify_field] agrees with the lists: a field is [PRIMARY_ONLY]
    exactly when it is on the Tier-3 deny-list, every field of every Tier-2
    allow-list is [VALIDATOR_GATED] (the deny-list check, which comes first,
    shadows none of them), and [contains_tier3] finds exactly the rows that
    have a [PRIMARY_ONLY] key. *)
Theorem classify_field_agrees :
  (forall field_name,
     Redaction.classify_field field_name = Redaction.PRIMARY_ONLY
     <-> field_name ∈ Redaction.TIER3_FIELD_PATTERNS)
  /\ (forall allowlist field_name,
        allowlist ∈ Redaction.tier2_allowlists -> field_name ∈ allowlist ->
        Redaction.classify_field field_name = Redaction.VALIDATOR_GATED)
  /\ (forall (V : Type) (row : gmap string (option V)),
        Redaction.contains_tier3 row = true
        <-> exists k, is_Some (row !! k)
                      /\ Redaction.classify_field k = Redaction.PRIMARY_ONLY).
Proof.
  assert (Hprimary : forall field_name,
            Redaction.classify_field field_name = Redaction.PRIMARY_ONLY
            <-> field_name ∈ Redaction.TIER3_FIELD_PATTERNS).
  { intros f. unfold Redaction.classify_field.
    destruct (bool_decide_reflect (f ∈ Redaction.TIER3_FIELD_PATTERNS)) as [Hin|Hout].
    - tauto.
    - split; [|contradiction]. by destruct (bool_decide _). }
  split; [exact Hprimary|]. split.
  - intros allowlist f Hlist Hf.
    assert (Hunion : f ∈ ⋃ Redaction.tier2_allowlists).
    { apply elem_of_union_list. eauto. }
    assert (Hnot3 : f ∉ Redaction.TIER3_FIELD_PATTERNS).
    { intros H3.
      pose proof (proj2 (elem_of_intersection _ _ _) (conj H3 Hunion)) as Hboth.
      rewrite tier3_disjoint_from_tier2 in Hboth. exact (proj1 (elem_of_empty _) Hboth). }
    rewrite tier2_union in Hunion.
    unfold Redaction.classify_field.
    rewrite (bool_decide_eq_false_2 _ Hnot3).
    by rewrite (bool_decide_eq_true_2 _ Hunion).
  - intros V row. unfold Redaction.contains_tier3.
    rewrite bool_decide_eq_true. setoid_rewrite Hprimary. split.
    + intros Hne. apply set_choose_L in Hne as [k Hk].
      apply elem_of_intersection in Hk as [Hdom H3].
      exists k. split; [by apply elem_of_dom|done].
    + intros (k & Hk & H3) Hempty.
      apply elem_of_dom in Hk.
      pose proof (proj2 (elem_of_intersection _ _ _) (conj Hk H3)) as Hboth.
      rewrite Hempty in Hboth. exact (proj1 (elem_of_empty _) Hboth).
Qed.

(** ** Deriving the means twice *)

Lemma from_accumulator_settles (acc : AccumulatorEntry.t) :
  MinerMetrics.from_accumulator (MinerMetrics.from_accumulator acc).1
  = MinerMetrics.from_accumulator acc.
Proof. destruct acc. reflexivity. Qed.

Lemma map_from_accumulator_settles (l : list AccumulatorEntry.t) :
  map MinerMetrics.from_accumulator (map MinerMetrics.from_accumulator l).*1
  = map MinerMetrics.from_accumulator l.
Proof.
  induction l as [|acc l IH]; [reflexivity|].
  cbn [map fmap list_fmap]. rewrite from_accumulator_settles. f_equal. exact IH.
Qed.

Lemma map_from_accumulator_entries (l : list AccumulatorEntry.t) :
  (map MinerMetrics.from_accumulator l).*1 = map AccumulatorEntry.derive_means l.
Proof. induction l as [|acc l IH]; [reflexivity|]. cbn. f_equal. exact IH. Qed.

(** X9.  [get_miner_metrics] changes one thing: the accumulator entries of
    the checkpoint that the auditor holds are left with their means derived
    anew.  The manifest, the roster, the scoring configuration and the chain
    parameters of that checkpoint, the deltas held and every other
    attribute of the auditor are as before.  It returns one metrics record
    per accumulator entry, and the update happens once: a second call
    returns the same metrics and changes nothing further. *)
Theorem get_miner_metrics_settles (self : Sync.LedgerSync) :
  let first := Sync.get_miner_metrics self in
  let derived (cp : CheckpointWindow.t) :=
    CheckpointWindow.mk (CheckpointWindow.manifest cp) (CheckpointWindow.roster cp)
      (map AccumulatorEntry.derive_means (CheckpointWindow.accumulators cp))
      (CheckpointWindow.scoring_config cp) (CheckpointWindow.chain_params cp) in
  Sync.get_miner_metrics first.1 = first
  /\ first.1
     = Sync.mk (Sync.max_epoch_bumps_per_day self) (Sync.max_epoch_bumps_per_week self)
         (Sync.epoch self) (Sync.last_delta_id self) (Sync.last_delta_ts self)
         (Sync.accumulator self) (Sync.recompute_history self)
         (derived <$> Sync.latest_checkpoint self)
         (Sync.latest_deltas self) (Sync.state_file self)
  /\ first.2
     = match Sync.latest_checkpoint self with
       | Some cp =>
           (map MinerMetrics.from_accumulator (CheckpointWindow.accumulators cp)).*2
       | None => []
       end
  /\ same_ledger_state self first.1
  /\ length first.2
     = match Sync.latest_checkpoint self with
       | Some cp => length (CheckpointWindow.accumulators cp)
       | None => 0%nat
       end.
Proof.
  cbn zeta. unfold Sync.get_miner_metrics.
  destruct (Sync.latest_checkpoint self) as [cp|] eqn:Hcp.
  - cbn [fst snd Sync.latest_checkpoint Sync.set_latest CheckpointWindow.accumulators
         CheckpointWindow.manifest CheckpointWindow.roster CheckpointWindow.scoring_config
         CheckpointWindow.chain_params Sync.latest_deltas].
    rewrite map_from_accumulator_settles.
    split; [reflexivity|].
    split; [unfold Sync.set_latest; by rewrite map_from_accumulator_entries|].
    split; [reflexivity|]. split; [repeat split|].
    by rewrite length_fmap, length_map.
  - cbn [fst snd]. rewrite Hcp.
    split; [reflexivity|]. split; [destruct self; cbn in *; by subst|]. repeat split.
Qed.

(** ** Splitting directory names *)

Lemma no_underscore_app (a b : string) :
  no_underscore (a ++ b) = no_underscore a && no_underscore b.
Proof.
  induction a as [|c a IH]; [by rewrite append_nil_l|].
  rewrite append_cons. cbn [no_underscore]. rewrite IH. by rewrite andb_assoc.
Qed.

Lemma split_underscore_plain (maxsplit : option nat) (s : string) :
  no_underscore s = true -> FilesystemStore.split_underscore maxsplit s = [ s ].
Proof.
  induction s as [|c s IH]; [reflexivity|].
  cbn [no_underscore FilesystemStore.split_underscore].
  intros [Hc Hs]%andb_true_iff. apply negb_true_iff in Hc. rewrite Hc.
  cbn [andb]. by rewrite (IH Hs).
Qed.

Lemma split_underscore_exhausted (s : string) :
  FilesystemStore.split_underscore (Some 0%nat) s = [ s ].
Proof.
  induction s as [|c s IH]; [reflexivity|].
  cbn [FilesystemStore.split_underscore]. rewrite andb_false_r. by rewrite IH.
Qed.

Lemma split_underscore_sep (maxsplit : option nat) (a b : string) :
  no_underscore a = true -> maxsplit <> Some 0%nat ->
  FilesystemStore.split_underscore maxsplit (a ++ String "_" b)
  = a :: FilesystemStore.split_underscore (Nat.pred <$> maxsplit) b.
Proof.
  intros Ha Hmax. induction a as [|c a IH].
  - rewrite append_nil_l. cbn [FilesystemStore.split_underscore].
    change (Ascii.eqb "_" "_") with true.
    destruct maxsplit as [[|k]|]; [congruence|reflexivity|reflexivity].
  - rewrite append_cons. cbn [FilesystemStore.split_underscore].
    cbn [no_underscore] in Ha. apply andb_true_iff in Ha as [Hc Ha].
    apply negb_true_iff in Hc. rewrite Hc. cbn [andb].
    by rewrite (IH Ha).
Qed.

Lemma pretty_N_char_no_underscore (x : N) :
  Ascii.eqb (pretty_N_char x) "_" = false.
Proof. unfold pretty_N_char. by repeat case_match. Qed.

Lemma pretty_N_go_no_underscore (x : N) (s : string) :
  no_underscore s = true -> no_underscore (pretty_N_go x s) = true.
Proof.
  revert s. induction (N.lt_wf_0 x) as [x _ IH]. intros s Hs.
  destruct (decide (x = 0)%N) as [->|Hx].
  - by rewrite pretty_N_go_0.
  - rewrite pretty_N_go_step by lia. apply IH.
    + apply N.div_lt; lia.
    + cbn [no_underscore]. by rewrite pretty_N_char_no_underscore, Hs.
Qed.

Lemma str_of_int_no_underscore (n : Z) : no_underscore (Py.str_of_int n) = true.
Proof.
  unfold Py.str_of_int, pretty, pretty_Z.
  assert (HN : forall x : N, no_underscore (pretty x) = true).
  { intros x. unfold pretty, pretty_N. case_decide; [reflexivity|].
    by apply pretty_N_go_no_underscore. }
  destruct n as [|p|p]; [reflexivity|apply HN|].
  change (no_underscore (String "-" (pretty (N.pos p))) = true).
  cbn [no_underscore]. apply HN.
Qed.

Lemma digit_no_underscore (n : Z) : Ascii.eqb (datetime.digit n) "_" = false.
Proof.
  unfold datetime.digit.
  assert (Hm : 0 <= n mod 10 < 10) by (apply Z.mod_pos_bound; lia).
  assert (Hc : n mod 10 = 0 \/ n mod 10 = 1 \/ n mod 10 = 2 \/ n mod 10 = 3
               \/ n mod 10 = 4 \/ n mod 10 = 5 \/ n mod 10 = 6 \/ n mod 10 = 7
               \/ n mod 10 = 8 \/ n mod 10 = 9) by lia.
  repeat destruct Hc as [->|Hc]; try rewrite Hc; reflexivity.
Qed.

Lemma strftime_no_underscore (dt : datetime.t) :
  no_underscore (datetime.strftime dt) = true.
Proof.
  unfold datetime.strftime, datetime.pad4, datetime.pad2.
  rewrite ?no_underscore_app. cbn [no_underscore].
  rewrite !digit_no_underscore. reflexivity.
Qed.

(** ** What [_prune] removes *)

Lemma strftime_lt (a b : datetime.t) :
  datetime.in_range a -> datetime.in_range b ->
  Py.str_lt (datetime.strftime a) (datetime.strftime b)
  = (datetime.seconds_key a <? datetime.seconds_key b).
Proof.
  intros Ha Hb. unfold Py.str_lt, String.ltb.
  rewrite <- (append_nil_r (datetime.strftime b)).
  rewrite strftime_compare_prefix by assumption.
  change (String.compare "" "") with Eq.
  destruct (Z.compare_spec (datetime.seconds_key a) (datetime.seconds_key b));
    cbn [lexc]; symmetry; [apply Z.ltb_ge|apply Z.ltb_lt|apply Z.ltb_ge]; lia.
Qed.

Lemma checkpoint_expired_by_window_end (cutoff : datetime.t) (cp : CheckpointWindow.t) :
  datetime.in_range cutoff ->
  datetime.in_range (LedgerManifest.window_end (CheckpointWindow.manifest cp)) ->
  FilesystemStore.checkpoint_expired (datetime.strftime cutoff)
    (FilesystemStore.checkpoint_id cp)
  = (datetime.seconds_key (LedgerManifest.window_end (CheckpointWindow.manifest cp))
     <? datetime.seconds_key cutoff).
Proof.
  intros Hcut Hend.
  unfold FilesystemStore.checkpoint_expired, FilesystemStore.checkpoint_id.
  change ("epoch_" ++ ?s) with ("epoch" ++ String "_" s).
  rewrite split_underscore_sep by (reflexivity || discriminate).
  cbn [fmap option_fmap option_map Nat.pred].
  change ("_" ++ ?s) with (String "_" s).
  rewrite split_underscore_sep
    by (apply str_of_int_no_underscore || discriminate).
  cbn [fmap option_fmap option_map Nat.pred].
  rewrite split_underscore_exhausted. cbn [length nth Nat.leb andb].
  by apply strftime_lt.
Qed.

Lemma delta_expired_by_window_start (cutoff : datetime.t) (delta : DeltaWindow.t) :
  datetime.in_range cutoff ->
  datetime.in_range (LedgerManifest.window_start (DeltaWindow.manifest delta)) ->
  FilesystemStore.delta_expired (datetime.strftime cutoff)
    (FilesystemStore.delta_id_of delta)
  = (datetime.seconds_key (LedgerManifest.window_start (DeltaWindow.manifest delta))
     <? datetime.seconds_key cutoff).
Proof.
  intros Hcut Hstart.
  unfold FilesystemStore.delta_expired, FilesystemStore.delta_id_of.
  change ("d_" ++ ?s) with ("d" ++ String "_" s).
  rewrite split_underscore_sep by (reflexivity || discriminate).
  cbn [fmap option_fmap option_map].
  change ("_" ++ ?s) with (String "_" s).
  rewrite split_underscore_sep
    by (apply strftime_no_underscore || discriminate).
  cbn [fmap option_fmap option_map].
  rewrite split_underscore_plain by apply strftime_no_underscore.
  cbn [length nth Nat.leb andb].
  by apply strftime_lt.
Qed.

(** ** Writing a checkpoint *)

(** X10.  Retention of checkpoints goes by the end of the window, to the
    second, and applies to the checkpoint being written: [put_checkpoint]
    returns the id [epoch_{N}_{end}] in every case, and the store holds an
    entry under that id afterwards exactly when the window did not end
    before the retention cutoff.  The entry reads back as the checkpoint
    written, except that a checkpoint without chain parameters written over
    an entry that had some keeps the old ones ([chain_params.json] is never
    removed).  Every other entry stays as it was unless its name has
    expired.  Written into a store without checkpoints, the checkpoint is
    then what [get_latest_checkpoint] returns. *)
Theorem put_checkpoint_retention (self : FilesystemStore.t) (cp : CheckpointWindow.t)
    (cutoff : datetime.t) :
  datetime.in_range cutoff ->
  datetime.in_range (LedgerManifest.window_end (CheckpointWindow.manifest cp)) ->
  let expired :=
    datetime.seconds_key (LedgerManifest.window_end (CheckpointWindow.manifest cp))
    <? datetime.seconds_key cutoff in
  let old := FilesystemStore.checkpoints_dir self !! FilesystemStore.checkpoint_id cp in
  let self' := (FilesystemStore.put_checkpoint self cp cutoff).1 in
  let cp_id := (FilesystemStore.put_checkpoint self cp cutoff).2 in
  cp_id = FilesystemStore.checkpoint_id cp
  /\ FilesystemStore.checkpoints_dir self' !! cp_id
     = (if expired then None
        else Some (CheckpointWindow.mk
                     (CheckpointWindow.manifest cp) (CheckpointWindow.roster cp)
                     (CheckpointWindow.accumulators cp) (CheckpointWindow.scoring_config cp)
                     match CheckpointWindow.chain_params cp with
                     | Some chain_params => Some chain_params
                     | None => old ≫= CheckpointWindow.chain_params
                     end))
  /\ (is_Some (CheckpointWindow.chain_params cp)
      \/ old ≫= CheckpointWindow.chain_params = None ->
      FilesystemStore.checkpoints_dir self' !! cp_id = if expired then None else Some cp)
  /\ (forall id,
        id <> cp_id ->
        FilesystemStore.checkpoints_dir self' !! id
        = if FilesystemStore.checkpoint_expired (datetime.strftime cutoff) id then None
          else FilesystemStore.checkpoints_dir self !! id)
  /\ FilesystemStore.deltas_dir self'
     = FilesystemStore.deltas_dir (FilesystemStore._prune self cutoff)
  /\ (FilesystemStore.checkpoints_dir self = ∅ ->
      FilesystemStore.get_latest_checkpoint self' = if expired then None else Some cp).
Proof.
  intros Hcut Hend expired old self' cp_id.
  pose proof (checkpoint_expired_by_window_end cutoff cp Hcut Hend) as Hexp.
  fold expired in Hexp.
  split; [reflexivity|].
  assert (Hlook : FilesystemStore.checkpoints_dir self' !! cp_id
                  = if expired then None
                    else Some (FilesystemStore.written_over old cp)).
  { unfold self', cp_id, FilesystemStore.put_checkpoint, FilesystemStore._prune.
    cbn [fst snd FilesystemStore.checkpoints_dir].
    destruct expired.
    - apply map_lookup_filter_None. right. intros cp' _. cbn. by rewrite Hexp.
    - apply map_lookup_filter_Some. split; [apply lookup_insert_eq|]. cbn. exact Hexp. }
  assert (Hsame : is_Some (CheckpointWindow.chain_params cp)
                  \/ old ≫= CheckpointWindow.chain_params = None ->
                  FilesystemStore.written_over old cp = cp).
  { unfold FilesystemStore.written_over. destruct cp as [m r a c [chain_params|]]; cbn.
    - reflexivity.
    - intros [[? [=]]| ->]. reflexivity. }
  split; [exact Hlook|].
  split; [intros Hcase; by rewrite Hlook, (Hsame Hcase)|].
  split.
  { intros id Hid. unfold self', FilesystemStore.put_checkpoint, FilesystemStore._prune.
    cbn [fst snd FilesystemStore.checkpoints_dir].
    destruct (FilesystemStore.checkpoint_expired (datetime.strftime cutoff) id) eqn:Hname.
    - apply map_lookup_filter_None. right. intros cp' _. cbn. by rewrite Hname.
    - destruct (FilesystemStore.checkpoints_dir self !! id) as [cp'|] eqn:Hold.
      + apply map_lookup_filter_Some. split; [|exact Hname].
        rewrite lookup_insert_ne; [exact Hold|]. intros Heq. apply Hid. by rewrite <- Heq.
      + apply map_lookup_filter_None. left.
        rewrite lookup_insert_ne; [exact Hold|]. intros Heq. apply Hid. by rewrite <- Heq. }
  split; [reflexivity|].
  intros Hempty.
  assert (Hnone : old = None) by (unfold old; by rewrite Hempty, lookup_empty).
  rewrite (Hsame (or_intror (f_equal (fun o => o ≫= CheckpointWindow.chain_params) Hnone)))
    in Hlook.
  pose proof (get_latest_checkpoint_greatest_name self') as Hlatest.
  assert (Hdir : forall id cp', FilesystemStore.checkpoints_dir self' !! id = Some cp' ->
                                id = cp_id).
  { intros id cp'. unfold self', FilesystemStore.put_checkpoint, FilesystemStore._prune.
    cbn [fst snd FilesystemStore.checkpoints_dir]. rewrite Hempty.
    intros [Hins _]%map_lookup_filter_Some.
    apply lookup_insert_Some in Hins as [[<- _]|[_ Hins]]; [done|].
    by rewrite lookup_empty in Hins. }
  destruct (FilesystemStore.get_latest_checkpoint self') as [cp'|].
  - destruct Hlatest as (id & Hid & _).
    rewrite (Hdir id cp' Hid), Hlook in Hid. by destruct expired.
  - rewrite Hlatest, lookup_empty in Hlook. by destruct expired.
Qed.

(** ** Writing a delta *)

Lemma prune_stored (self : FilesystemStore.t) (cutoff : datetime.t) (epoch : Z)
    (id : string) (delta : DeltaWindow.t) :
  stored (FilesystemStore._prune self cutoff) epoch id delta
  <-> stored self epoch id delta
      /\ FilesystemStore.delta_expired (datetime.strftime cutoff) id = false.
Proof.
  unfold stored, FilesystemStore._prune. cbn [FilesystemStore.deltas_dir]. split.
  - intros (dir & Hdir & Hid).
    apply map_lookup_filter_Some in Hdir as [Hdir _].
    apply lookup_fmap_Some in Hdir as (dir0 & <- & Hdir0).
    apply map_lookup_filter_Some in Hid as [Hid Hkeep].
    split; [by exists dir0|exact Hkeep].
  - intros [(dir0 & Hdir0 & Hid) Hkeep].
    eexists. split.
    + apply map_lookup_filter_Some. split.
      * apply lookup_fmap_Some. eexists. split; [reflexivity|exact Hdir0].
      * cbn. intros Hempty.
        assert (Hin : filter (fun kv : string * DeltaWindow.t =>
                                FilesystemStore.delta_expired (datetime.strftime cutoff) kv.1
                                = false) dir0 !! id = Some delta).
        { by apply map_lookup_filter_Some. }
        rewrite Hempty, lookup_empty in Hin. discriminate.
    + by apply map_lookup_filter_Some.
Qed.

(** X11.  What the store holds after [put_delta], for a store that
    [put_delta] built: the delta just written sits under its epoch and id
    (replacing what was there), every other delta stays where it was, and
    of all of them exactly those whose window starts at or after the
    retention cutoff, to the second, survive the pruning that ends the
    call.  A delta that starts before the cutoff is thus dropped by the put
    that writes it, though its id is returned. *)
Theorem put_delta_stores_unexpired (self : FilesystemStore.t) (delta : DeltaWindow.t)
    (cutoff : datetime.t) :
  well_formed self ->
  datetime.in_range cutoff ->
  datetime.in_range (LedgerManifest.window_start (DeltaWindow.manifest delta)) ->
  datetime.in_range (LedgerManifest.window_end (DeltaWindow.manifest delta)) ->
  (FilesystemStore.put_delta self delta cutoff).2 = FilesystemStore.delta_id_of delta
  /\ forall (epoch : Z) (id : string) (d : DeltaWindow.t),
       stored (FilesystemStore.put_delta self delta cutoff).1 epoch id d
       <-> datetime.seconds_key cutoff
           <= datetime.seconds_key (LedgerManifest.window_start (DeltaWindow.manifest d))
           /\ if bool_decide
                   (epoch = LedgerManifest.checkpoint_epoch (DeltaWindow.manifest delta)
                    /\ id = FilesystemStore.delta_id_of delta)
              then d = delta
              else stored self epoch id d.
Proof.
  intros Hwf Hcut Hstart Hend. split; [reflexivity|].
  intros epoch id d.
  set (e := LedgerManifest.checkpoint_epoch (DeltaWindow.manifest delta)).
  set (written :=
         FilesystemStore.mk (FilesystemStore.checkpoints_dir self)
           (<[FilesystemStore.epoch_dir_name e :=
                <[FilesystemStore.delta_id_of delta := delta]>
                  (default ∅ (FilesystemStore.deltas_dir self
                                !! FilesystemStore.epoch_dir_name e))]>
              (FilesystemStore.deltas_dir self))
           (FilesystemStore.retention_days self)).
  change (FilesystemStore.put_delta self delta cutoff).1
    with (FilesystemStore._prune written cutoff).
  rewrite prune_stored.
  assert (Hwritten : stored written epoch id d
                     <-> if bool_decide (epoch = e /\ id = FilesystemStore.delta_id_of delta)
                         then d = delta else stored self epoch id d).
  { unfold stored, written. cbn [FilesystemStore.deltas_dir].
    destruct (decide (epoch = e)) as [->|Hepoch].
    - rewrite lookup_insert_eq.
      destruct (decide (id = FilesystemStore.delta_id_of delta)) as [->|Hid].
      + rewrite bool_decide_eq_true_2 by done. split.
        * intros (dir & [= <-] & Hd). rewrite lookup_insert_eq in Hd. congruence.
        * intros ->. eexists. split; [reflexivity|apply lookup_insert_eq].
      + rewrite bool_decide_eq_false_2 by tauto. split.
        * intros (dir & [= <-] & Hd). rewrite lookup_insert_ne in Hd by congruence.
          destruct (FilesystemStore.deltas_dir self !! FilesystemStore.epoch_dir_name e)
            as [dir0|]; cbn in Hd; [by exists dir0|by rewrite lookup_empty in Hd].
        * intros (dir & Hdir & Hd). eexists. split; [reflexivity|].
          rewrite lookup_insert_ne by congruence. by rewrite Hdir.
    - rewrite bool_decide_eq_false_2 by tauto.
      rewrite lookup_insert_ne; [reflexivity|].
      intros Heq. apply epoch_dir_name_inj in Heq. congruence. }
  rewrite Hwritten.
  assert (Hexp : (if bool_decide (epoch = e /\ id = FilesystemStore.delta_id_of delta)
                  then d = delta else stored self epoch id d) ->
                 FilesystemStore.delta_expired (datetime.strftime cutoff) id
                 = (datetime.seconds_key
                      (LedgerManifest.window_start (DeltaWindow.manifest d))
                    <? datetime.seconds_key cutoff)).
  { destruct (bool_decide_reflect (epoch = e /\ id = FilesystemStore.delta_id_of delta))
      as [[_ ->]|_].
    - intros ->. by apply delta_expired_by_window_start.
    - intros (dir & Hdir & Hd). destruct (Hwf _ _ _ _ Hdir Hd) as (-> & _ & Hs & _).
      by apply delta_expired_by_window_start. }
  split.
  - intros [Hst Hkeep]. split; [|exact Hst].
    rewrite (Hexp Hst) in Hkeep. apply Z.ltb_ge in Hkeep. exact Hkeep.
  - intros [Hle Hst]. split; [exact Hst|].
    rewrite (Hexp Hst). apply Z.ltb_ge. exact Hle.
Qed.

(** ** Fetching a delta *)

Lemma find_delta_spec (delta_id : string) (dirs : list (gmap string DeltaWindow.t)) :
  match FilesystemStore.find_delta delta_id dirs with
  | Some delta => exists dir, dir ∈ dirs /\ dir !! delta_id = Some delta
  | None => forall dir, dir ∈ dirs -> dir !! delta_id = None
  end.
Proof.
  induction dirs as [|dir dirs IH]; cbn [FilesystemStore.find_delta].
  - intros dir Hin. by apply elem_of_nil in Hin.
  - destruct (dir !! delta_id) as [delta|] eqn:Hd.
    + exists dir. split; [left|exact Hd].
    + destruct (FilesystemStore.find_delta delta_id dirs) as [delta|].
      * destruct IH as (dir' & Hin & Hd'). exists dir'. split; [by right|exact Hd'].
      * intros dir' [->|Hin]%elem_of_cons; [exact Hd|by apply IH].
Qed.

Lemma epoch_dirs_elem_of (self : FilesystemStore.t) (dir : gmap string DeltaWindow.t) :
  dir ∈ (map_to_list (FilesystemStore.deltas_dir self)).*2
  <-> exists name, FilesystemStore.deltas_dir self !! name = Some dir.
Proof.
  rewrite list_elem_of_fmap. split.
  - intros ([name dir'] & -> & Hin). exists name. by apply elem_of_map_to_list in Hin.
  - intros (name & Hname). exists (name, dir). split; [reflexivity|].
    by apply elem_of_map_to_list.
Qed.

(** X12.  [get_delta] looks the id up in every epoch directory and does not
    ask for the epoch: it returns a delta stored under this id in some
    epoch, and [None] exactly when no epoch has the id.  So every id that
    [list_deltas] lists can be fetched, and when a single delta is stored
    under the id, that one is returned. *)
Theorem get_delta_finds_stored (self : FilesystemStore.t) (delta_id : string) :
  match FilesystemStore.get_delta self delta_id with
  | Some delta =>
      exists name dir, FilesystemStore.deltas_dir self !! name = Some dir
                       /\ dir !! delta_id = Some delta
  | None =>
      forall name dir, FilesystemStore.deltas_dir self !! name = Some dir ->
                       dir !! delta_id = None
  end
  /\ (forall epoch since,
        delta_id ∈ FilesystemStore.list_deltas self epoch since ->
        is_Some (FilesystemStore.get_delta self delta_id))
  /\ (forall epoch delta,
        stored self epoch delta_id delta ->
        (forall epoch' delta', stored self epoch' delta_id delta' -> delta' = delta) ->
        well_formed self ->
        FilesystemStore.get_delta self delta_id = Some delta).
Proof.
  pose proof (find_delta_spec delta_id
                (map_to_list (FilesystemStore.deltas_dir self)).*2) as Hfind.
  fold (FilesystemStore.get_delta self delta_id) in Hfind.
  split; [|split].
  - destruct (FilesystemStore.get_delta self delta_id) as [delta|].
    + destruct Hfind as (dir & Hin & Hd). apply epoch_dirs_elem_of in Hin as (name & Hname).
      by exists name, dir.
    + intros name dir Hname. apply Hfind, epoch_dirs_elem_of. by exists name.
  - intros epoch since Hin.
    apply (proj2 (proj2 (list_deltas_spec self epoch since))) in Hin
      as [(delta & dir & Hdir & Hd) _].
    destruct (FilesystemStore.get_delta self delta_id) as [delta'|]; [by eexists|].
    rewrite (Hfind dir) in Hd; [discriminate|].
    apply epoch_dirs_elem_of. by eexists.
  - intros epoch delta Hst Huniq Hwf.
    destruct (FilesystemStore.get_delta self delta_id) as [delta'|].
    + destruct Hfind as (dir & Hin & Hd). apply epoch_dirs_elem_of in Hin as (name & Hname).
      f_equal. apply (Huniq (LedgerManifest.checkpoint_epoch (DeltaWindow.manifest delta'))).
      destruct (Hwf _ _ _ _ Hname Hd) as (_ & -> & _). by exists dir.
    + destruct Hst as (dir & Hdir & Hd).
      rewrite (Hfind dir) in Hd; [discriminate|].
      apply epoch_dirs_elem_of. by eexists.
Qed.

(** ** The latest checkpoint of one epoch *)

Lemma string_compare_common_prefix (p a b : string) :
  String.compare (p ++ a) (p ++ b) = String.compare a b.
Proof.
  induction p as [|c p IH]; [by rewrite !append_nil_l|].
  rewrite !append_cons, compare_cons.
  by rewrite (proj2 (ascii_compare_eq c c) eq_refl), IH.
Qed.

(** X13.  Among checkpoints of one and the same epoch, each in the directory
    that [put_checkpoint] names for it, [get_latest_checkpoint] returns one
    whose window ends last, to the second; it returns [None] only when the
    store has no checkpoint. *)
Theorem latest_checkpoint_within_epoch (self : FilesystemStore.t) (epoch : Z) :
  (forall id cp,
     FilesystemStore.checkpoints_dir self !! id = Some cp ->
     id = FilesystemStore.checkpoint_id cp
     /\ LedgerManifest.checkpoint_epoch (CheckpointWindow.manifest cp) = epoch
     /\ datetime.in_range (LedgerManifest.window_end (CheckpointWindow.manifest cp))) ->
  match FilesystemStore.get_latest_checkpoint self with
  | Some cp =>
      FilesystemStore.checkpoints_dir self !! FilesystemStore.checkpoint_id cp = Some cp
      /\ forall id' cp',
           FilesystemStore.checkpoints_dir self !! id' = Some cp' ->
           datetime.seconds_key (LedgerManifest.window_end (CheckpointWindow.manifest cp'))
           <= datetime.seconds_key (LedgerManifest.window_end (CheckpointWindow.manifest cp))
  | None => FilesystemStore.checkpoints_dir self = ∅
  end.
Proof.
  intros Hwf.
  pose proof (get_latest_checkpoint_greatest_name self) as Hlatest.
  destruct (FilesystemStore.get_latest_checkpoint self) as [cp|]; [|exact Hlatest].
  destruct Hlatest as (id & Hid & Hmax).
  destruct (Hwf id cp Hid) as (-> & Hepoch & Hend).
  split; [exact Hid|].
  intros id' cp' Hid'.
  destruct (Hwf id' cp' Hid') as (-> & Hepoch' & Hend').
  specialize (Hmax _ (ex_intro _ cp' Hid')).
  unfold FilesystemStore.str_le, String.leb, FilesystemStore.checkpoint_id in Hmax.
  rewrite Hepoch, Hepoch' in Hmax.
  rewrite !string_compare_common_prefix in Hmax.
  rewrite <- (append_nil_r (datetime.strftime
                              (LedgerManifest.window_end (CheckpointWindow.manifest cp))))
    in Hmax.
  rewrite strftime_compare_prefix in Hmax by assumption.
  change (String.compare "" "") with Eq in Hmax.
  destruct (Z.compare_spec
              (datetime.seconds_key
                 (LedgerManifest.window_end (CheckpointWindow.manifest cp')))
              (datetime.seconds_key
                 (LedgerManifest.window_end (CheckpointWindow.manifest cp))));
    cbn [lexc] in Hmax; [lia|lia|discriminate].
Qed.

(** ** Writing, listing and fetching a delta *)

(** X14.  Round trip through the store: a delta whose window starts at or
    after the retention cutoff is, right after [put_delta], listed by
    [list_deltas] for its epoch under the id that [put_delta] returned, and
    [get_delta] on that id gives the delta back, provided no directory of
    another epoch holds the same id. *)
Theorem put_delta_then_get (self : FilesystemStore.t) (delta : DeltaWindow.t)
    (cutoff : datetime.t) :
  let epoch := LedgerManifest.checkpoint_epoch (DeltaWindow.manifest delta) in
  let self' := (FilesystemStore.put_delta self delta cutoff).1 in
  let delta_id := (FilesystemStore.put_delta self delta cutoff).2 in
  datetime.in_range cutoff ->
  datetime.in_range (LedgerManifest.window_start (DeltaWindow.manifest delta)) ->
  datetime.seconds_key cutoff
  <= datetime.seconds_key (LedgerManifest.window_start (DeltaWindow.manifest delta)) ->
  (forall name dir,
     FilesystemStore.deltas_dir self !! name = Some dir ->
     name <> FilesystemStore.epoch_dir_name epoch -> dir !! delta_id = None) ->
  delta_id ∈ FilesystemStore.list_deltas self' epoch None
  /\ FilesystemStore.get_delta self' delta_id = Some delta.
Proof.
  intros epoch self' delta_id Hcut Hstart Hkeep Hothers.
  assert (Hexp : FilesystemStore.delta_expired (datetime.strftime cutoff) delta_id = false).
  { unfold delta_id. cbn [snd FilesystemStore.put_delta].
    rewrite delta_expired_by_window_start by assumption. apply Z.ltb_ge. exact Hkeep. }
  set (written :=
         FilesystemStore.mk (FilesystemStore.checkpoints_dir self)
           (<[FilesystemStore.epoch_dir_name epoch :=
                <[delta_id := delta]>
                  (default ∅ (FilesystemStore.deltas_dir self
                                !! FilesystemStore.epoch_dir_name epoch))]>
              (FilesystemStore.deltas_dir self))
           (FilesystemStore.retention_days self)).
  assert (Hself' : self' = FilesystemStore._prune written cutoff) by reflexivity.
  assert (Hst : stored self' epoch delta_id delta).
  { rewrite Hself'. apply prune_stored. split; [|exact Hexp].
    eexists. split; [apply lookup_insert_eq|apply lookup_insert_eq]. }
  split.
  - apply (proj2 (proj2 (list_deltas_spec self' epoch None))). split; [by exists delta|exact I].
  - pose proof (find_delta_spec delta_id
                  (map_to_list (FilesystemStore.deltas_dir self')).*2) as Hfind.
    fold (FilesystemStore.get_delta self' delta_id) in Hfind.
    destruct (FilesystemStore.get_delta self' delta_id) as [delta'|].
    + destruct Hfind as (dir & Hin & Hd).
      apply epoch_dirs_elem_of in Hin as (name & Hname).
      rewrite Hself' in Hname. unfold FilesystemStore._prune in Hname.
      cbn [FilesystemStore.deltas_dir] in Hname.
      apply map_lookup_filter_Some in Hname as [Hname _].
      apply lookup_fmap_Some in Hname as (dir0 & <- & Hdir0).
      apply map_lookup_filter_Some in Hd as [Hd _].
      unfold written in Hdir0. cbn [FilesystemStore.deltas_dir] in Hdir0.
      apply lookup_insert_Some in Hdir0 as [[<- <-]|[Hne Hdir0]].
      * rewrite lookup_insert_eq in Hd. by symmetry.
      * rewrite (Hothers name dir0 Hdir0) in Hd; [discriminate|congruence].
    + destruct Hst as (dir & Hdir & Hd).
      rewrite (Hfind dir) in Hd; [discriminate|].
      apply epoch_dirs_elem_of. by eexists.
Qed.

(** ** A regular sync cycle *)

Section CycleFacts.
Context `{Isoformat}.

Lemma sync_delta_fields (store : LedgerStore) (s0 : Sync.LedgerSync) (id : string) :
  let s := Sync.sync_delta store s0 id in
  Sync.epoch s = Sync.epoch s0
  /\ Sync.recompute_history s = Sync.recompute_history s0
  /\ Sync.state_file s = Sync.state_file s0
  /\ Sync.latest_checkpoint s = Sync.latest_checkpoint s0
  /\ Sync.max_epoch_bumps_per_day s = Sync.max_epoch_bumps_per_day s0
  /\ Sync.max_epoch_bumps_per_week s = Sync.max_epoch_bumps_per_week s0
  /\ ((Sync.latest_deltas s = Sync.latest_deltas s0
       /\ Sync.accumulator s = Sync.accumulator s0)
      \/ exists d,
           store_get_delta store id = Some d
           /\ LedgerManifest.checkpoint_epoch (DeltaWindow.manifest d) = Sync.epoch s0
           /\ Sync.latest_deltas s = (Sync.latest_deltas s0 ++ [d])%list
           /\ Sync.accumulator s
              = fold_left Sync.apply_submission (DeltaWindow.settled_submissions d)
                  (Sync.accumulator s0)).
Proof.
  cbn zeta. unfold Sync.sync_delta.
  destruct (store_get_delta store id) as [delta|]; [|repeat split; by left].
  destruct (Z.eqb_spec (LedgerManifest.checkpoint_epoch (DeltaWindow.manifest delta))
              (Sync.epoch s0)) as [Hepoch|Hepoch]; cbn [negb];
    [|repeat split; by left].
  cbn. repeat split. right. exists delta. repeat split. exact Hepoch.
Qed.

Lemma fold_sync_delta (store : LedgerStore) (ids : list string) (s0 : Sync.LedgerSync) :
  let s := fold_left (Sync.sync_delta store) ids s0 in
  Sync.epoch s = Sync.epoch s0
  /\ Sync.recompute_history s = Sync.recompute_history s0
  /\ Sync.state_file s = Sync.state_file s0
  /\ Sync.latest_checkpoint s = Sync.latest_checkpoint s0
  /\ Sync.max_epoch_bumps_per_day s = Sync.max_epoch_bumps_per_day s0
  /\ Sync.max_epoch_bumps_per_week s = Sync.max_epoch_bumps_per_week s0
  /\ exists ds,
       Sync.latest_deltas s = (Sync.latest_deltas s0 ++ ds)%list
       /\ Forall (fun d =>
                    LedgerManifest.checkpoint_epoch (DeltaWindow.manifest d) = Sync.epoch s0
                    /\ exists id, id ∈ ids /\ store_get_delta store id = Some d) ds
       /\ Sync.accumulator s
          = fold_left Sync.apply_submission
              (concat (map DeltaWindow.settled_submissions ds)) (Sync.accumulator s0).
Proof.
  revert s0. induction ids as [|id ids IH]; intros s0; cbn zeta.
  - cbn [fold_left]. repeat split. exists []. rewrite app_nil_r. repeat split. constructor.
  - cbn [fold_left].
    destruct (IH (Sync.sync_delta store s0 id))
      as (He & Hh & Hf & Hc & Hd & Hw & ds & Hds & Hall & Hacc).
    destruct (sync_delta_fields store s0 id)
      as (He1 & Hh1 & Hf1 & Hc1 & Hd1 & Hw1 & Hstep).
    cbn zeta in *.
    rewrite He, Hh, Hf, Hc, Hd, Hw, He1, Hh1, Hf1, Hc1, Hd1, Hw1.
    repeat (split; [reflexivity|]).
    assert (Hall' : Forall (fun d =>
                      LedgerManifest.checkpoint_epoch (DeltaWindow.manifest d) = Sync.epoch s0
                      /\ exists id', id' ∈ id :: ids /\ store_get_delta store id' = Some d) ds).
    { eapply Forall_impl; [exact Hall|]. cbn.
      intros d (Hde & id' & Hin & Hg). split; [congruence|].
      exists id'. split; [by right|exact Hg]. }
    destruct Hstep as [[Hl Ha]|(d & Hget & Hepoch & Hl & Ha)].
    + exists ds. rewrite Hds, Hl, Hacc, Ha. by repeat split.
    + exists (d :: ds). rewrite Hds, Hl, Hacc, Ha, <- app_assoc. split; [reflexivity|]. split.
      * constructor; [|exact Hall'].
        split; [exact Hepoch|]. exists id. split; [left|exact Hget].
      * cbn [map concat]. by rewrite fold_left_app.
Qed.

(** X15.  A sync cycle on a checkpoint of the auditor's own epoch.  It
    returns the checkpoint together with the deltas it took in.  Each of
    those belongs to the auditor's epoch and was fetched under an id that
    the store listed for that epoch since the last delta timestamp and that
    lies after the last processed id.  The Brier accumulator afterwards is
    the one before with the settled submissions of exactly these deltas
    applied in order; epoch and recompute history are untouched; and the
    state file is rewritten with the state the cycle ends in. *)
Theorem sync_cycle_takes_new_deltas_of_own_epoch
    (self : Sync.LedgerSync) (store : LedgerStore) (cp : CheckpointWindow.t) (now : float) :
  store_get_latest_checkpoint store = Some cp ->
  LedgerManifest.checkpoint_epoch (CheckpointWindow.manifest cp) = Sync.epoch self ->
  let since :=
    if negb (String.eqb (Sync.last_delta_ts self) "")
    then fromisoformat (Sync.last_delta_ts self) else None in
  let self' := (Sync.sync_cycle self store now).1 in
  let deltas := Sync.latest_deltas self' in
  (Sync.sync_cycle self store now).2 = (Some cp, deltas)
  /\ Forall (fun d =>
               LedgerManifest.checkpoint_epoch (DeltaWindow.manifest d) = Sync.epoch self
               /\ exists id,
                    id ∈ store_list_deltas store (Sync.epoch self) since
                    /\ (Sync.last_delta_id self <> "" ->
                        Py.str_gt id (Sync.last_delta_id self) = true)
                    /\ store_get_delta store id = Some d) deltas
  /\ Sync.accumulator self'
     = fold_left Sync.apply_submission
         (concat (map DeltaWindow.settled_submissions deltas)) (Sync.accumulator self)
  /\ Sync.epoch self' = Sync.epoch self
  /\ Sync.recompute_history self' = Sync.recompute_history self
  /\ Sync.latest_checkpoint self' = Some cp
  /\ Sync.state_file self'
     = Some (Sync.mkSaved (Sync.epoch self') (Sync.last_delta_id self')
               (Sync.last_delta_ts self') (Sync.accumulator self')
               (Sync.recompute_history self')).
Proof.
  intros Hcp Hepoch since self' deltas.
  subst deltas. subst self'.
  unfold Sync.sync_cycle. rewrite Hcp.
  set (self1 := Sync.set_latest (Sync.set_latest self (Sync.latest_checkpoint self) [])
                  (Some cp) _).
  assert (Hsame : negb (LedgerManifest.checkpoint_epoch (CheckpointWindow.manifest cp)
                        =? Sync.epoch self1) = false).
  { apply negb_false_iff, Z.eqb_eq. exact Hepoch. }
  rewrite Hsame.
  change (Sync.last_delta_ts self1) with (Sync.last_delta_ts self).
  change (Sync.last_delta_id self1) with (Sync.last_delta_id self).
  change (Sync.epoch self1) with (Sync.epoch self).
  fold since.
  set (new_ids := if negb (String.eqb (Sync.last_delta_id self) "") then _ else _).
  destruct (fold_sync_delta store new_ids self1)
    as (He & Hh & Hf & Hc & _ & _ & ds & Hds & Hall & Hacc).
  cbn zeta in He, Hh, Hf, Hc, Hds, Hall, Hacc.
  cbn [fst snd Sync._save_state Sync.latest_deltas Sync.accumulator Sync.epoch
       Sync.recompute_history Sync.latest_checkpoint Sync.state_file
       Sync.last_delta_id Sync.last_delta_ts].
  change (Sync.latest_deltas self1) with (@nil DeltaWindow.t) in Hds.
  cbn [app] in Hds. rewrite Hds.
  split; [reflexivity|]. split.
  - eapply Forall_impl; [exact Hall|]. cbn.
    intros d (Hde & id & Hin & Hg). split; [exact Hde|].
    exists id. unfold new_ids in Hin.
    destruct (String.eqb_spec (Sync.last_delta_id self) "") as [Hnil|Hnil]; cbn [negb] in Hin.
    + split; [exact Hin|]. split; [congruence|exact Hg].
    + apply list_elem_of_In, filter_In in Hin as [Hin Hgt].
      split; [by apply list_elem_of_In|]. split; [done|exact Hg].
  - repeat split; assumption.
Qed.

End CycleFacts.

(** ** Applying a delta to the Brier accumulators *)

Lemma apply_submission_lookup (accumulator : gmap string Sync.BrierRow)
    (sub : SettledSubmissionEntry.t) (miner_id : Z) :
  Sync.apply_submission accumulator sub !! Py.str_of_int miner_id
  = if SettledSubmissionEntry.miner_id sub =? miner_id then
      let row := default fresh_row (accumulator !! Py.str_of_int miner_id) in
      Some match SettledSubmissionEntry.brier sub with
           | Some brier =>
               Sync.mkRow (Sync.brier_ws row + brier)%float (Sync.brier_wt row + 1)%float
                 (Sync.count row + 1)
           | None => row
           end
    else accumulator !! Py.str_of_int miner_id.
Proof.
  unfold Sync.apply_submission.
  destruct (Z.eqb_spec (SettledSubmissionEntry.miner_id sub) miner_id) as [->|Hne].
  - by rewrite lookup_insert_eq.
  - rewrite lookup_insert_ne; [reflexivity|].
    unfold Py.str_of_int. intros Heq. by apply (inj pretty) in Heq.
Qed.

Lemma fold_apply_submission (subs : list SettledSubmissionEntry.t)
    (acc : gmap string Sync.BrierRow) (miner_id : Z) :
  let before := acc !! Py.str_of_int miner_id in
  let after := fold_left Sync.apply_submission subs acc !! Py.str_of_int miner_id in
  Sync.count (default fresh_row after)
  = Sync.count (default fresh_row before)
    + Z.of_nat (length (scored_submissions miner_id subs))
  /\ (is_Some after
      <-> is_Some before \/ miner_id ∈ map SettledSubmissionEntry.miner_id subs)
  /\ (miner_id ∉ map SettledSubmissionEntry.miner_id subs -> after = before).
Proof.
  cbn zeta. revert acc. induction subs as [|sub subs IH]; intros acc.
  - cbn [fold_left map scored_submissions List.filter length]. split; [cbn; lia|]. split.
    + split; [by left|]. intros [Hs|Hin]; [exact Hs|by apply elem_of_nil in Hin].
    + reflexivity.
  - cbn [fold_left map]. destruct (IH (Sync.apply_submission acc sub)) as (Hc & Hs & Hu).
    rewrite apply_submission_lookup in Hc, Hs, Hu.
    unfold scored_submissions in *. cbn [List.filter].
    destruct (Z.eqb_spec (SettledSubmissionEntry.miner_id sub) miner_id) as [Heq|Hne];
      cbn [andb].
    + split; [|split].
      * rewrite Hc. cbn zeta.
        destruct (SettledSubmissionEntry.brier sub) as [brier|].
        -- rewrite bool_decide_eq_true_2 by (by eexists). cbn. lia.
        -- rewrite bool_decide_eq_false_2 by (intros [? ?]; discriminate).
           cbn. reflexivity.
      * rewrite Hs. split; [intros _; right; rewrite <- Heq; left|].
        intros _. left. by eexists.
      * intros Hnot. exfalso. apply Hnot. rewrite <- Heq. left.
    + split; [exact Hc|]. split.
      * rewrite Hs, elem_of_cons. split; [tauto|]. intros [?|[?|?]]; [tauto|congruence|tauto].
      * intros Hnot. apply Hu. intros Hin. apply Hnot. by right.
Qed.

Lemma fold_apply_submission_row (subs : list SettledSubmissionEntry.t)
    (acc : gmap string Sync.BrierRow) (miner_id : Z) :
  default fresh_row (fold_left Sync.apply_submission subs acc !! Py.str_of_int miner_id)
  = fold_left add_score
      (omap SettledSubmissionEntry.brier (scored_submissions miner_id subs))
      (default fresh_row (acc !! Py.str_of_int miner_id)).
Proof.
  revert acc. induction subs as [|sub subs IH]; intros acc; [reflexivity|].
  cbn [fold_left]. rewrite IH, apply_submission_lookup.
  unfold scored_submissions. cbn [List.filter].
  destruct (Z.eqb_spec (SettledSubmissionEntry.miner_id sub) miner_id) as [Heq|Hne];
    cbn [andb]; [|reflexivity].
  destruct (SettledSubmissionEntry.brier sub) as [brier|] eqn:Hb.
  - rewrite bool_decide_eq_true_2 by (by eexists).
    cbn [omap list_omap]. rewrite Hb. reflexivity.
  - rewrite bool_decide_eq_false_2 by (intros [? ?]; discriminate). reflexivity.
Qed.

(** X16.  [_apply_delta] keeps one row per miner id, keyed by the id printed
    in decimal.  A miner's row after the delta is its row before (a miner
    without a row starts from zero) with the Brier scores of its settled
    submissions in the delta added one by one, in order; so its [count]
    grows by the number of those submissions that carry a score.  A
    submission without a score only makes sure the row exists; the row of a
    miner that the delta does not mention is left as it was; and every
    attribute of the auditor other than the accumulator is as before. *)
Theorem apply_delta_counts_scored_submissions
    (self : Sync.LedgerSync) (delta : DeltaWindow.t) (miner_id : Z) :
  let subs := DeltaWindow.settled_submissions delta in
  let self' := Sync._apply_delta self delta in
  let before := Sync.accumulator self !! Py.str_of_int miner_id in
  let after := Sync.accumulator self' !! Py.str_of_int miner_id in
  Sync.count (default fresh_row after)
  = Sync.count (default fresh_row before)
    + Z.of_nat (length (scored_submissions miner_id subs))
  /\ (is_Some after
      <-> is_Some before \/ miner_id ∈ map SettledSubmissionEntry.miner_id subs)
  /\ (miner_id ∉ map SettledSubmissionEntry.miner_id subs -> after = before)
  /\ default fresh_row after
     = fold_left add_score
         (omap SettledSubmissionEntry.brier (scored_submissions miner_id subs))
         (default fresh_row before)
  /\ self'
     = Sync.mk (Sync.max_epoch_bumps_per_day self) (Sync.max_epoch_bumps_per_week self)
         (Sync.epoch self) (Sync.last_delta_id self) (Sync.last_delta_ts self)
         (Sync.accumulator self') (Sync.recompute_history self)
         (Sync.latest_checkpoint self) (Sync.latest_deltas self) (Sync.state_file self).
Proof.
  cbn zeta.
  destruct (fold_apply_submission (DeltaWindow.settled_submissions delta)
              (Sync.accumulator self) miner_id) as (Hc & Hs & Hu).
  split; [exact Hc|]. split; [exact Hs|]. split; [exact Hu|].
  split; [apply fold_apply_submission_row|reflexivity].
Qed.

(** ** Epoch changes that carry no recompute record *)

(** X17.  The rate policy counts recorded bumps only.  An epoch change whose
    checkpoint carries no recompute record is never rejected and never adds
    to the recompute history, whatever it decides; so an auditor whose
    history is empty (and whose limits are positive) accepts such a change,
    takes the new epoch with empty accumulators, and is left with an empty
    history again: checkpoints without a record can move its epoch any
    number of times. *)
Theorem unrecorded_epoch_change_is_not_counted
    (self : Sync.LedgerSync) (cp : CheckpointWindow.t) (now : float) :
  LedgerManifest.recompute_record (CheckpointWindow.manifest cp) = None ->
  let self' := (Sync._handle_epoch_change self cp now).1 in
  let change_result := (Sync._handle_epoch_change self cp now).2 in
  Sync.status change_result <> "rejected"
  /\ Sync.recompute_history self' = Sync.recompute_history self
  /\ Sync.max_epoch_bumps_per_day self' = Sync.max_epoch_bumps_per_day self
  /\ Sync.max_epoch_bumps_per_week self' = Sync.max_epoch_bumps_per_week self
  /\ (Sync.recompute_history self = [] ->
      0 < Sync.max_epoch_bumps_per_day self ->
      0 < Sync.max_epoch_bumps_per_week self ->
      Sync.status change_result = "accepted"
      /\ Sync.epoch self' = LedgerManifest.checkpoint_epoch (CheckpointWindow.manifest cp)
      /\ Sync.accumulator self' = ∅).
Proof.
  intros Hrecord. cbn zeta. unfold Sync._handle_epoch_change. rewrite Hrecord.
  destruct (Z.leb_spec (Sync.max_epoch_bumps_per_day self)
              (Z.of_nat (length (Sync.recent 86400 now (Sync.recompute_history self)))))
    as [Hday|Hday].
  { cbn. split; [discriminate|]. do 3 (split; [reflexivity|]). intros Hnil Hd _.
    rewrite Hnil in Hday. cbn in Hday. lia. }
  destruct (Z.leb_spec (Sync.max_epoch_bumps_per_week self)
              (Z.of_nat (length (Sync.recent 604800 now (Sync.recompute_history self)))))
    as [Hweek|Hweek].
  { cbn. split; [discriminate|]. do 3 (split; [reflexivity|]). intros Hnil _ Hw.
    rewrite Hnil in Hweek. cbn in Hweek. lia. }
  cbn. split; [discriminate|]. repeat split.
Qed.

(** ** What the runtime hands to the plugins *)

Section RuntimeFacts.
Context `{Pydantic} `{Determinism} `{Bittensor} `{Isoformat}.

Lemma sync_cycle_checkpoint (self : Sync.LedgerSync) (store : LedgerStore) (now : float) :
  (Sync.sync_cycle self store now).2.1 = store_get_latest_checkpoint store.
Proof.
  unfold Sync.sync_cycle.
  destruct (store_get_latest_checkpoint store) as [cp|]; [|reflexivity].
  destruct (negb _).
  - destruct (Sync._handle_epoch_change _ cp now) as [self2 change_result].
    by destruct (_ || _).
  - reflexivity.
Qed.

(** X18.  One cycle of the runtime ends in one of three ways.  It reports
    "no checkpoint" exactly when the store has none.  It dispatches to the
    plugins only a checkpoint, the store's latest, that passed all five
    checks of the manifest verifier under the configured primary hotkey,
    together with deltas each of which passed them too (a delta that fails
    is left out, the others stay).  Otherwise it stops with the verifier's
    errors, of which there is at least one. *)
Theorem cycle_dispatches_only_verified
    (verifier : Verifier.ManifestVerifier) (sync : Sync.LedgerSync)
    (store : LedgerStore) (now : float) :
  match (Runtime._cycle verifier sync store now).2 with
  | Runtime.NoCheckpoint => store_get_latest_checkpoint store = None
  | Runtime.CheckpointVerificationFailed errors =>
      errors <> []
      /\ exists cp,
           store_get_latest_checkpoint store = Some cp
           /\ errors = Verifier.errors (Verifier.verify_checkpoint verifier cp)
           /\ Verifier.valid (Verifier.verify_checkpoint verifier cp) = false
  | Runtime.Dispatched context =>
      exists cp,
        store_get_latest_checkpoint store = Some cp
        /\ Runtime.checkpoint context = Some cp
        /\ manifest_checks (Verifier.primary_hotkey verifier)
             (CheckpointWindow.manifest cp) "checkpoint" (Verifier.checkpoint_sections cp)
        /\ Forall (fun delta =>
                     manifest_checks (Verifier.primary_hotkey verifier)
                       (DeltaWindow.manifest delta) "delta" (Verifier.delta_sections delta))
                  (Runtime.deltas context)
        /\ Runtime.deltas context
           `sublist_of` (Sync.sync_cycle sync store now).2.2
        /\ Runtime.accumulator_state context
           = Sync.accumulator (Runtime._cycle verifier sync store now).1
  end.
Proof.
  unfold Runtime._cycle.
  pose proof (sync_cycle_checkpoint sync store now) as Hcp.
  destruct (Sync.sync_cycle sync store now) as [sync' [cp deltas]].
  cbn [fst snd] in Hcp. subst cp.
  destruct (store_get_latest_checkpoint store) as [cp|]; [|reflexivity].
  destruct (Verifier.valid (Verifier.verify_checkpoint verifier cp)) eqn:Hvalid;
    cbn [negb fst snd].
  - exists cp. split; [reflexivity|]. split; [reflexivity|]. split.
    + apply (verify_valid_iff verifier (Verifier.WCheckpoint cp)
               (Verifier.checkpoint_sections cp)). exact Hvalid.
    + cbn [Runtime.deltas Runtime.accumulator_state]. split; [|split; [|reflexivity]].
      * rewrite Forall_forall. intros delta Hin.
        apply list_elem_of_In, filter_In in Hin as [_ Hok].
        apply (verify_valid_iff verifier (Verifier.WDelta delta)
                 (Verifier.delta_sections delta)). exact Hok.
      * clear. induction deltas as [|d deltas IH]; cbn [List.filter]; [constructor|].
        destruct (Verifier.valid _); [by apply sublist_skip|by apply sublist_cons].
  - split.
    + apply (verify_invalid_errors verifier (Verifier.WCheckpoint cp)
               (Verifier.checkpoint_sections cp)). exact Hvalid.
    + exists cp. repeat split. exact Hvalid.
Qed.

End RuntimeFacts.

(** ** The verifier's report *)

Section ReportFacts.
Context `{Pydantic} `{Determinism} `{Bittensor}.

Lemma section_errors_length (m : LedgerManifest.t) (section : string * pyany) :
  length (Verifier.section_errors m section)
  = if section_check_fails m section then 1%nat else 0%nat.
Proof.
  destruct section as [name data]. unfold Verifier.section_errors, section_check_fails.
  cbn [fst snd].
  destruct (LedgerManifest.content_hashes m !! name) as [expected|].
  - destruct (String.eqb_spec (Signer.compute_section_hash data) expected) as [->|Hne];
      cbn [negb].
    + by rewrite bool_decide_eq_true_2.
    + rewrite bool_decide_eq_false_2; [reflexivity|]. congruence.
  - by rewrite bool_decide_eq_false_2.
Qed.

(** X19.  The verifier does not stop at the first failure: its report has
    one error for every check that fails, the content-hash check counting
    once per section, and [valid] says that there is none. *)
Theorem verifier_reports_every_failed_check
    (self : Verifier.ManifestVerifier) (window : Verifier.Window)
    (sections : list (string * pyany)) :
  let kind := match window with
              | Verifier.WCheckpoint _ => "checkpoint"
              | Verifier.WDelta _ => "delta"
              end in
  let report := Verifier._verify self window sections in
  length (Verifier.errors report)
  = failed_checks (Verifier.primary_hotkey self) (Verifier.window_manifest window)
      kind sections
  /\ Verifier.valid report
     = Nat.eqb (failed_checks (Verifier.primary_hotkey self)
                  (Verifier.window_manifest window) kind sections) 0.
Proof.
  cbn zeta.
  assert (Hlen : length (Verifier.errors (Verifier._verify self window sections))
                 = failed_checks (Verifier.primary_hotkey self)
                     (Verifier.window_manifest window)
                     (match window with
                      | Verifier.WCheckpoint _ => "checkpoint"
                      | Verifier.WDelta _ => "delta"
                      end) sections).
  { unfold Verifier._verify, failed_checks. cbn [Verifier.errors].
    set (m := Verifier.window_manifest window).
    rewrite fold_section_errors.
    assert (Hsec : length (concat (map (Verifier.section_errors m) sections))
                   = length (List.filter (section_check_fails m) sections)).
    { induction sections as [|section sections IH]; [reflexivity|].
      cbn [map concat List.filter]. rewrite length_app, section_errors_length, IH.
      by destruct (section_check_fails m section). }
    destruct (Z.eqb (LedgerManifest.schema_version m) LEDGER_SCHEMA_VERSION);
      destruct (String.eqb (LedgerManifest.primary_hotkey m) (Verifier.primary_hotkey self));
      destruct (Signer.verify_manifest m (Verifier.primary_hotkey self));
      destruct (String.eqb (LedgerManifest.window_type m) _);
      cbn [negb]; rewrite ?length_app, Hsec; cbn [length app]; lia. }
  split; [exact Hlen|].
  rewrite <- Hlen. reflexivity.
Qed.

End ReportFacts.

(** ** Chain parameters are outside the verified content *)

Section ChainParams.
Context `{Pydantic} `{Determinism} `{Bittensor} `{Normalization} `{Numpy} `{Chain}.

(** X20.  The chain parameters of a checkpoint are covered by no check of
    the verifier: replacing them leaves the verification result as it was.
    Yet when a checkpoint carries chain parameters, the weight plugin
    computes the weights with them and does not consult the chain. *)
Theorem chain_params_are_not_verified
    (verifier : Verifier.ManifestVerifier) (cp : CheckpointWindow.t)
    (chain_params : ChainParamsSnapshot.t)
    (deltas : list DeltaWindow.t) (accumulator_state : gmap string Sync.BrierRow) :
  let cp' :=
    CheckpointWindow.mk (CheckpointWindow.manifest cp) (CheckpointWindow.roster cp)
      (CheckpointWindow.accumulators cp) (CheckpointWindow.scoring_config cp)
      (Some chain_params) in
  Verifier.verify_checkpoint verifier cp' = Verifier.verify_checkpoint verifier cp
  /\ Runtime.computed_weights (Runtime.mkContext (Some cp') deltas accumulator_state)
     = match CheckpointWindow.accumulators cp with
       | [] => None
       | _ :: _ =>
           Some (ComputeWeights.compute_weights
                   (map MinerMetrics.from_accumulator
                        (CheckpointWindow.accumulators cp)).*2
                   (CheckpointWindow.scoring_config cp) chain_params)
       end.
Proof.
  cbn zeta. split; [reflexivity|].
  unfold Runtime.computed_weights.
  cbn [Runtime.checkpoint CheckpointWindow.accumulators CheckpointWindow.chain_params
       CheckpointWindow.scoring_config].
  destruct (CheckpointWindow.accumulators cp) as [|acc accs]; reflexivity.
Qed.

End ChainParams.

(** ** Export, then verify *)

Section ExportFacts.
Context `{Pydantic} `{Determinism} `{Bittensor} `{Patterns}.

Lemma signed_manifest_verifies (m : LedgerManifest.t) (wallet : Wallet) :
  (forall msg, keypair_verify (ss58_address wallet) msg (hotkey_sign wallet msg)
               = Py.Ok true) ->
  (forall msg, hotkey_sign wallet msg <> "") ->
  signature_verifies
    (LedgerManifest.set_signature (Signer.sign_manifest m wallet) m)
    (ss58_address wallet).
Proof.
  intros Hverify Hsig. unfold signature_verifies, Signer.sign_manifest.
  cbn [LedgerManifest.signature LedgerManifest.set_signature].
  split.
  - intros Hempty. apply hex_empty in Hempty. by apply Hsig in Hempty.
  - eexists. split; [apply fromhex_hex|]. apply Hverify.
Qed.

(** X21.  What the exporter publishes, the verifier accepts: for a wallet
    whose keypair accepts the signatures it makes (and makes no empty one),
    every checkpoint built by [export_checkpoint] and every delta built by
    [export_delta] passes the manifest verifier that is configured with the
    exporter's hotkey. *)
Theorem exported_windows_verify
    (self : Exporter.LedgerExporter) (db : Exporter.Database)
    (as_of since until now : datetime.t) (recompute_record : option RecomputeRecord.t)
    (roster : list MinerRosterEntry.t) (accumulators : list AccumulatorEntry.t)
    (settled_submissions : list SettledSubmissionEntry.t)
    (settled_outcomes : list OutcomeEntry.t) :
  (forall msg,
     keypair_verify (ss58_address (Exporter.wallet self)) msg
       (hotkey_sign (Exporter.wallet self) msg) = Py.Ok true) ->
  (forall msg, hotkey_sign (Exporter.wallet self) msg <> "") ->
  let verifier := Verifier.mkVerifier (Exporter._hotkey self) in
  let cp :=
    (Exporter.export_checkpoint self db as_of now recompute_record roster accumulators).2 in
  let delta :=
    (Exporter.export_delta self db since until now settled_submissions settled_outcomes).2 in
  Verifier.valid (Verifier.verify_checkpoint verifier cp) = true
  /\ Verifier.valid (Verifier.verify_delta verifier delta) = true.
Proof.
  intros Hverify Hsig verifier cp delta. split.
  - apply (verify_valid_iff verifier (Verifier.WCheckpoint cp) (Verifier.checkpoint_sections cp)).
    unfold manifest_checks. cbn [Verifier.window_manifest].
    split; [reflexivity|]. split; [reflexivity|]. split.
    { apply signed_manifest_verifies; assumption. }
    split; [|reflexivity].
    intros name data Hin. unfold Verifier.checkpoint_sections in Hin.
    repeat (apply elem_of_cons in Hin as [[= -> ->]|Hin]);
      [..|by apply elem_of_nil in Hin]; reflexivity.
  - apply (verify_valid_iff verifier (Verifier.WDelta delta) (Verifier.delta_sections delta)).
    unfold manifest_checks. cbn [Verifier.window_manifest].
    split; [reflexivity|]. split; [reflexivity|]. split.
    { apply signed_manifest_verifies; assumption. }
    split; [|reflexivity].
    intros name data Hin. unfold Verifier.delta_sections in Hin.
    repeat (apply elem_of_cons in Hin as [[= -> ->]|Hin]);
      [..|by apply elem_of_nil in Hin]; reflexivity.
Qed.

End ExportFacts.

(** ** Bumping the epoch *)

Lemma validated_record_is_not_rejected (self : Sync.LedgerSync) (cp : CheckpointWindow.t)
    (now : float) :
  record_validated cp ->
  Sync.status (Sync._handle_epoch_change self cp now).2 <> "rejected".
Proof.
  intros Hrec. unfold Sync._handle_epoch_change.
  destruct (LedgerManifest.recompute_record (CheckpointWindow.manifest cp))
    as [record|] eqn:Hrecord.
  - destruct (Hrec record Hrecord) as [Hdetail _].
    apply String.eqb_neq in Hdetail. rewrite Hdetail.
    destruct (_ <=? _); [discriminate|]. destruct (_ <=? _); discriminate.
  - destruct (_ <=? _); [discriminate|]. destruct (_ <=? _); discriminate.
Qed.

Section BumpFacts.
Context `{Pydantic} `{Determinism} `{Bittensor} `{Patterns}.

(** X22.  [bump_epoch] validates before it writes: with an unknown reason
    code, an empty reason detail or code version, or a severity that does
    not match, it raises [ValueError] and leaves the database as it was.
    Otherwise it writes the new epoch and only then exports.  If the export
    raises, the exception leaves [bump_epoch] with the new epoch written and
    no checkpoint published.  If it returns, the checkpoint carries a
    validated recompute record from the old epoch to the old epoch plus
    one; with the [ledger_state] row in place the checkpoint and the
    database are then at the new epoch; and an auditor never answers such a
    checkpoint with "rejected". *)
Theorem bump_epoch_publishes_next_epoch
    (self : Exporter.LedgerExporter) (db : Exporter.Database) (now : datetime.t)
    (code_version reason_code reason_detail : string)
    (affected_event_ids : option (list Z)) (severity : string)
    (as_of export_now : datetime.t)
    (export : Py.result (list MinerRosterEntry.t * list AccumulatorEntry.t)) :
  let old_epoch := Exporter._get_epoch db in
  let bumped :=
    Exporter.bump_epoch self db now code_version reason_code reason_detail
      affected_event_ids severity as_of export_now export in
  let invalid :=
    reason_code ∉ Exporter.RecomputeReasonCode
    \/ reason_detail = ""
    \/ code_version = ""
    \/ pattern_matches "^(correction|bugfix|recovery)$" severity = false in
  match bumped.2 with
  | Py.Raise e =>
      (invalid /\ e = Py.ValueError /\ bumped.1 = db)
      \/ (~ invalid
          /\ export = Py.Raise e
          /\ bumped.1 = Exporter._UPDATE_LEDGER_EPOCH (old_epoch + 1) now db)
  | Py.Ok cp =>
      ~ invalid
      /\ (exists roster accumulators,
            export = Py.Ok (roster, accumulators)
            /\ CheckpointWindow.roster cp = roster
            /\ CheckpointWindow.accumulators cp = accumulators)
      /\ (exists record,
            LedgerManifest.recompute_record (CheckpointWindow.manifest cp) = Some record
            /\ RecomputeRecord.epoch record = old_epoch + 1
            /\ RecomputeRecord.previous_epoch record = old_epoch
            /\ RecomputeRecord.reason_code record = reason_code
            /\ RecomputeRecord.validated record)
      /\ LedgerManifest.checkpoint_epoch (CheckpointWindow.manifest cp)
         = Exporter._get_epoch bumped.1
      /\ Exporter._get_epoch bumped.1
         = match db with Some _ => old_epoch + 1 | None => 1 end
      /\ forall (auditor : Sync.LedgerSync) (t : float),
           Sync.status (Sync._handle_epoch_change auditor cp t).2 <> "rejected"
  end.
Proof.
  cbn zeta. unfold Exporter.bump_epoch.
  destruct (bool_decide_reflect (reason_code ∈ Exporter.RecomputeReasonCode))
    as [Hcode|Hcode]; cbn [negb]; [|left; tauto].
  unfold Exporter.new_RecomputeRecord.
  destruct (Nat.ltb_spec (String.length reason_detail) 1) as [Hd|Hd]; cbn [orb].
  { left. split; [|done]. right. left. destruct reason_detail; [done|cbn in Hd; lia]. }
  destruct (pattern_matches _ severity) eqn:Hsev; cbn [negb orb]; [|left; tauto].
  destruct (Nat.ltb_spec (String.length code_version) 1) as [Hv|Hv].
  { left. split; [|done]. right. right. left. destruct code_version; [done|cbn in Hv; lia]. }
  assert (Hvalid : ~ (reason_code ∉ Exporter.RecomputeReasonCode
                      \/ reason_detail = "" \/ code_version = "" \/ true = false)).
  { intros [Hc|[->|[->|Hf]]]; [by apply Hc|cbn in Hd; lia|cbn in Hv; lia|discriminate]. }
  destruct export as [[roster accumulators]|e].
  2: { right. cbn [fst snd]. done. }
  cbn [fst snd Exporter.export_checkpoint].
  assert (Hrecord : RecomputeRecord.validated
                      (RecomputeRecord.mk (Exporter._get_epoch db + 1) (Exporter._get_epoch db)
                         reason_code reason_detail (default [] affected_event_ids) severity
                         now code_version)).
  { split; cbn; intros ->; cbn in *; lia. }
  split; [exact Hvalid|]. split; [by exists roster, accumulators|].
  split; [|split; [|split]].
  - eexists. split; [reflexivity|]. repeat split; apply Hrecord.
  - by destruct db.
  - by destruct db.
  - intros auditor t. apply validated_record_is_not_rejected.
    intros r [= <-]. exact Hrecord.
Qed.

End BumpFacts.

(** ** The plugin registry *)

Lemma dispatch_map (self : PluginRegistry.t) (context : Runtime.AuditorContext)
    (now : string -> datetime.t) :
  PluginRegistry.dispatch self context now
  = map (fun item : string * PluginRegistry.TaskHandler =>
           collected context now item.1 item.2)
        (PluginRegistry._handlers self).
Proof.
  unfold PluginRegistry.dispatch.
  assert (Hgen : forall (items : list (string * PluginRegistry.TaskHandler))
                        (results : list PluginRegistry.TaskResult),
            fold_left
              (fun (results : list PluginRegistry.TaskResult)
                   (item : string * PluginRegistry.TaskHandler) =>
                 let '(name, handler) := item in
                 match PluginRegistry.on_cycle handler context with
                 | PluginRegistry.Returns result => app results [ result ]
                 | PluginRegistry.Raises message =>
                     app results
                       [ PluginRegistry.mkResult name
                           (default "unknown" (PluginRegistry.version handler)) "error"
                           [ ("error", JStr message) ] "" (now name) ]
                 end)
              items results
            = (results
               ++ map (fun item : string * PluginRegistry.TaskHandler =>
                         collected context now item.1 item.2) items)%list).
  { induction items as [|[name handler] items IH]; intros results.
    - cbn. by rewrite app_nil_r.
    - cbn [fold_left map]. rewrite IH. unfold collected at 2. cbn [fst snd].
      destruct (PluginRegistry.on_cycle handler context); by rewrite <- app_assoc. }
  apply Hgen.
Qed.

(** X23.  Failures of plugins are isolated in [dispatch]: it returns exactly
    one result per registered plugin, in the order of registration; a
    plugin that returns contributes its own result, and one that raises
    contributes a result of status "error" under its registered name, with
    the message as evidence, while the plugins after it still run. *)
Theorem dispatch_isolates_failures (self : PluginRegistry.t)
    (context : Runtime.AuditorContext) (now : string -> datetime.t) :
  length (PluginRegistry.dispatch self context now)
  = length (PluginRegistry._handlers self)
  /\ forall (i : nat) (name : string) (handler : PluginRegistry.TaskHandler),
       PluginRegistry._handlers self !! i = Some (name, handler) ->
       exists result,
         PluginRegistry.dispatch self context now !! i = Some result
         /\ match PluginRegistry.on_cycle handler context with
            | PluginRegistry.Returns returned => result = returned
            | PluginRegistry.Raises message =>
                PluginRegistry.plugin_name result = name
                /\ PluginRegistry.status result = "error"
                /\ PluginRegistry.evidence result = [ ("error", JStr message) ]
                /\ PluginRegistry.plugin_version result
                   = default "unknown" (PluginRegistry.version handler)
            end.
Proof.
  rewrite dispatch_map. split; [apply length_map|].
  intros i name handler Hi. eexists. split.
  - rewrite list_lookup_fmap, Hi. reflexivity.
  - cbn [fst snd]. unfold collected.
    destruct (PluginRegistry.on_cycle handler context); [reflexivity|by repeat split].
Qed.

(** X24.  [register] never replaces a plugin.  On a registry built by
    [register], registering a handler whose name is taken raises
    [ValueError] and changes nothing; otherwise the handler is added after
    the ones present, which keep their places, and the call returns, unless
    the handler has no [version]: then it is added all the same and the call
    raises [AttributeError] from its log line.  In every case the registry
    is again one with no name twice and every handler under its own name. *)
Theorem register_never_replaces (self : PluginRegistry.t)
    (handler : PluginRegistry.TaskHandler) :
  well_registered self ->
  let self' := (PluginRegistry.register self handler).1 in
  let returned := (PluginRegistry.register self handler).2 in
  well_registered self'
  /\ if bool_decide (PluginRegistry.name handler ∈ PluginRegistry.handlers self)
     then returned = Py.Raise Py.ValueError /\ self' = self
     else PluginRegistry._handlers self'
          = (PluginRegistry._handlers self ++ [ (PluginRegistry.name handler, handler) ])%list
          /\ PluginRegistry.handlers self'
             = (PluginRegistry.handlers self ++ [ PluginRegistry.name handler ])%list
          /\ returned = match PluginRegistry.version handler with
                        | Some _ => Py.Ok tt
                        | None => Py.Raise Py.AttributeError
                        end.
Proof.
  intros [Hnodup Hnames]. cbn zeta.
  unfold PluginRegistry.register, PluginRegistry.handlers in *.
  destruct (bool_decide_reflect
              (PluginRegistry.name handler ∈ (PluginRegistry._handlers self).*1))
    as [Hin|Hout]; [by repeat split|].
  assert (Hadded : well_registered
                     (PluginRegistry.mk
                        (PluginRegistry._handlers self
                         ++ [ (PluginRegistry.name handler, handler) ])%list)).
  { split.
    - unfold PluginRegistry.handlers. cbn [PluginRegistry._handlers].
      rewrite fmap_app. apply NoDup_app. split; [exact Hnodup|]. split.
      + intros x Hx [->|Hnil]%elem_of_cons; [contradiction|by apply elem_of_nil in Hnil].
      + cbn. apply NoDup_singleton.
    - apply Forall_app. split; [exact Hnames|]. by repeat constructor. }
  destruct (PluginRegistry.version handler); cbn [fst snd PluginRegistry._handlers];
    (split; [exact Hadded|]); (split; [reflexivity|]); (split; [by rewrite fmap_app|]);
    reflexivity.
Qed.

(** ** A sample registration *)

Lemma register_never_replaces_witness :
  let handler :=
    PluginRegistry.mkHandler "weight_verification" (Some "1.0.0")
      (fun _ => PluginRegistry.Raises "boom") in
  let unversioned :=
    PluginRegistry.mkHandler "bare" None (fun _ => PluginRegistry.Raises "boom") in
  let first := PluginRegistry.register PluginRegistry.empty handler in
  let second := PluginRegistry.register first.1 handler in
  let third := PluginRegistry.register first.1 unversioned in
  well_registered third.1
  /\ PluginRegistry.handlers first.1 = [ "weight_verification" ]
  /\ first.2 = Py.Ok tt
  /\ second = (first.1, Py.Raise Py.ValueError)
  /\ PluginRegistry.handlers third.1 = [ "weight_verification"; "bare" ]
  /\ third.2 = Py.Raise Py.AttributeError.
Proof.
  cbn zeta.
  set (handler := PluginRegistry.mkHandler "weight_verification" (Some "1.0.0")
                    (fun _ => PluginRegistry.Raises "boom")).
  set (unversioned := PluginRegistry.mkHandler "bare" None
                        (fun _ => PluginRegistry.Raises "boom")).
  assert (Hempty : well_registered PluginRegistry.empty).
  { split; [apply NoDup_nil_2|constructor]. }
  destruct (register_never_replaces PluginRegistry.empty handler Hempty) as [Hfirst _].
  destruct (register_never_replaces
              (PluginRegistry.register PluginRegistry.empty handler).1 unversioned Hfirst)
    as [Hthird _].
  split; [exact Hthird|]. repeat split.
Defined.

(** ** The weight plugin *)

Section PluginFacts.
Context `{Determinism} `{Bittensor} `{Isoformat} `{Normalization} `{Numpy} `{Chain}
        `{Numpy64} `{Metagraph} `{!AuditorEnv}.

Lemma square_raises (x : float) (e : Py.exn) :
  WeightVerification.square x = Py.Raise e -> e = Py.OverflowError.
Proof.
  unfold WeightVerification.square.
  repeat (match goal with |- context [if ?b then _ else _] => destruct b end);
    congruence.
Qed.

(** One turn of the inner loop: at most one check more, and no more
    mismatches than checks; only a submission with a score is checked, and
    only [OverflowError] ends the loop. *)
Lemma brier_step_spec (delta : DeltaWindow.t) (sub : SettledSubmissionEntry.t)
    (c m : Z) :
  match WeightVerification.brier_step delta (Py.Ok (c, m)) sub with
  | Py.Ok (c', m') =>
      m <= m' /\ m' - m <= c' - c
      /\ c' - c <= (if bool_decide (is_Some (SettledSubmissionEntry.brier sub)) then 1 else 0)
  | Py.Raise e => e = Py.OverflowError
  end.
Proof.
  unfold WeightVerification.brier_step, WeightVerification.brier_mismatch.
  cbn [mbind result_bind Py.bind].
  destruct (SettledSubmissionEntry.brier sub) as [brier|]; cbn [mbind result_bind Py.bind].
  2: { destruct (bool_decide _); lia. }
  rewrite bool_decide_eq_true_2 by (by eexists).
  destruct (List.find _ _) as [outcome|]; cbn [mbind result_bind Py.bind]; [|lia].
  destruct (OutcomeEntry.result outcome) as [result|]; cbn [mbind result_bind Py.bind]; [|lia].
  destruct (WeightVerification.square _) as [expected_brier|e] eqn:Hsq;
    cbn [mbind result_bind Py.bind].
  - destruct (_ <? _)%float; lia.
  - by apply square_raises in Hsq.
Qed.

Lemma brier_fold_raise (delta : DeltaWindow.t) (subs : list SettledSubmissionEntry.t)
    (e : Py.exn) :
  fold_left (WeightVerification.brier_step delta) subs (Py.Raise e) = Py.Raise e.
Proof. induction subs as [|sub subs IH]; [reflexivity|exact IH]. Qed.

Lemma brier_counts_delta (delta : DeltaWindow.t) (subs : list SettledSubmissionEntry.t)
    (c m : Z) :
  match fold_left (WeightVerification.brier_step delta) subs (Py.Ok (c, m)) with
  | Py.Ok (c', m') =>
      m <= m' /\ m' - m <= c' - c
      /\ c' - c
         <= Z.of_nat (length (List.filter
                                (fun sub =>
                                   bool_decide (is_Some (SettledSubmissionEntry.brier sub)))
                                subs))
  | Py.Raise e => e = Py.OverflowError
  end.
Proof.
  revert c m. induction subs as [|sub subs IH]; intros c m.
  - cbn. lia.
  - cbn [fold_left List.filter].
    pose proof (brier_step_spec delta sub c m) as Hstep.
    destruct (WeightVerification.brier_step delta (Py.Ok (c, m)) sub) as [[c1 m1]|e].
    + specialize (IH c1 m1).
      destruct (fold_left _ subs (Py.Ok (c1, m1))) as [[c' m']|e]; [|exact IH].
      destruct (bool_decide _); cbn [length]; lia.
    + rewrite brier_fold_raise. exact Hstep.
Qed.

Lemma brier_counts_from (deltas : list DeltaWindow.t) (c m : Z) :
  match fold_left
          (fun (counts : Py.result (Z * Z)) (delta : DeltaWindow.t) =>
             fold_left (WeightVerification.brier_step delta)
                       (DeltaWindow.settled_submissions delta) counts)
          deltas (Py.Ok (c, m)) with
  | Py.Ok (c', m') =>
      m <= m' /\ m' - m <= c' - c
      /\ c' - c <= Z.of_nat (length (brier_scored deltas))
  | Py.Raise e => e = Py.OverflowError
  end.
Proof.
  unfold brier_scored. revert c m. induction deltas as [|delta deltas IH]; intros c m.
  - cbn. lia.
  - cbn [fold_left map concat].
    pose proof (brier_counts_delta delta (DeltaWindow.settled_submissions delta) c m) as Hd.
    destruct (fold_left (WeightVerification.brier_step delta) _ (Py.Ok (c, m)))
      as [[c1 m1]|e].
    + specialize (IH c1 m1).
      destruct (fold_left _ deltas (Py.Ok (c1, m1))) as [[c' m']|e]; [|exact IH].
      rewrite List.filter_app, length_app. lia.
    + assert (Hraise : forall ds,
                fold_left
                  (fun (counts : Py.result (Z * Z)) (delta : DeltaWindow.t) =>
                     fold_left (WeightVerification.brier_step delta)
                               (DeltaWindow.settled_submissions delta) counts)
                  ds (Py.Raise e) = Py.Raise e).
      { induction ds as [|d ds IHd]; [reflexivity|].
        cbn [fold_left]. by rewrite brier_fold_raise. }
      rewrite Hraise. exact Hd.
Qed.

(** X25.  The Brier cross-check of the weight plugin, when its loops run to
    the end, counts at most the settled submissions that carry a score, and
    at most as many mismatches as checks; a submission without a score,
    without a matching outcome, or whose outcome has no result, is not
    checked.  The only exception that ends the loops is the [OverflowError]
    of the squaring. *)
Theorem brier_counts_bounded (deltas : list DeltaWindow.t) :
  match WeightVerification.brier_counts deltas with
  | Py.Ok (brier_checks, brier_mismatches) =>
      0 <= brier_mismatches <= brier_checks
      /\ brier_checks <= Z.of_nat (length (brier_scored deltas))
  | Py.Raise e => e = Py.OverflowError
  end.
Proof.
  unfold WeightVerification.brier_counts.
  pose proof (brier_counts_from deltas 0 0) as Hgen.
  destruct (fold_left _ deltas (Py.Ok (0, 0))) as [[c m]|e]; [lia|exact Hgen].
Qed.

Lemma fill_length (our_vec filled : list float) (pairs : list (Z * Z)) :
  WeightVerification.fill our_vec pairs = PluginRegistry.Returns filled ->
  length filled = length our_vec.
Proof.
  unfold WeightVerification.fill. revert our_vec.
  induction pairs as [|[uid w] pairs IH]; intros our_vec; cbn [fold_left].
  - by intros [= <-].
  - destruct (uid <? Z.of_nat (length our_vec)).
    + destruct (0 <=? uid).
      * intros Hf. apply IH in Hf. by rewrite length_insert in Hf.
      * destruct (0 <=? uid + Z.of_nat (length our_vec)).
        -- intros Hf. apply IH in Hf. by rewrite length_insert in Hf.
        -- intros Hf. exfalso. clear IH. revert Hf.
           generalize (vec_error uid (length our_vec)). intros message.
           induction pairs as [|p pairs IHp]; cbn [fold_left]; [discriminate|exact IHp].
    + apply IH.
Qed.

(** The comparison says "no match" only after it compared. *)
Lemma compare_mismatch (self : WeightVerification.WeightVerificationHandler)
    (cp : CheckpointWindow.t) (chain_params : ChainParamsSnapshot.t)
    (weight_result : ComputeWeights.WeightResult) :
  let comparison := WeightVerification.compare self cp chain_params weight_result in
  let primary_hotkey := LedgerManifest.primary_hotkey (CheckpointWindow.manifest cp) in
  WeightVerification.matches comparison = false ->
  primary_hotkey ∈ hotkeys
  /\ (exists rows on_chain,
        W = Some rows
        /\ rows !! Z.to_nat (WeightVerification.index_of primary_hotkey hotkeys) = Some on_chain
        /\ 0 <= ChainParamsSnapshot.n_neurons chain_params
        /\ length on_chain = Z.to_nat (ChainParamsSnapshot.n_neurons chain_params))
  /\ WeightVerification.comparison_error comparison = None
  /\ (1 - WeightVerification.tolerance self
       <=? WeightVerification.cosine_sim comparison)%float = false.
Proof.
  cbn zeta. unfold WeightVerification.compare.
  destruct (bool_decide_reflect
              (LedgerManifest.primary_hotkey (CheckpointWindow.manifest cp) ∈ hotkeys))
    as [Hin|Hout]; [|discriminate].
  destruct W as [rows|]; [|discriminate].
  destruct (rows !! _) as [on_chain|] eqn:Hrow; [|discriminate].
  destruct (Z.ltb_spec (ChainParamsSnapshot.n_neurons chain_params) 0) as [Hneg|Hn];
    [discriminate|].
  destruct (WeightVerification.fill _ _) as [our_vec|message] eqn:Hfill; [|discriminate].
  apply fill_length in Hfill. rewrite length_replicate in Hfill.
  destruct (Nat.eqb_spec (length on_chain) (length our_vec)) as [Hlen|Hlen]; [|discriminate].
  cbn [WeightVerification.matches WeightVerification.comparison_error
       WeightVerification.cosine_sim].
  intros Hcos. split; [exact Hin|]. split; [|split; [reflexivity|exact Hcos]].
  exists rows, on_chain. repeat split; try done. congruence.
Qed.

(** What a cycle of the plugin that returns went through. *)
Lemma on_cycle_inv (self : WeightVerification.WeightVerificationHandler)
    (context : Runtime.AuditorContext) (now : datetime.t) (cycle : WeightVerification.Cycle) :
  WeightVerification.on_cycle self context now = PluginRegistry.Returns cycle ->
  (PluginRegistry.status (WeightVerification.task_result cycle) = "skip"
   /\ PluginRegistry.attestation (WeightVerification.task_result cycle) = ""
   /\ WeightVerification.submitted cycle = None
   /\ match Runtime.checkpoint context with
      | Some cp => CheckpointWindow.accumulators cp = []
      | None => True
      end)
  \/ exists cp chain_params weight_result unsigned,
       Runtime.checkpoint context = Some cp
       /\ CheckpointWindow.accumulators cp <> []
       /\ WeightVerification.chain_params_of cp = Py.Ok chain_params
       /\ ComputeWeights.compute_weights
            (map MinerMetrics.from_accumulator (CheckpointWindow.accumulators cp)).*2
            (CheckpointWindow.scoring_config cp) chain_params = Py.Ok weight_result
       /\ let comparison := WeightVerification.compare self cp chain_params weight_result in
          PluginRegistry.status unsigned
          = (if WeightVerification.matches comparison then "pass" else "fail")
          /\ PluginRegistry.attestation unsigned = ""
          /\ PluginRegistry.completed_at unsigned = now
          /\ WeightVerification.submitted cycle
             = (if WeightVerification.matches comparison
                   && negb (Nat.eqb (length (ComputeWeights.uids weight_result)) 0)
                then Some (ComputeWeights.uids weight_result,
                           ComputeWeights.uint16_weights weight_result)
                else None)
          /\ WeightVerification.task_result cycle
             = match context_wallet with
               | Some wallet =>
                   PluginRegistry.set_attestation unsigned
                     (Attestation.create_attestation unsigned wallet)
               | None => unsigned
               end.
Proof.
  unfold WeightVerification.on_cycle.
  destruct (Runtime.checkpoint context) as [cp|]; [|intros [= <-]; left; by repeat split].
  destruct (CheckpointWindow.accumulators cp) as [|acc accs] eqn:Haccs;
    [intros [= <-]; left; by repeat split|].
  rewrite <- Haccs.
  assert (Hmetrics : exists m ms,
            (map MinerMetrics.from_accumulator (CheckpointWindow.accumulators cp)).*2
            = m :: ms).
  { rewrite Haccs. cbn. eauto. }
  destruct Hmetrics as (m & ms & Hmetrics). rewrite Hmetrics.
  destruct (WeightVerification.brier_counts (Runtime.deltas context))
    as [[checks mismatches]|e]; cbn [mbind result_bind Py.bind]; [|discriminate].
  destruct (WeightVerification.chain_params_of cp) as [chain_params|e] eqn:Hchain;
    cbn [mbind result_bind Py.bind]; [|discriminate].
  destruct (ComputeWeights.compute_weights (m :: ms) _ chain_params) as [weight_result|e]
    eqn:Hrun; cbn [mbind result_bind Py.bind]; [|discriminate].
  rewrite <- Hmetrics in Hrun.
  intros Hret. right. exists cp, chain_params, weight_result.
  set (comparison := WeightVerification.compare self cp chain_params weight_result) in *.
  assert (Hne : CheckpointWindow.accumulators cp <> []) by congruence.
  destruct (WeightVerification.matches comparison
            && negb (Nat.eqb (length (ComputeWeights.uids weight_result)) 0)) eqn:Hgo.
  - destruct (set_weights _ _) as [[result_ok msg]|message];
      (match type of Hret with
       | context [PluginRegistry.set_attestation ?tr _] => exists tr
       end);
      injection Hret as <-;
      (split; [reflexivity|]); (split; [exact Hne|]); (split; [exact Hchain|]);
      (split; [exact Hrun|]); cbn zeta;
      cbn [WeightVerification.task_result WeightVerification.submitted
           PluginRegistry.status PluginRegistry.attestation PluginRegistry.completed_at];
      repeat split.
  - match type of Hret with
    | context [PluginRegistry.set_attestation ?tr _] => exists tr
    end.
    injection Hret as <-.
    (split; [reflexivity|]); (split; [exact Hne|]); (split; [exact Hchain|]);
      (split; [exact Hrun|]). cbn zeta.
    cbn [WeightVerification.task_result WeightVerification.submitted
         PluginRegistry.status PluginRegistry.attestation PluginRegistry.completed_at].
    repeat split.
Qed.

Lemma signed_status (unsigned : PluginRegistry.TaskResult) :
  PluginRegistry.status
    match context_wallet with
    | Some wallet =>
        PluginRegistry.set_attestation unsigned
          (Attestation.create_attestation unsigned wallet)
    | None => unsigned
    end
  = PluginRegistry.status unsigned.
Proof. by destruct context_wallet. Qed.

(** X26.  The weight plugin submits nothing but what [compute_weights]
    computed: a call of [set_weights] is made only in a cycle that ends in
    "pass", with a non-empty list of uids, and its uids and weights are the
    outputs of [compute_weights] on the metrics derived from the accumulators
    of the checkpoint in the context, its scoring configuration and the chain
    parameters in use. *)
Theorem plugin_submits_computed_weights
    (self : WeightVerification.WeightVerificationHandler)
    (context : Runtime.AuditorContext) (now : datetime.t)
    (cycle : WeightVerification.Cycle) (uids weights : list Z) :
  WeightVerification.on_cycle self context now = PluginRegistry.Returns cycle ->
  WeightVerification.submitted cycle = Some (uids, weights) ->
  PluginRegistry.status (WeightVerification.task_result cycle) = "pass"
  /\ uids <> []
  /\ exists cp chain_params weight_result,
       Runtime.checkpoint context = Some cp
       /\ WeightVerification.chain_params_of cp = Py.Ok chain_params
       /\ ComputeWeights.compute_weights
            (map MinerMetrics.from_accumulator (CheckpointWindow.accumulators cp)).*2
            (CheckpointWindow.scoring_config cp) chain_params = Py.Ok weight_result
       /\ uids = ComputeWeights.uids weight_result
       /\ weights = ComputeWeights.uint16_weights weight_result.
Proof.
  intros Hret Hsub.
  apply on_cycle_inv in Hret
    as [(_ & _ & Hnone & _)
       |(cp & chain_params & weight_result & unsigned & Hcp & _ & Hchain & Hrun & Hrest)].
  { rewrite Hnone in Hsub. discriminate. }
  cbn zeta in Hrest. destruct Hrest as (Hstatus & _ & _ & Hsubmitted & Htask).
  rewrite Hsubmitted in Hsub.
  destruct (WeightVerification.matches _) eqn:Hmatch; [|discriminate].
  destruct (Nat.eqb_spec (length (ComputeWeights.uids weight_result)) 0) as [Hlen|Hlen];
    [discriminate|].
  cbn in Hsub. injection Hsub as <- <-.
  split; [by rewrite Htask, signed_status|]. split.
  - intros Hnil. by rewrite Hnil in Hlen.
  - by exists cp, chain_params, weight_result.
Qed.

(** X27.  The comparison with the chain fails open.  A cycle of the weight
    plugin ends in "fail", and then submits nothing, only when the primary's
    hotkey is in the metagraph, the metagraph has a weight row for it, the
    row is as long as the number of neurons, filling the auditor's own
    vector raised nothing, and the cosine similarity computed from the two
    is not at least one minus the tolerance.  In every other case that does
    not skip, a missing row and an exception included, it ends in "pass". *)
Theorem plugin_fails_only_on_computed_mismatch
    (self : WeightVerification.WeightVerificationHandler)
    (context : Runtime.AuditorContext) (now : datetime.t)
    (cycle : WeightVerification.Cycle) :
  WeightVerification.on_cycle self context now = PluginRegistry.Returns cycle ->
  PluginRegistry.status (WeightVerification.task_result cycle) <> "skip" ->
  PluginRegistry.status (WeightVerification.task_result cycle) <> "pass" ->
  PluginRegistry.status (WeightVerification.task_result cycle) = "fail"
  /\ WeightVerification.submitted cycle = None
  /\ exists cp chain_params weight_result rows on_chain,
       Runtime.checkpoint context = Some cp
       /\ WeightVerification.chain_params_of cp = Py.Ok chain_params
       /\ ComputeWeights.compute_weights
            (map MinerMetrics.from_accumulator (CheckpointWindow.accumulators cp)).*2
            (CheckpointWindow.scoring_config cp) chain_params = Py.Ok weight_result
       /\ let primary_hotkey :=
            LedgerManifest.primary_hotkey (CheckpointWindow.manifest cp) in
          let comparison := WeightVerification.compare self cp chain_params weight_result in
          primary_hotkey ∈ hotkeys
          /\ W = Some rows
          /\ rows !! Z.to_nat (WeightVerification.index_of primary_hotkey hotkeys)
             = Some on_chain
          /\ length on_chain = Z.to_nat (ChainParamsSnapshot.n_neurons chain_params)
          /\ WeightVerification.comparison_error comparison = None
          /\ (1 - WeightVerification.tolerance self
               <=? WeightVerification.cosine_sim comparison)%float = false.
Proof.
  intros Hret Hskip Hpass.
  apply on_cycle_inv in Hret
    as [(Hs & _)
       |(cp & chain_params & weight_result & unsigned & Hcp & _ & Hchain & Hrun & Hrest)].
  { contradiction. }
  cbn zeta in Hrest. destruct Hrest as (Hstatus & _ & _ & Hsubmitted & Htask).
  rewrite Htask, signed_status, Hstatus in Hpass |- *.
  destruct (WeightVerification.matches _) eqn:Hmatch; [contradiction|].
  split; [reflexivity|]. split; [by rewrite Hsubmitted|].
  destruct (compare_mismatch self cp chain_params weight_result Hmatch)
    as (Hin & (rows & on_chain & HW & Hrow & _ & Hlen) & Herr & Hcos).
  exists cp, chain_params, weight_result, rows, on_chain. by repeat split.
Qed.

(** X28.  The Brier cross-check informs and does not decide, unless it
    overflows.  When its loops run to the end, the weight plugin ends with
    the status and makes the submission (or raises the exception) of a
    cycle on the same checkpoint with no deltas at all, whatever deltas and
    accumulator state the context holds; mismatches only show in the
    evidence.  The loops end early only by the [OverflowError] of the
    squaring, and that exception leaves [on_cycle] before any weight is
    computed, unless the cycle skips. *)
Theorem brier_check_does_not_gate_weights
    (self : WeightVerification.WeightVerificationHandler)
    (checkpoint : option CheckpointWindow.t) (deltas : list DeltaWindow.t)
    (state : gmap string Sync.BrierRow) (now : datetime.t) :
  let with_deltas :=
    WeightVerification.on_cycle self (Runtime.mkContext checkpoint deltas state) now in
  let without :=
    WeightVerification.on_cycle self (Runtime.mkContext checkpoint [] ∅) now in
  match WeightVerification.brier_counts deltas with
  | Py.Ok _ =>
      match with_deltas, without with
      | PluginRegistry.Returns cycle, PluginRegistry.Returns cycle' =>
          PluginRegistry.status (WeightVerification.task_result cycle)
          = PluginRegistry.status (WeightVerification.task_result cycle')
          /\ WeightVerification.submitted cycle = WeightVerification.submitted cycle'
      | PluginRegistry.Raises message, PluginRegistry.Raises message' => message = message'
      | _, _ => False
      end
  | Py.Raise e =>
      e = Py.OverflowError
      /\ match with_deltas with
         | PluginRegistry.Returns cycle =>
             PluginRegistry.status (WeightVerification.task_result cycle) = "skip"
             /\ without = PluginRegistry.Returns cycle
         | PluginRegistry.Raises message => message = str_of_exception Py.OverflowError
         end
  end.
Proof.
  cbn zeta. pose proof (brier_counts_bounded deltas) as Hcounts.
  unfold WeightVerification.on_cycle. cbn [Runtime.checkpoint Runtime.deltas].
  change (WeightVerification.brier_counts []) with (Py.Ok (0, 0)).
  destruct (WeightVerification.brier_counts deltas) as [[checks mismatches]|e].
  - destruct checkpoint as [cp|]; [|by split].
    destruct ((map MinerMetrics.from_accumulator (CheckpointWindow.accumulators cp)).*2)
      as [|m ms]; [by split|].
    cbn [mbind result_bind Py.bind].
    destruct (WeightVerification.chain_params_of cp) as [chain_params|e];
      cbn [mbind result_bind Py.bind]; [|reflexivity].
    destruct (ComputeWeights.compute_weights (m :: ms) _ chain_params) as [weight_result|e];
      cbn [mbind result_bind Py.bind]; [|reflexivity].
    destruct (WeightVerification.matches _ && _).
    + destruct (set_weights _ _) as [[result_ok msg]|message];
        cbn [WeightVerification.task_result WeightVerification.submitted];
        destruct context_wallet; by split.
    + cbn [WeightVerification.task_result WeightVerification.submitted].
      destruct context_wallet; by split.
  - subst e. split; [reflexivity|].
    destruct checkpoint as [cp|]; [|by split].
    destruct ((map MinerMetrics.from_accumulator (CheckpointWindow.accumulators cp)).*2)
      as [|m ms]; [by split|].
    reflexivity.
Qed.

Lemma attestation_verifies (unsigned : PluginRegistry.TaskResult) (wallet : Wallet) :
  (forall msg, keypair_verify (ss58_address wallet) msg (hotkey_sign wallet msg)
               = Py.Ok true) ->
  (forall msg, hotkey_sign wallet msg <> "") ->
  Attestation.verify_attestation
    (PluginRegistry.set_attestation unsigned
       (Attestation.create_attestation unsigned wallet))
    (ss58_address wallet) = true.
Proof.
  intros Hverify Hsig. unfold Attestation.verify_attestation, Attestation.create_attestation.
  cbn [PluginRegistry.attestation PluginRegistry.set_attestation].
  destruct (String.eqb_spec (Hex.hex (hotkey_sign wallet
                                        (compute_hash (Attestation.payload unsigned)))) "")
    as [Hempty|_].
  { apply hex_empty in Hempty. by apply Hsig in Hempty. }
  rewrite fromhex_hex.
  change (Attestation.payload (PluginRegistry.mkResult _ _ _ _ _ _))
    with (Attestation.payload unsigned).
  by rewrite Hverify.
Qed.

(** X29.  With a wallet in the context whose keypair accepts the signatures
    it makes (and makes no empty one), every result of the weight plugin
    that is not a skip carries an attestation that [verify_attestation]
    accepts for the wallet's address; a skip carries none, and
    [verify_attestation] rejects it. *)
Theorem plugin_result_is_attested
    (self : WeightVerification.WeightVerificationHandler)
    (context : Runtime.AuditorContext) (now : datetime.t)
    (cycle : WeightVerification.Cycle) (wallet : Wallet) :
  context_wallet = Some wallet ->
  (forall msg, keypair_verify (ss58_address wallet) msg (hotkey_sign wallet msg)
               = Py.Ok true) ->
  (forall msg, hotkey_sign wallet msg <> "") ->
  WeightVerification.on_cycle self context now = PluginRegistry.Returns cycle ->
  Attestation.verify_attestation (WeightVerification.task_result cycle) (ss58_address wallet)
  = negb (String.eqb (PluginRegistry.status (WeightVerification.task_result cycle)) "skip").
Proof.
  intros Hwallet Hverify Hsig Hret.
  apply on_cycle_inv in Hret
    as [(Hs & Ha & _)
       |(cp & chain_params & weight_result & unsigned & _ & _ & _ & _ & Hrest)].
  - rewrite Hs. unfold Attestation.verify_attestation. by rewrite Ha.
  - cbn zeta in Hrest. destruct Hrest as (Hstatus & _ & _ & _ & Htask).
    rewrite Htask, Hwallet. rewrite attestation_verifies by assumption.
    cbn [PluginRegistry.status PluginRegistry.set_attestation]. rewrite Hstatus.
    by destruct (WeightVerification.matches _).
Qed.

End PluginFacts.

(** ** Sample runs *)

Import Samples.

(** *** Sample runs *)

Lemma compute_weights_order_irrelevant_witness :
  ComputeWeights.compute_weights three_miners default_config (chain 10 (Some 0) 1)
  = ComputeWeights.compute_weights [ miner 1 0.3; miner 2 0.5; miner 3 0.9 ]
      default_config (chain 10 (Some 0) 1).
Proof.
  apply compute_weights_order_irrelevant.
  - apply (bool_decide_unpack _). vm_compute. exact I.
  - unfold three_miners.
    etrans; [apply perm_swap|]. apply perm_skip. apply perm_swap.
Defined.

Lemma compute_weights_output_well_formed_witness :
  exists r,
    ComputeWeights.compute_weights three_miners default_config (chain 10 (Some 0) 1)
    = Py.Ok r
    /\ length (ComputeWeights.uids r) = length (ComputeWeights.uint16_weights r)
    /\ Forall (fun w => w <> 0) (ComputeWeights.uint16_weights r)
    /\ StronglySorted Z.lt (ComputeWeights.uids r)
    /\ Forall (fun uid => 0 <= uid < 10) (ComputeWeights.uids r).
Proof.
  eexists. split; [vm_compute; reflexivity|].
  apply (compute_weights_output_well_formed three_miners default_config
           (chain 10 (Some 0) 1)); [discriminate|vm_compute; reflexivity].
Defined.

Lemma compute_weights_audit_trail_witness :
  exists r,
    ComputeWeights.compute_weights three_miners default_config (chain 10 (Some 0) 1)
    = Py.Ok r
    /\ dom (ComputeWeights.skill_scores r) = list_to_set [ 3; 1; 2 ]
    /\ dom (ComputeWeights.dimension_scores r) = list_to_set [ 3; 1; 2 ].
Proof.
  eexists. split; [vm_compute; reflexivity|].
  destruct (compute_weights_audit_trail three_miners default_config
              (chain 10 (Some 0) 1) _ ltac:(discriminate) ltac:(vm_compute; reflexivity))
    as (Hs & Hd & _).
  split; [exact Hs|exact Hd].
Defined.

Lemma burn_rate_overrides_burn_uid_witness :
  exists r,
    ComputeWeights.compute_weights three_miners default_config (chain 10 (Some 0) 1)
    = Py.Ok r
    /\ ComputeWeights.raw_weights r !! 0 = Some (F32.round32 0.9).
Proof.
  eexists. split; [vm_compute; reflexivity|].
  apply (burn_rate_overrides_burn_uid three_miners default_config (chain 10 (Some 0) 1)
           default_cfg three_scores 0 _
           ltac:(discriminate) ltac:(vm_compute; reflexivity) ltac:(vm_compute; reflexivity)
           ltac:(vm_compute; reflexivity) ltac:(reflexivity) ltac:(reflexivity)
           ltac:(vm_compute; reflexivity) ltac:(vm_compute; reflexivity)
           0 0%float ltac:(lia) ltac:(vm_compute; reflexivity)).
Defined.

Lemma read_config_defaults_witness :
  ComputeWeights.read_config (ScoringConfigSnapshot.mk [ ("unrelated", JInt 1) ])
  = Py.Ok config_defaults.
Proof.
  apply read_config_defaults. intros key Hkey. unfold config_sections in Hkey.
  repeat (apply elem_of_cons in Hkey as [->|Hkey]); [..|by apply elem_of_nil in Hkey];
    reflexivity.
Defined.

Lemma compute_weights_malformed_config_witness :
  Py.is_ok (ComputeWeights.compute_weights three_miners
              (ScoringConfigSnapshot.mk [ ("normalization", JInt 3) ])
              (chain 10 (Some 0) 1))
  = false.
Proof.
  apply (compute_weights_malformed_config three_miners [ ("normalization", JInt 3) ]
           (chain 10 (Some 0) 1) "normalization").
  - unfold config_sections. set_solver.
  - exists (JInt 3). split; [reflexivity|]. intros fields. discriminate.
Defined.

(** *** Sample stores *)

Lemma cutoff_in_range : datetime.in_range cutoff.
Proof. unfold datetime.in_range, cutoff. cbn. lia. Qed.

Lemma put_checkpoint_retention_witness :
  let cp := checkpoint 9 (clock 1 12 0) in
  let with_chain :=
    CheckpointWindow.mk (CheckpointWindow.manifest cp) (CheckpointWindow.roster cp)
      (CheckpointWindow.accumulators cp) (CheckpointWindow.scoring_config cp)
      (Some (chain 10 (Some 0) 1)) in
  let holding_chain := (FilesystemStore.put_checkpoint empty_store with_chain cutoff).1 in
  (FilesystemStore.put_checkpoint empty_store cp cutoff).2 = FilesystemStore.checkpoint_id cp
  /\ FilesystemStore.get_latest_checkpoint
       (FilesystemStore.put_checkpoint empty_store cp cutoff).1 = Some cp
  /\ FilesystemStore.get_latest_checkpoint
       (FilesystemStore.put_checkpoint empty_store cp (clock 3 0 0)).1 = None
  /\ FilesystemStore.checkpoints_dir (FilesystemStore.put_checkpoint holding_chain cp cutoff).1
       !! FilesystemStore.checkpoint_id cp
     = Some with_chain.
Proof.
  cbn zeta.
  destruct (put_checkpoint_retention empty_store (checkpoint 9 (clock 1 12 0)) cutoff
              cutoff_in_range (clock_in_range 1 12 0 ltac:(lia) ltac:(lia) ltac:(lia)))
    as (Hid & _ & _ & _ & _ & Hkept).
  destruct (put_checkpoint_retention empty_store (checkpoint 9 (clock 1 12 0)) (clock 3 0 0)
              (clock_in_range 3 0 0 ltac:(lia) ltac:(lia) ltac:(lia))
              (clock_in_range 1 12 0 ltac:(lia) ltac:(lia) ltac:(lia)))
    as (_ & _ & _ & _ & _ & Hdropped).
  split; [exact Hid|]. split; [exact (Hkept eq_refl)|]. split; [exact (Hdropped eq_refl)|].
  vm_compute. reflexivity.
Defined.

Lemma put_delta_stores_unexpired_witness :
  let old := delta 1 (clock 1 10 0) (clock 1 11 0) in
  let new := delta 1 (clock 2 10 0) (clock 2 11 0) in
  let self' := (FilesystemStore.put_delta store_one_delta new (clock 2 0 0)).1 in
  stored self' 1 (FilesystemStore.delta_id_of new) new
  /\ (stored self' 1 (FilesystemStore.delta_id_of old) old
      <-> datetime.seconds_key (clock 2 0 0) <= datetime.seconds_key (clock 1 10 0)
          /\ stored store_one_delta 1 (FilesystemStore.delta_id_of old) old).
Proof.
  cbn zeta.
  destruct (put_delta_stores_unexpired store_one_delta
              (delta 1 (clock 2 10 0) (clock 2 11 0)) (clock 2 0 0)
              store_one_delta_well_formed
              (clock_in_range 2 0 0 ltac:(lia) ltac:(lia) ltac:(lia))
              (clock_in_range 2 10 0 ltac:(lia) ltac:(lia) ltac:(lia))
              (clock_in_range 2 11 0 ltac:(lia) ltac:(lia) ltac:(lia)))
    as (_ & Hspec).
  split.
  - apply Hspec. split; [vm_compute; discriminate|].
    rewrite bool_decide_eq_true_2 by (split; reflexivity). reflexivity.
  - rewrite Hspec.
    rewrite bool_decide_eq_false_2; [reflexivity|].
    intros [_ Hid]. vm_compute in Hid. discriminate Hid.
Defined.

Lemma latest_checkpoint_within_epoch_witness :
  FilesystemStore.get_latest_checkpoint store_two_days = Some (checkpoint 9 (clock 2 12 0)).
Proof.
  assert (Hwf : forall id cp,
            FilesystemStore.checkpoints_dir store_two_days !! id = Some cp ->
            id = FilesystemStore.checkpoint_id cp
            /\ LedgerManifest.checkpoint_epoch (CheckpointWindow.manifest cp) = 9
            /\ datetime.in_range (LedgerManifest.window_end (CheckpointWindow.manifest cp))).
  { intros id cp. unfold store_two_days. cbn [FilesystemStore.checkpoints_dir].
    intros [[<- <-]|[_ [<- <-]%lookup_singleton_Some]]%lookup_insert_Some.
    - split; [reflexivity|]. split; [reflexivity|]. apply clock_in_range; lia.
    - split; [reflexivity|]. split; [reflexivity|]. apply clock_in_range; lia. }
  pose proof (latest_checkpoint_within_epoch store_two_days 9 Hwf) as Hlatest.
  destruct (FilesystemStore.get_latest_checkpoint store_two_days) as [cp|].
  - destruct Hlatest as [Hcp Hmax].
    destruct (Hwf _ _ Hcp) as (_ & _ & _).
    specialize (Hmax (FilesystemStore.checkpoint_id (checkpoint 9 (clock 2 12 0)))
                     (checkpoint 9 (clock 2 12 0)) eq_refl).
    unfold store_two_days in Hcp. cbn [FilesystemStore.checkpoints_dir] in Hcp.
    apply lookup_insert_Some in Hcp as [[_ <-]|[_ [_ <-]%lookup_singleton_Some]].
    + vm_compute in Hmax. exfalso. apply Hmax. reflexivity.
    + reflexivity.
  - exfalso. apply (f_equal (fun m => m !! FilesystemStore.checkpoint_id
                                            (checkpoint 9 (clock 2 12 0)))) in Hlatest.
    vm_compute in Hlatest. discriminate Hlatest.
Defined.

Lemma put_delta_then_get_witness :
  let new := delta 1 (clock 2 10 0) (clock 2 11 0) in
  let self' := (FilesystemStore.put_delta store_one_delta new (clock 2 0 0)).1 in
  FilesystemStore.delta_id_of new ∈ FilesystemStore.list_deltas self' 1 None
  /\ FilesystemStore.get_delta self' (FilesystemStore.delta_id_of new) = Some new.
Proof.
  cbn zeta.
  apply (put_delta_then_get store_one_delta (delta 1 (clock 2 10 0) (clock 2 11 0))
           (clock 2 0 0)).
  - apply clock_in_range; lia.
  - apply clock_in_range; lia.
  - vm_compute. discriminate.
  - intros name dir Hname Hne. exfalso. apply Hne. clear Hne.
    unfold store_one_delta, FilesystemStore.put_delta, FilesystemStore._prune in Hname.
    cbn [fst FilesystemStore.deltas_dir] in Hname.
    apply map_lookup_filter_Some in Hname as [Hname _].
    apply lookup_fmap_Some in Hname as (dir0 & _ & Hname).
    apply lookup_insert_Some in Hname as [[<- _]|[_ Hname]]; [reflexivity|].
    cbn in Hname. by rewrite lookup_empty in Hname.
Defined.

(** *** Sample cycles *)

Lemma sync_cycle_takes_new_deltas_of_own_epoch_witness :
  let cycle := Sync.sync_cycle fresh_auditor serving_one_delta 0 in
  cycle.2 = (Some (checkpoint 1 (clock 1 12 0)), Sync.latest_deltas cycle.1)
  /\ Sync.latest_deltas cycle.1 = [ delta 1 (clock 1 10 0) (clock 1 11 0) ]
  /\ Sync.epoch cycle.1 = 1.
Proof.
  cbn zeta.
  destruct (sync_cycle_takes_new_deltas_of_own_epoch fresh_auditor serving_one_delta
              (checkpoint 1 (clock 1 12 0)) 0 eq_refl eq_refl)
    as (Hret & _ & _ & Hepoch & _).
  split; [exact Hret|]. split; [vm_compute; reflexivity|exact Hepoch].
Defined.

Lemma unrecorded_epoch_change_is_not_counted_witness :
  let change := Sync._handle_epoch_change (Sync.init 1 3) (checkpoint 5 (clock 1 12 0)) 0 in
  Sync.status change.2 = "accepted"
  /\ Sync.epoch change.1 = 5
  /\ Sync.recompute_history change.1 = [].
Proof.
  cbn zeta.
  destruct (unrecorded_epoch_change_is_not_counted (Sync.init 1 3)
              (checkpoint 5 (clock 1 12 0)) 0 eq_refl)
    as (_ & Hhistory & _ & _ & Haccept).
  destruct (Haccept eq_refl ltac:(reflexivity) ltac:(reflexivity)) as (Hstatus & Hepoch & _).
  split; [exact Hstatus|]. split; [exact Hepoch|exact Hhistory].
Defined.

(** *** A sample export *)

Lemma exported_windows_verify_witness :
  let verifier := Verifier.mkVerifier "primary_hk" in
  Verifier.valid
    (Verifier.verify_checkpoint verifier
       (Exporter.export_checkpoint exporter (Some (Exporter.mkRow 1 None None None))
          (clock 1 12 0) (clock 1 12 5) None [] [ accumulator_entry 1 10 50 ]).2) = true
  /\ Verifier.valid
       (Verifier.verify_delta verifier
          (Exporter.export_delta exporter (Some (Exporter.mkRow 1 None None None))
             (clock 1 10 0) (clock 1 11 0) (clock 1 12 5) [] []).2) = true.
Proof.
  cbn zeta.
  apply (exported_windows_verify exporter (Some (Exporter.mkRow 1 None None None))
           (clock 1 12 0) (clock 1 10 0) (clock 1 11 0) (clock 1 12 5) None []
           [ accumulator_entry 1 10 50 ] [] []).
  - intros msg. cbn. by rewrite String.eqb_refl.
  - intros msg. cbn. rewrite append_cons. discriminate.
Defined.

(** *** Sample cycles of the plugin *)

Lemma plugin_submits_computed_weights_witness :
  exists cycle,
    @WeightVerification.on_cycle _ _ _ _ _ _ _ agreeing_metagraph _ handler context
      (clock 1 13 0) = PluginRegistry.Returns cycle
    /\ WeightVerification.submitted cycle = Some ([0; 1; 2], [65535; 26032; 39504])
    /\ PluginRegistry.status (WeightVerification.task_result cycle) = "pass".
Proof.
  eexists. split; [vm_compute; reflexivity|]. split; [reflexivity|].
  refine (proj1 (@plugin_submits_computed_weights _ _ _ _ _ _ _ agreeing_metagraph _
                   handler context (clock 1 13 0) _ [0; 1; 2] [65535; 26032; 39504] _ _));
    vm_compute; reflexivity.
Defined.

Lemma plugin_fails_only_on_computed_mismatch_witness :
  exists cycle,
    @WeightVerification.on_cycle _ _ _ _ _ _ _ diverging_metagraph _ handler context
      (clock 1 13 0) = PluginRegistry.Returns cycle
    /\ PluginRegistry.status (WeightVerification.task_result cycle) = "fail"
    /\ WeightVerification.submitted cycle = None.
Proof.
  eexists. split; [vm_compute; reflexivity|].
  refine (let H := @plugin_fails_only_on_computed_mismatch _ _ _ _ _ _ _
                     diverging_metagraph _ handler context (clock 1 13 0) _ _ _ _ in
          conj (proj1 H) (proj1 (proj2 H))).
  - vm_compute; reflexivity.
  - vm_compute; discriminate.
  - vm_compute; discriminate.
Defined.

Lemma plugin_result_is_attested_witness :
  exists cycle,
    @WeightVerification.on_cycle _ _ _ _ _ _ _ agreeing_metagraph _ handler context
      (clock 1 13 0) = PluginRegistry.Returns cycle
    /\ Attestation.verify_attestation (WeightVerification.task_result cycle) "auditor_hk"
       = true.
Proof.
  eexists. split; [vm_compute; reflexivity|].
  etransitivity;
    [refine (@plugin_result_is_attested _ _ _ _ _ _ _ agreeing_metagraph _ handler context
               (clock 1 13 0) _ "auditor_hk" _ _ _ _)|reflexivity].
  - reflexivity.
  - intros msg. cbn. by rewrite String.eqb_refl.
  - intros msg. cbn. rewrite append_cons. discriminate.
  - vm_compute. reflexivity.
Defined.
